(** * Vérité Sauvage authenticity portal: fingerprints, artifact resolution,
      ledger records and verdicts

    A shallow embedding of the portal's TypeScript front end and of its
    Solidity contract, followed by the properties stated about them.

    Conventions of the embedding.
    - A JavaScript string is a [string]: the sequence of the bytes of its
      UTF-8 encoding.  [trim], [toUpperCase] and [length] are exact on the
      ASCII range, which is where short codes, digits and form values live;
      beyond it JavaScript counts UTF-16 units and maps Unicode letters.
    - A JavaScript number holding an integer is a [Z]; [NaN] is a separate
      constructor.  The embedding is exact on the safe integers, up to
      [JS.MAX_SAFE_INTEGER] = 2^53 - 1: beyond them a JavaScript number is
      a rounded double, so statements about [parseInt] and [toString] are
      made on the safe range, and a number handed to a contract method is
      refused outside of it, as web3 refuses it.
    - A [uint256] or [bytes32] is an [N] or [Z] below 2^256.
    - An [async] function that can throw returns a [res]. *)

From Stdlib Require Import ZArith NArith List String Ascii Lia Bool.
From Stdlib.Strings Require Import Byte.
From Stdlib.Numbers Require Import DecimalString DecimalN DecimalZ.
From stdpp Require Import base gmap strings list.
Import ListNotations.

Local Open Scope string_scope.
Local Open Scope list_scope.

(** ** Exceptions and results *)

Inductive exn :=
| Error (message : string)      (* [throw new Error(message)] in the front end *)
| LibError (origin : string).   (* raised by the runtime, web3, fetch or the wallet *)

Inductive res (A : Type) :=
| Ret (a : A)
| Throw (e : exn).
Arguments Ret {A} a.
Arguments Throw {A} e.

Definition bind {A B} (r : res A) (k : A -> res B) : res B :=
  match r with
  | Ret a => k a
  | Throw e => Throw e
  end.

Notation "'try!' x ':=' r 'in' k" := (bind r (fun x => k))
  (at level 10, x binder, r at level 100, k at level 200).

(** ** JavaScript built-ins used by the front end *)

Module JS.

(** A number as the front end meets it: an integer or [NaN]. *)
Inductive number :=
| NaN
| Int (z : Z).

(** WhiteSpace and LineTerminator code points of the ASCII range. *)
Definition isWhiteSpace (c : ascii) : bool :=
  let n := nat_of_ascii c in
  Nat.eqb n 32 || (Nat.leb 9 n && Nat.leb n 13).

Fixpoint trimStart (s : string) : string :=
  match s with
  | EmptyString => EmptyString
  | String c r => if isWhiteSpace c then trimStart r else s
  end.

Fixpoint trimEnd (s : string) : string :=
  match s with
  | EmptyString => EmptyString
  | String c r =>
      match trimEnd r with
      | EmptyString => if isWhiteSpace c then EmptyString else String c EmptyString
      | t => String c t
      end
  end.

(** A string made of white space only. *)
Fixpoint allWhite (s : string) : bool :=
  match s with
  | EmptyString => true
  | String c r => isWhiteSpace c && allWhite r
  end.

(** A string made of characters of one class only, as a regular
    expression [/^[...]*$/] tests it. *)
Fixpoint all (p : ascii -> bool) (s : string) : bool :=
  match s with
  | EmptyString => true
  | String c r => p c && all p r
  end.

(** [String.prototype.trim] *)
Definition trim (s : string) : string := trimEnd (trimStart s).

Definition upperChar (c : ascii) : ascii :=
  let n := nat_of_ascii c in
  if Nat.leb 97 n && Nat.leb n 122 then ascii_of_nat (n - 32) else c.

(** [String.prototype.toUpperCase] *)
Fixpoint toUpperCase (s : string) : string :=
  match s with
  | EmptyString => EmptyString
  | String c r => String (upperChar c) (toUpperCase r)
  end.

Definition lowerChar (c : ascii) : ascii :=
  let n := nat_of_ascii c in
  if Nat.leb 65 n && Nat.leb n 90 then ascii_of_nat (n + 32) else c.

(** [String.prototype.toLowerCase] *)
Fixpoint toLowerCase (s : string) : string :=
  match s with
  | EmptyString => EmptyString
  | String c r => String (lowerChar c) (toLowerCase r)
  end.

(** Truthiness of a string: every string but the empty one. *)
Definition truthy (s : string) : bool :=
  match s with
  | EmptyString => false
  | String _ _ => true
  end.

(** [a || b] on strings *)
Definition or_else (a b : string) : string := if truthy a then a else b.

Definition isDigit (c : ascii) : bool :=
  let n := nat_of_ascii c in Nat.leb 48 n && Nat.leb n 57.

(** [s.replace(/[^\d]/g, "")] *)
Fixpoint keepDigits (s : string) : string :=
  match s with
  | EmptyString => EmptyString
  | String c r => if isDigit c then String c (keepDigits r) else keepDigits r
  end.

(** The longest prefix of decimal digits. *)
Fixpoint digitPrefix (s : string) : string :=
  match s with
  | EmptyString => EmptyString
  | String c r => if isDigit c then String c (digitPrefix r) else EmptyString
  end.

(** Value of a non-empty string of decimal digits. *)
Definition decimalValue (s : string) : option N :=
  match s with
  | EmptyString => None
  | _ => option_map N.of_uint (NilEmpty.uint_of_string s)
  end.

(** [Number.MAX_SAFE_INTEGER] *)
Definition MAX_SAFE_INTEGER : Z := 2 ^ 53 - 1.

(** [parseInt(s, 10)]: leading white space, an optional sign, then the
    longest run of digits; [NaN] when that run is empty.  The value is that
    of JavaScript while it is a safe integer; a longer run is rounded to a
    double there, which is not modelled. *)
Definition parseInt (s : string) : number :=
  let t := trimStart s in
  let '(neg, body) :=
    match t with
    | String "-"%char r => (true, r)
    | String "+"%char r => (false, r)
    | _ => (false, t)
    end in
  match decimalValue (digitPrefix body) with
  | None => NaN
  | Some n => Int (if neg : bool then - Z.of_N n else Z.of_N n)
  end.

(** Decimal rendering of a non-negative integer. *)
Definition decimal (n : N) : string := NilZero.string_of_uint (N.to_uint n).

(** [Number.prototype.toString] and [String(n)]: the decimal digits, which
    is what JavaScript prints for an integer below 1e21. *)
Definition toString (x : number) : string :=
  match x with
  | NaN => "NaN"
  | Int z => if (z <? 0)%Z then String "-"%char (decimal (Z.abs_N z))
             else decimal (Z.to_N z)
  end.

(** [e.message] *)
Definition message (e : exn) : string :=
  match e with
  | Error m => m
  | LibError o => o
  end.

(** [e?.message || String(e)] for a caught exception *)
Definition messageOf (e : exn) : string := or_else (message e) "Error".

End JS.

(** ** Keccak-256, the hash behind [web3.utils.soliditySha3] and
       Solidity's [keccak256] *)

Module Keccak.

Local Open Scope N_scope.

Definition w64 : N := 2 ^ 64.

Definition rotl64 (x n : N) : N :=
  (N.lor (N.shiftl x n) (N.shiftr x (64 - n))) mod w64.

(** Round constants of Keccak-f[1600]. *)
Definition RC : list N :=
  [ 0x0000000000000001; 0x0000000000008082; 0x800000000000808A;
    0x8000000080008000; 0x000000000000808B; 0x0000000080000001;
    0x8000000080008081; 0x8000000000008009; 0x000000000000008A;
    0x0000000000000088; 0x0000000080008009; 0x000000008000000A;
    0x000000008000808B; 0x800000000000008B; 0x8000000000008089;
    0x8000000000008003; 0x8000000000008002; 0x8000000000000080;
    0x000000000000800A; 0x800000008000000A; 0x8000000080008081;
    0x8000000000008080; 0x0000000080000001; 0x8000000080008008 ].

(** Rotation offsets, lane (x, y) at position x + 5 y. *)
Definition RHO : list N :=
  [  0;  1; 62; 28; 27;
    36; 44;  6; 55; 20;
     3; 10; 43; 25; 39;
    41; 45; 15; 21;  8;
    18;  2; 61; 56; 14 ].

Definition lane (st : list N) (x y : nat) : N :=
  nth (x mod 5 + 5 * (y mod 5))%nat st 0.

Definition grid (f : nat -> nat -> N) : list N :=
  flat_map (fun y => map (fun x => f x y) (seq 0 5)) (seq 0 5).

Definition theta (a : list N) : list N :=
  let c x := fold_right N.lxor 0 (map (lane a x) (seq 0 5)) in
  let d x := N.lxor (c (x + 4)%nat) (rotl64 (c (x + 1)%nat) 1) in
  grid (fun x y => N.lxor (lane a x y) (d x)).

Definition rho_pi (a : list N) : list N :=
  grid (fun x y =>
          let x0 := ((x + 3 * y) mod 5)%nat in
          rotl64 (lane a x0 x) (lane RHO x0 x)).

Definition chi (b : list N) : list N :=
  grid (fun x y =>
          N.lxor (lane b x y)
                 (N.ldiff (lane b (x + 2) y) (lane b (x + 1) y))).

Definition iota (rc : N) (a : list N) : list N :=
  match a with
  | a0 :: rest => N.lxor a0 rc :: rest
  | [] => []
  end.

Definition round (a : list N) (rc : N) : list N :=
  iota rc (chi (rho_pi (theta a))).

Definition keccak_f (a : list N) : list N := fold_left round RC a.

(** Rate of Keccak-256 in bytes (capacity 512 bits). *)
Definition rate : nat := 136.

(** Multi-rate padding 10*1 with Keccak's original domain byte 0x01. *)
Definition pad (m : list N) : list N :=
  let q := (rate - length m mod rate)%nat in
  match q with
  | 1%nat => m ++ [0x81]
  | _ => m ++ [0x01] ++ repeat 0 (q - 2) ++ [0x80]
  end.

Fixpoint le_to_N (bs : list N) : N :=
  match bs with
  | [] => 0
  | b :: r => b + 256 * le_to_N r
  end.

Fixpoint N_to_le (k : nat) (v : N) : list N :=
  match k with
  | O => []
  | S k' => v mod 256 :: N_to_le k' (v / 256)
  end.

Fixpoint lanes_of (k : nat) (bs : list N) : list N :=
  match k with
  | O => []
  | S k' => le_to_N (firstn 8 bs) :: lanes_of k' (skipn 8 bs)
  end.

Definition absorb_block (st blk : list N) : list N :=
  keccak_f (map (fun p => N.lxor (fst p) (snd p)) (combine st (lanes_of 25 blk))).

(** One block per unit of fuel; [length bs] units always suffice. *)
Fixpoint absorb (fuel : nat) (st bs : list N) : list N :=
  match fuel with
  | O => st
  | S f =>
      match bs with
      | [] => st
      | _ => absorb f (absorb_block st (firstn rate bs)) (skipn rate bs)
      end
  end.

Definition keccak256_N (m : list N) : list N :=
  let p := pad m in
  firstn 32 (flat_map (N_to_le 8) (absorb (length p) (repeat 0 25) p)).

Definition keccak256 (m : list byte) : list byte :=
  map (fun n => default x00 (Byte.of_N n)) (keccak256_N (map Byte.to_N m)).

End Keccak.

Arguments Keccak.keccak256 : simpl never.

(** ** web3.utils: tight packing and [soliditySha3] *)

Module Web3.

(** A 32-byte word, read big-endian. *)
Definition bytes32 := N.

Definition w256 : Z := 2 ^ 256.

(** The typed arguments the front end passes: [{type: "string", value}]
    and [{type: "uint256", value}], the value of the latter given as a
    string. *)
Inductive SolArg :=
| SolString (value : string)
| SolUint256 (value : string).

(** Number parsing of a string value: an optional minus sign and decimal
    digits (the front end passes decimal renderings and number-input text);
    anything else is rejected. *)
Definition parseNumber (v : string) : option Z :=
  match v with
  | String "-"%char r => option_map (fun n => (- Z.of_N n)%Z) (JS.decimalValue r)
  | _ => option_map Z.of_N (JS.decimalValue v)
  end.

(** [k] bytes of [v], most significant first. *)
Fixpoint be_bytes (k : nat) (v : N) : list byte :=
  match k with
  | O => []
  | S k' => be_bytes k' (v / 256)%N ++ [default x00 (Byte.of_N (v mod 256)%N)]
  end.

Definition be_to_N (bs : list byte) : N :=
  fold_left (fun acc b => (acc * 256 + Byte.to_N b)%N) bs 0%N.

(** Packing of one argument: a string contributes its UTF-8 bytes with
    neither length nor padding, a uint256 its 32 big-endian bytes; a
    negative or too wide number is refused. *)
Definition solidityPack (a : SolArg) : res (list byte) :=
  match a with
  | SolString s => Ret (list_byte_of_string s)
  | SolUint256 v =>
      match parseNumber v with
      | None => Throw (LibError "web3: not a number")
      | Some z =>
          if (w256 <=? z)%Z then Throw (LibError "web3: uint exceeds width")
          else if (z <? 0)%Z then Throw (LibError "web3: uint is negative")
          else Ret (be_bytes 32 (Z.to_N z))
      end
  end.

Fixpoint packAll (args : list SolArg) : res (list byte) :=
  match args with
  | [] => Ret []
  | a :: rest =>
      try! h := solidityPack a in
      try! t := packAll rest in
      Ret (h ++ t)
  end.

(** The digest of the empty input, which [sha3] reports as [null]. *)
Definition SHA3_NULL : bytes32 :=
  0xc5d2460186f7233c927e7db2dcc703c0e500b653ca82273b7bfad8045d85a470%N.

Definition sha3 (bs : list byte) : option bytes32 :=
  let h := be_to_N (Keccak.keccak256 bs) in
  if (h =? SHA3_NULL)%N then None else Some h.

(** [web3.utils.soliditySha3(...args)]: [None] is JavaScript's [null]. *)
Definition soliditySha3 (args : list SolArg) : res (option bytes32) :=
  try! packed := packAll args in
  Ret (sha3 packed).

(** [/[0-9a-f]/] *)
Definition isLowerHex (c : ascii) : bool :=
  let n := nat_of_ascii c in
  (Nat.leb 48 n && Nat.leb n 57) || (Nat.leb 97 n && Nat.leb n 102).

(** [/[0-9A-F]/] *)
Definition isUpperHex (c : ascii) : bool :=
  let n := nat_of_ascii c in
  (Nat.leb 48 n && Nat.leb n 57) || (Nat.leb 65 n && Nat.leb n 70).

(** [/[0-9a-f]/i] *)
Definition isHexDigit (c : ascii) : bool := isLowerHex c || isUpperHex c.

(** [address.replace(/^0x/i, "")] *)
Definition strip0x (s : string) : string :=
  match s with
  | String "0"%char (String "x"%char r) => r
  | String "0"%char (String "X"%char r) => r
  | _ => s
  end.

(** The hexadecimal digits of a digest, most significant first. *)
Definition nibbles (bs : list byte) : list N :=
  flat_map (fun b => [(Byte.to_N b / 16)%N; (Byte.to_N b mod 16)%N]) bs.

(** The loop of [checkAddressChecksum]: a letter is upper case exactly
    where the digit of the digest at its place exceeds 7. *)
Fixpoint checksumLoop (address : string) (addressHash : list N) : bool :=
  match address, addressHash with
  | String c r, h :: hs =>
      (if (7 <? h)%N then Ascii.eqb (JS.upperChar c) c
       else Ascii.eqb (JS.lowerChar c) c)
      && checksumLoop r hs
  | _, _ => true
  end.

(** [web3.utils.checkAddressChecksum] *)
Definition checkAddressChecksum (address : string) : bool :=
  let a := strip0x address in
  checksumLoop a (nibbles (Keccak.keccak256 (list_byte_of_string (JS.toLowerCase a)))).

(** [web3.utils.isAddress]: forty hexadecimal digits after an optional
    [0x]; all of one case, or of mixed case with a valid checksum. *)
Definition isAddress (address : string) : bool :=
  let a := strip0x address in
  if negb (Nat.eqb (String.length a) 40 && JS.all isHexDigit a) then false
  else if JS.all isLowerHex a || JS.all isUpperHex a then true
  else checkAddressChecksum address.

End Web3.

Arguments Web3.be_bytes : simpl never.
Arguments Web3.be_to_N : simpl never.
Arguments Web3.sha3 : simpl never.
Arguments Web3.isAddress : simpl never.

(** ** The product attributes and their canonical encoding *)

Record ProductAttributes := {
  name : string;
  color : string;
  material : string;
  price : Z;
  year : Z
}.

(** The tightly packed encoding of the five fields in their fixed order:
    the three texts as their bytes, then price and year as 256-bit
    big-endian unsigned integers. *)
Definition encodePacked (a : ProductAttributes) : list byte :=
  list_byte_of_string (name a) ++ list_byte_of_string (color a)
    ++ list_byte_of_string (material a)
    ++ Web3.be_bytes 32 (Z.to_N (price a)) ++ Web3.be_bytes 32 (Z.to_N (year a)).

(** The 32-byte digest of that encoding. *)
Definition fingerprintOf (a : ProductAttributes) : Web3.bytes32 :=
  Web3.be_to_N (Keccak.keccak256 (encodePacked a)).

(** The record the ledger holds for these attributes. *)
Definition recordOf (a : ProductAttributes) : string * string * string * Z * Z :=
  (name a, color a, material a, price a, year a).

(** Attributes whose numbers fit an unsigned 256-bit integer. *)
Definition wellFormed (a : ProductAttributes) : Prop :=
  (0 <= price a < Web3.w256)%Z /\ (0 <= year a < Web3.w256)%Z.

(** Attributes whose numbers are safe integers, the ones a JavaScript
    number holds exactly. *)
Definition safeNumbers (a : ProductAttributes) : Prop :=
  (0 <= price a <= JS.MAX_SAFE_INTEGER)%Z /\ (0 <= year a <= JS.MAX_SAFE_INTEGER)%Z.

(** ** The contract artifact and its resolution to a deployment address *)

Module Artifact.

(** [networks[id]]: an object whose [address] may be missing. *)
Record NetworkEntry := { address : option string }.

(** The bundle served at [GET /artifact]; either part may be missing. *)
Record t := {
  abi : option (list string);
  networks : option (gmap string NetworkEntry)
}.

(** [new web3.eth.Contract(abi, address)] *)
Record Contract := { c_abi : list string; c_address : string }.

(** The property key a network id is coerced to. *)
Definition key (networkId : Z) : string := JS.toString (JS.Int networkId).

(** [artifact.networks?.[k]?.address], also the value read after the guard
    [artifact.networks && artifact.networks[k]]. *)
Definition addressAt (a : t) (k : string) : option string :=
  match networks a with
  | None => None
  | Some ns =>
      match ns !! k with
      | None => None
      | Some e => address e
      end
  end.

(** [!address] for a possibly undefined string. *)
Definition present (o : option string) : option string :=
  match o with
  | Some s => if JS.truthy s then Some s else None
  | None => None
  end.

(** The constructor wants the interface and, of an address that is given,
    that it passes [web3.utils.isAddress].  The contract is recorded with
    the address as it was passed (web3 keeps its checksummed spelling); an
    IBAN, which web3 would convert to an address, is refused here. *)
Definition newContract (abi : option (list string)) (addr : string) : res Contract :=
  match abi with
  | Some i =>
      if negb (JS.truthy addr) || Web3.isAddress addr
      then Ret {| c_abi := i; c_address := addr |}
      else Throw (LibError "web3: invalid address")
  | None => Throw (LibError "web3: contract interface missing")
  end.

(** The artifact written by solidity/scripts/deploy.js: the interface and
    the one network [out.networks["31337"] = { address }]. *)
Definition deployed (abi : list string) (addr : string) : t :=
  {| abi := Some abi;
     networks := Some {[ "31337" := {| address := Some addr |} ]} |}.

End Artifact.

(** [loadContract] of frontend/src/useContract.ts: the entry of the
    wallet's chain id or nothing. *)
Module UseContract.
Import Artifact.

Definition notDeployed (netId : Z) : exn :=
  Error ("Contract not deployed for network " +:+ key netId +:+ ".").

Definition loadContract (getArtifact : res (option Artifact.t)) (getChainId : res Z)
  : res Contract :=
  try! artifact := getArtifact in
  try! netId := getChainId in
  match artifact with
  | None => Throw (LibError "TypeError: artifact is null")
  | Some a =>
      let address :=
        match present (addressAt a (key netId)) with
        | Some s => Some s
        | None => present (addressAt a (key netId))
        end in
      match address with
      | None => Throw (notDeployed netId)
      | Some s => newContract (abi a) s
      end
  end.

End UseContract.

(** [loadContract] of src/useContract.ts (the variant with the Hardhat
    fallback). *)
Module UseContractLocal.
Import Artifact.

Definition invalidArtifact : exn := Error "Invalid contract artifact from backend.".

Definition noAddress (networkId : Z) : exn :=
  Error ("No contract address found in artifact for network " +:+ key networkId +:+ ".").

(** [artifact.networks && artifact.networks[k]]: is there an entry at all. *)
Definition hasEntry (a : t) (k : string) : bool :=
  match networks a with
  | None => false
  | Some ns => bool_decide (is_Some (ns !! k))
  end.

Definition loadContract (getArtifact : res (option Artifact.t)) (getId : res Z)
  : res Contract :=
  try! artifact := getArtifact in
  match artifact with
  | None => Throw invalidArtifact
  | Some a =>
      match abi a with
      | None => Throw invalidArtifact
      | Some _ =>
          try! networkId := getId in
          let address :=
            if hasEntry a (key networkId) then addressAt a (key networkId)
            else if hasEntry a "31337" then addressAt a "31337"
            else None in
          match present address with
          | None => Throw (noAddress networkId)
          | Some s => newContract (abi a) s
          end
      end
  end.

End UseContractLocal.

(** ** The ledger contract, solidity/contracts/FakeProdDetector.sol *)

Module FakeProdDetector.

Record Product := {
  name : string;
  color : string;
  material : string;
  price : Z;
  year : Z
}.

(** [event ProductUploaded(bytes32 indexed id, ...)] *)
Record ProductUploaded := { ev_id : Web3.bytes32; ev_product : Product }.

(** Storage [mapping(bytes32 => Product) private products] and the
    event log. *)
Record State := {
  products : gmap N Product;
  events : list ProductUploaded
}.

Definition deployed : State := {| products := ∅; events := [] |}.

(** The value a mapping holds at a key never written. *)
Definition zero : Product :=
  {| name := ""; color := ""; material := ""; price := 0; year := 0 |}.

Definition uploadProduct (id : Web3.bytes32) (name color material : string)
    (price year : Z) (st : State) : State :=
  let p := Build_Product name color material price year in
  {| products := <[id := p]> (products st);
     events := events st ++ [ {| ev_id := id; ev_product := p |} ] |}.

Definition getProduct (id : Web3.bytes32) (st : State)
  : string * string * string * Z * Z :=
  let p := default zero (products st !! id) in
  (name p, color p, material p, price p, year p).

(** A transaction calling [uploadProduct]. *)
Record Call := { arg_id : Web3.bytes32; arg_product : Product }.

Definition apply (st : State) (c : Call) : State :=
  let p := arg_product c in
  uploadProduct (arg_id c) (name p) (color p) (material p) (price p) (year p) st.

Definition run (st : State) (calls : list Call) : State := fold_left apply calls st.

(** The attributes of the latest call with key [id], if any. *)
Fixpoint lastUpload (id : Web3.bytes32) (calls : list Call) : option Product :=
  match calls with
  | [] => None
  | c :: rest =>
      match lastUpload id rest with
      | Some p => Some p
      | None => if bool_decide (arg_id c = id) then Some (arg_product c) else None
      end
  end.

Definition tupleOf (p : Product) : string * string * string * Z * Z :=
  (name p, color p, material p, price p, year p).

End FakeProdDetector.

(** The [uploadProduct] call that stores attributes under a key. *)
Definition uploadOf (id : N) (a : ProductAttributes) : FakeProdDetector.Call :=
  {| FakeProdDetector.arg_id := id;
     FakeProdDetector.arg_product :=
       FakeProdDetector.Build_Product (name a) (color a) (material a) (price a) (year a) |}.

(** ** Registration panels *)

(** The form state shared by both panels: every field is the text of its
    input. *)
Module Form.
Record t := {
  name : string;
  price : string;
  color : string;
  material : string;
  year : string
}.
End Form.

(** What a run of [register] did to the outside world and how it ended. *)
Module Run.

(** A sent [uploadProduct] transaction. *)
Record Tx := {
  from : string;
  to : string;
  call : FakeProdDetector.Call
}.

Inductive Final :=
| Returned                                   (* plain [return] *)
| Alerted (msg : string)                     (* [alert(msg)] then [return] *)
| Failed (msg : string)                      (* the [catch] block *)
| Registered (productId : Web3.bytes32) (shortCode : option string)
             (dataUrl : string).

Record t := {
  sent : list Tx;                 (* confirmed ledger transactions *)
  posted : list Web3.bytes32;     (* bodies accepted by POST /codes/register *)
  final : Final
}.

(** The product id of a run that went through. *)
Definition registeredId (r : t) : option Web3.bytes32 :=
  match final r with
  | Registered id _ _ => Some id
  | _ => None
  end.

(** The contract calls of the transactions sent. *)
Definition calls (r : t) : list FakeProdDetector.Call := map call (sent r).

End Run.

(** A JavaScript number handed to the contract method as a [uint256]
    argument: web3 refuses [NaN], negatives and numbers from
    [Number.MAX_SAFE_INTEGER] on, where a double no longer tells integers
    apart. *)
Definition abiUint (x : JS.number) : res Z :=
  match x with
  | JS.NaN => Throw (LibError "web3: invalid number value")
  | JS.Int z =>
      if ((z <? 0) || (JS.MAX_SAFE_INTEGER <=? z))%Z
      then Throw (LibError "web3: invalid number value")
      else Ret z
  end.

(** A big number ([BN]) handed to the contract method as a [uint256]
    argument: web3 refuses negatives and values wider than 256 bits. *)
Definition abiUintBN (z : Z) : res Z :=
  if ((z <? 0) || (Web3.w256 <=? z))%Z
  then Throw (LibError "web3: invalid number value")
  else Ret z.

(** The admin panel that also mints a short code (RegisterPanel.tsx with
    the [/codes/register] step). *)
Module AdminRegisterPanel.

Record Env := {
  ethereum : bool;                               (* [window.ethereum] *)
  requestAccounts : res unit;                    (* [eth_requestAccounts] *)
  getAccounts : res (list string);               (* [web3.eth.getAccounts()] *)
  currentYear : Z;                               (* [new Date().getFullYear()] *)
  loadContract : res Artifact.Contract;          (* [loadContract(web3)] *)
  send : Run.Tx -> res unit;                     (* [.send({ from })] *)
  codesRegister : Web3.bytes32 -> res string;    (* POST /codes/register *)
  toDataURL : string -> res string               (* [QRCode.toDataURL] *)
}.

(** Step 2 of [register]: the fields as they are hashed and uploaded. *)
Record Fields := {
  f_name : string;
  f_color : string;
  f_material : string;
  f_price : JS.number;
  f_year : JS.number
}.

Definition prepare (form : Form.t) (env : Env) : Fields :=
  let rawPrice := JS.keepDigits (Form.price form) in
  {| f_name := JS.trim (Form.name form);
     f_color := JS.trim (Form.color form);
     f_material := JS.trim (Form.material form);
     f_price := if JS.truthy rawPrice then JS.parseInt rawPrice else JS.Int 0;
     f_year := if JS.truthy (Form.year form) then JS.parseInt (Form.year form)
               else JS.Int (currentYear env) |}.

(** The attributes the prepared fields stand for, when both numbers are
    integers. *)
Definition attributes (f : Fields) : option ProductAttributes :=
  match f_price f, f_year f with
  | JS.Int p, JS.Int y =>
      Some {| name := f_name f; color := f_color f; material := f_material f;
              price := p; year := y |}
  | _, _ => None
  end.

(** Step 3: the product id. *)
Definition productId (f : Fields) : res (option Web3.bytes32) :=
  Web3.soliditySha3
    [ Web3.SolString (f_name f);
      Web3.SolString (f_color f);
      Web3.SolString (f_material f);
      Web3.SolUint256 (JS.toString (f_price f));
      Web3.SolUint256 (JS.toString (f_year f)) ].

(** [contract.methods.uploadProduct(idHex, name, color, material, price, year)] *)
Definition uploadCall (idHex : Web3.bytes32) (f : Fields) : res FakeProdDetector.Call :=
  try! p := abiUint (f_price f) in
  try! y := abiUint (f_year f) in
  Ret {| FakeProdDetector.arg_id := idHex;
         FakeProdDetector.arg_product :=
           FakeProdDetector.Build_Product (f_name f) (f_color f) (f_material f) p y |}.

(** The encoded short code in the deep link is left to the QR renderer:
    [toDataURL] receives the short code. *)
Definition register (busy : bool) (account : string) (form : Form.t) (env : Env)
  : Run.t :=
  let stop sent posted fin := {| Run.sent := sent; Run.posted := posted; Run.final := fin |} in
  let caught sent posted e := stop sent posted (Run.Failed (JS.messageOf e)) in
  if busy then stop [] [] Run.Returned
  else if negb (ethereum env)
  then stop [] [] (Run.Alerted "MetaMask (or another Web3 wallet) is required.")
  else
    match requestAccounts env with
    | Throw e => caught [] [] e
    | Ret _ =>
    match getAccounts env with
    | Throw e => caught [] [] e
    | Ret accounts =>
    let from := JS.or_else account (hd "" accounts) in
    if negb (JS.truthy from)
    then caught [] [] (Error "No Ethereum account available.")
    else
      let f := prepare form env in
      if negb (JS.truthy (f_name f))
      then stop [] [] (Run.Alerted "Please enter a Product / Model Name.")
      else
        match productId f with
        | Throw e => caught [] [] e
        | Ret None => caught [] [] (Error "Failed to compute productId hash.")
        | Ret (Some idHex) =>
        match loadContract env with
        | Throw e => caught [] [] e
        | Ret contract =>
        match uploadCall idHex f with
        | Throw e => caught [] [] e
        | Ret c =>
        let tx := {| Run.from := from; Run.to := Artifact.c_address contract; Run.call := c |} in
        match send env tx with
        | Throw e => caught [] [] e
        | Ret _ =>
        match codesRegister env idHex with
        | Throw e => caught [tx] [] e
        | Ret shortCode =>
        match toDataURL env shortCode with
        | Throw e => caught [tx] [idHex] e
        | Ret dataUrl =>
            stop [tx] [idHex] (Run.Registered idHex (Some shortCode) dataUrl)
        end end end end end end end end.

End AdminRegisterPanel.

(** The panel of frontend/src/RegisterPanel.tsx, whose product id also
    hashes the time of registration. *)
Module RegisterPanel.

Record Env := {
  loadContract : res Artifact.Contract;          (* [loadContract(web3)] *)
  now : Z;                                       (* [Math.floor(Date.now() / 1000)] *)
  send : Run.Tx -> res unit;                     (* [.send({ from: account })] *)
  toDataURL : Web3.bytes32 -> res string         (* [QRCode.toDataURL] of the verify URL *)
}.

(** [web3.utils.toBN(text)] *)
Definition toBN (v : string) : res Z :=
  match Web3.parseNumber v with
  | Some z => Ret z
  | None => Throw (LibError "web3: not a number")
  end.

(** [Number(text)] on the texts a number input yields: blank is 0, an
    integer literal its value, anything else [NaN].  The value is that of
    JavaScript while it is a safe integer; the panel hands it to the
    contract method only, which refuses every other number. *)
Definition Number (v : string) : JS.number :=
  match JS.trim v with
  | EmptyString => JS.Int 0
  | t => match Web3.parseNumber t with
         | Some z => JS.Int z
         | None => JS.NaN
         end
  end.

(** The attributes the form stands for, when price and year are numbers;
    a blank year counts as 0. *)
Definition attributes (form : Form.t) : option ProductAttributes :=
  match Web3.parseNumber (Form.price form),
        Web3.parseNumber (JS.or_else (Form.year form) "0") with
  | Some p, Some y =>
      Some {| name := Form.name form;
              color := JS.or_else (Form.color form) "";
              material := JS.or_else (Form.material form) "";
              price := p; year := y |}
  | _, _ => None
  end.

(** What this panel hashes for given attributes: their packed encoding
    followed by the registration time as one more 256-bit integer. *)
Definition preimage (a : ProductAttributes) (time : Z) : list byte :=
  encodePacked a ++ Web3.be_bytes 32 (Z.to_N time).

Definition productId (form : Form.t) (env : Env) : res (option Web3.bytes32) :=
  Web3.soliditySha3
    [ Web3.SolString (Form.name form);
      Web3.SolString (JS.or_else (Form.color form) "");
      Web3.SolString (JS.or_else (Form.material form) "");
      Web3.SolUint256 (Form.price form);
      Web3.SolUint256 (JS.or_else (Form.year form) "0");
      Web3.SolUint256 (JS.toString (JS.Int (now env))) ].

Definition uploadCall (productId : Web3.bytes32) (form : Form.t) : res FakeProdDetector.Call :=
  try! p := toBN (Form.price form) in
  try! p' := abiUintBN p in
  try! y := abiUint (Number (JS.or_else (Form.year form) "0")) in
  Ret {| FakeProdDetector.arg_id := productId;
         FakeProdDetector.arg_product :=
           FakeProdDetector.Build_Product (Form.name form)
             (JS.or_else (Form.color form) "") (JS.or_else (Form.material form) "")
             p' y |}.

Definition register (account : string) (form : Form.t) (env : Env) : Run.t :=
  let stop sent fin := {| Run.sent := sent; Run.posted := []; Run.final := fin |} in
  let caught sent e := stop sent (Run.Failed (JS.or_else (JS.message e) "Transaction failed")) in
  if negb (JS.truthy account) then stop [] (Run.Alerted "Connect MetaMask first")
  else if negb (JS.truthy (Form.name form)) || negb (JS.truthy (Form.price form))
  then stop [] (Run.Alerted "Name and price are required")
  else if negb (JS.truthy (Form.color form)) || negb (JS.truthy (Form.material form))
  then stop [] (Run.Alerted "Please select both color and material")
  else
    match loadContract env with
    | Throw e => caught [] e
    | Ret contract =>
    match productId form env with
    | Throw e => caught [] e
    | Ret None => caught [] (LibError "web3: invalid bytes32 value")
    | Ret (Some id) =>
    match uploadCall id form with
    | Throw e => caught [] e
    | Ret c =>
    let tx := {| Run.from := account; Run.to := Artifact.c_address contract; Run.call := c |} in
    match send env tx with
    | Throw e => caught [] e
    | Ret _ =>
    match toDataURL env id with
    | Throw e => caught [tx] e
    | Ret dataUrl => stop [tx] (Run.Registered id None dataUrl)
    end end end end end.

End RegisterPanel.

(** ** Verification panels *)

(** The JSON answer of the backend's verify routes. *)
Module Api.

Record Verdict := { status : string; reason : string }.

Record VerifyResponse := {
  success : bool;
  product : list (string * string);
  verdict : Verdict
}.

(** Body of [POST /customer-verify]. *)
Record CustomerVerifyRequest := { product_id : string; short_code : string }.

End Api.

(** The admin panel src/VerifyPanel.tsx. *)
Module VerifyPanel.
Import Api.

Record State := {
  pid : string;
  out : option VerifyResponse;
  history : list VerifyResponse;
  busy : bool;
  errorMsg : option string
}.

(** The answer the panel makes up when the request fails. *)
Definition fakeResponse : VerifyResponse :=
  {| success := false;
     product := [];
     verdict := {| status := "fake";
                   reason := "network_or_server_error — unable to verify" |} |}.

(** [go]; [fetchVerify id] is [fetchJSON] on [BACKEND/verify/id]. *)
Definition go (fetchVerify : string -> res VerifyResponse) (st : State) : State :=
  let trimmed := JS.trim (pid st) in
  if negb (JS.truthy trimmed) then st
  else
    match fetchVerify trimmed with
    | Ret data =>
        {| pid := pid st; out := Some data; history := data :: history st;
           busy := false; errorMsg := None |}
    | Throw e =>
        {| pid := pid st; out := Some fakeResponse;
           history := fakeResponse :: history st;
           busy := false; errorMsg := Some (JS.messageOf e) |}
    end.

End VerifyPanel.

(** The customer page frontend/src/CustomerVerify.tsx. *)
Module CustomerVerify.
Import Api.

Record State := {
  code : string;
  busy : bool;
  result : option VerifyResponse;
  error : option string
}.

Definition lengthError : string :=
  "Please enter the 6 characters printed on your Vérité Sauvage card.".

Definition unavailable : string :=
  "Unable to verify right now. Please try again in a moment.".

(** [onChange] of the code input *)
Definition onChange (text : string) (st : State) : State :=
  {| code := JS.toUpperCase text; busy := busy st; result := result st; error := error st |}.

(** [onVerify]: the new state and the requests that left the page. *)
Definition onVerify (productId : string)
    (customerVerify : CustomerVerifyRequest -> res VerifyResponse) (st : State)
  : State * list CustomerVerifyRequest :=
  let trimmed := JS.trim (code st) in
  if negb (Nat.eqb (String.length trimmed) 6)
  then ({| code := code st; busy := busy st; result := result st;
           error := Some lengthError |}, [])
  else
    let req := {| product_id := productId; short_code := trimmed |} in
    match customerVerify req with
    | Ret data =>
        ({| code := code st; busy := false; result := Some data; error := None |}, [req])
    | Throw _ =>
        ({| code := code st; busy := false; result := None;
            error := Some unavailable |}, [req])
    end.

End CustomerVerify.

(** The customer page src/CustomerApp.tsx. *)
Module CustomerApp.
Import Api.

Record State := {
  productId : string;
  shortCode : string;
  result : option VerifyResponse;
  busy : bool;
  errorMsg : option string
}.

(** [onChange] of the short-code input *)
Definition setShortCode (text : string) (st : State) : State :=
  {| productId := productId st; shortCode := JS.toUpperCase text;
     result := result st; busy := busy st; errorMsg := errorMsg st |}.

(** [doVerify]: the new state and the requests that left the page; a blank
    field ends in an alert and changes nothing. *)
Definition doVerify (customerVerify : CustomerVerifyRequest -> res VerifyResponse)
    (st : State) : State * list CustomerVerifyRequest :=
  let pid := JS.trim (productId st) in
  let code := JS.trim (shortCode st) in
  if negb (JS.truthy pid) || negb (JS.truthy code) then (st, [])
  else
    let req := {| product_id := pid; short_code := code |} in
    match customerVerify req with
    | Ret data =>
        ({| productId := productId st; shortCode := shortCode st;
            result := Some data; busy := false; errorMsg := None |}, [req])
    | Throw e =>
        ({| productId := productId st; shortCode := shortCode st;
            result := None; busy := false; errorMsg := Some (JS.messageOf e) |}, [req])
    end.

End CustomerApp.

(** ** The short-code registry *)

Module Registry.

(** Modelled from the spec: the short-code registry is kept by the backend,
    whose sources are not part of the front end and contract given here.
    The registry maps a fingerprint to its short code. *)
Definition empty : gmap N string := ∅.

(** Modelled from the spec: the failures of the absent backend's
    [register]; [NoFreshCode] stands for a generator that ran out of
    draws. *)
Inductive RegistryError :=
| AlreadyRegistered
| NoFreshCode.

(** Modelled from the spec: the registry-wide uniqueness check on a
    generated code before commit; the code generator is absent. *)
Definition inUse (reg : gmap N string) (c : string) : bool :=
  bool_decide (c ∈ (map_img reg : gset string)).

(** Modelled from the spec: minting with collision retry; the backend's
    random generator is absent and is represented by the draws it makes,
    the first draw not in use is the minted code. *)
Definition mint (draws : list string) (reg : gmap N string) : option string :=
  List.find (fun c => negb (inUse reg c)) draws.

(** Modelled from the spec: [register(fingerprint) -> ShortCode] of the
    absent backend, an atomic insert-if-absent that fails with
    [AlreadyRegistered] when the fingerprint has a code. *)
Definition register (fp : Web3.bytes32) (draws : list string) (reg : gmap N string)
  : RegistryError + (string * gmap N string) :=
  match reg !! fp with
  | Some _ => inl AlreadyRegistered
  | None =>
      match mint draws reg with
      | None => inl NoFreshCode
      | Some c => inr (c, <[fp := c]> reg)
      end
  end.

(** Modelled from the spec: [lookup(fingerprint)] of the absent backend. *)
Definition lookup (fp : Web3.bytes32) (reg : gmap N string) : option string := reg !! fp.

(** Modelled from the spec: a request to the absent backend's register
    route, the fingerprint together with the generator's draws. *)
Definition Request : Type := Web3.bytes32 * list string.

(** Modelled from the spec: the registry after one request of the absent
    backend's register route; a refused request leaves it as it was. *)
Definition step (reg : gmap N string) (r : Request) : gmap N string :=
  match register (fst r) (snd r) reg with
  | inl _ => reg
  | inr (_, reg') => reg'
  end.

(** Modelled from the spec: the codes handed out by a sequence of requests
    to the absent backend, oldest first. *)
Fixpoint minted (reg : gmap N string) (rs : list Request) : list string :=
  match rs with
  | [] => []
  | r :: rest =>
      match register (fst r) (snd r) reg with
      | inl _ => minted reg rest
      | inr (c, reg') => c :: minted reg' rest
      end
  end.

(** Modelled from the spec: the registry of the absent backend after a
    sequence of requests, each applied atomically. *)
Definition run (reg : gmap N string) (rs : list Request) : gmap N string :=
  fold_left step rs reg.

(** No two fingerprints hold the same code. *)
Definition codesUnique (reg : gmap N string) : Prop :=
  forall f1 f2 c, reg !! f1 = Some c -> reg !! f2 = Some c -> f1 = f2.

End Registry.

(** ** The verification engine *)

Module Engine.

(** Modelled from the spec: the verdict of the absent backend's [verify],
    a status, a reason code and the attributes echoed when authentic. *)
Inductive Status := authentic | fake.

Record Verdict := {
  status : Status;
  reason : string;
  product : option ProductAttributes
}.

(** Modelled from the spec: the outcome of the ledger reader port used by
    the absent backend, a record, no record, or a failed read. *)
Inductive LedgerRead :=
| Found (p : ProductAttributes)
| NotFound
| Unavailable.

(** The port over the contract: [getProduct] answers for every key. *)
Definition readProduct (st : FakeProdDetector.State) (fp : Web3.bytes32) : LedgerRead :=
  let '(n, c, m, p, y) := FakeProdDetector.getProduct fp st in
  Found {| name := n; color := c; material := m; price := p; year := y |}.

(** Modelled from the spec: step 1 of [verify] in the absent backend,
    trim then uppercase. *)
Definition normalize (presented : string) : string := JS.toUpperCase (JS.trim presented).

(** Modelled from the spec: the case-insensitive comparison of step 3 in
    the absent backend. *)
Definition sameCode (stored code : string) : bool :=
  String.eqb (JS.toUpperCase stored) (JS.toUpperCase code).

(** Modelled from the spec: the characters of a stored short code, upper
    case letters and digits. *)
Definition isCodeChar (c : ascii) : bool :=
  let n := nat_of_ascii c in
  (Nat.leb 65 n && Nat.leb n 90) || (Nat.leb 48 n && Nat.leb n 57).

(** Modelled from the spec: a stored short code, upper-case alphanumeric. *)
Definition isCode (s : string) : bool := JS.all isCodeChar s.

(** Modelled from the spec: a typed character that differs from the
    stored one in letter case at most, the character itself or the lower
    case form of an upper-case letter. *)
Definition caseVariantChar (stored typed : ascii) : bool :=
  Ascii.eqb stored typed
  || (let n := nat_of_ascii stored in
      Nat.leb 65 n && Nat.leb n 90 && Nat.eqb (nat_of_ascii typed) (n + 32)).

(** Modelled from the spec: a typed code that differs from the stored one
    in letter case only. *)
Fixpoint caseVariant (stored typed : string) : bool :=
  match stored, typed with
  | EmptyString, EmptyString => true
  | String c s, String d t => caseVariantChar c d && caseVariant s t
  | _, _ => false
  end.

(** Modelled from the spec: the all-empty/zero sentinel of step 4 in the
    absent backend. *)
Definition isSentinel (p : ProductAttributes) : bool :=
  negb (JS.truthy (name p)) && negb (JS.truthy (color p))
    && negb (JS.truthy (material p)) && (price p =? 0)%Z && (year p =? 0)%Z.

(** Modelled from the spec: a [fake] verdict of the absent backend with
    its reason code. *)
Definition fakeBecause (why : string) : Verdict :=
  {| status := fake; reason := why; product := None |}.

(** Modelled from the spec: [verify(fingerprint, presentedCode)] of the
    absent backend, steps 1 to 5 with the registry checks before the
    ledger read. *)
Definition verify (reg : gmap N string) (read : Web3.bytes32 -> LedgerRead)
    (fp : Web3.bytes32) (presentedCode : string) : Verdict :=
  let code := normalize presentedCode in
  match Registry.lookup fp reg with
  | None => fakeBecause "no_registration"
  | Some stored =>
      if negb (sameCode stored code) then fakeBecause "code_mismatch"
      else
        match read fp with
        | Unavailable => fakeBecause "verification_unavailable"
        | NotFound => fakeBecause "ledger_record_missing"
        | Found p =>
            if isSentinel p then fakeBecause "ledger_record_missing"
            else {| status := authentic; reason := "on_chain_and_code_match";
                    product := Some p |}
        end
  end.

End Engine.

(** ** Sample inputs *)

Module Sample.

Definition bagA : ProductAttributes :=
  {| name := "Bag A"; color := "Black"; material := "Togo Leather";
     price := 1000; year := 2024 |}.

Definition formA : Form.t :=
  {| Form.name := "Bag A"; Form.price := "1000"; Form.color := "Black";
     Form.material := "Togo Leather"; Form.year := "2024" |}.

(** The same form with the year left blank. *)
Definition formNoYear : Form.t :=
  {| Form.name := "Bag A"; Form.price := "1000"; Form.color := "Black";
     Form.material := "Togo Leather"; Form.year := "" |}.

Definition wallet : string := "0xa2BB67a5912D742B052Bf1ad4CEe47E4FC3F747C".

Definition hardhatAddress : string := "0x5FbDB2315678afecb367f032d93F642f64180aa3".

Definition contract : Artifact.Contract :=
  {| Artifact.c_abi := ["uploadProduct"; "getProduct"];
     Artifact.c_address := hardhatAddress |}.

(** The artifact of a local deployment. *)
Definition hardhatOnly : Artifact.t :=
  Artifact.deployed ["uploadProduct"; "getProduct"] hardhatAddress.

(** A browser with a wallet, a reachable chain and backend, in year [y]. *)
Definition adminEnv (y : Z) (accounts : list string) : AdminRegisterPanel.Env :=
  {| AdminRegisterPanel.ethereum := true;
     AdminRegisterPanel.requestAccounts := Ret tt;
     AdminRegisterPanel.getAccounts := Ret accounts;
     AdminRegisterPanel.currentYear := y;
     AdminRegisterPanel.loadContract := Ret contract;
     AdminRegisterPanel.send := fun _ => Ret tt;
     AdminRegisterPanel.codesRegister := fun _ => Ret "VS2BOF";
     AdminRegisterPanel.toDataURL := fun _ => Ret "data:image/png;base64,AA" |}.

(** The same for the other panel, at [t] seconds of Unix time. *)
Definition panelEnv (t : Z) : RegisterPanel.Env :=
  {| RegisterPanel.loadContract := Ret contract;
     RegisterPanel.now := t;
     RegisterPanel.send := fun _ => Ret tt;
     RegisterPanel.toDataURL := fun _ => Ret "data:image/png;base64,AA" |}.

(** 14 November 2023, 22:13:20 UTC. *)
Definition nov2023 : Z := 1700000000.

Definition blankPage : CustomerVerify.State :=
  {| CustomerVerify.code := ""; CustomerVerify.busy := false;
     CustomerVerify.result := None; CustomerVerify.error := None |}.

Definition blankApp : CustomerApp.State :=
  {| CustomerApp.productId := ""; CustomerApp.shortCode := "";
     CustomerApp.result := None; CustomerApp.busy := false;
     CustomerApp.errorMsg := None |}.

End Sample.

(** ** The JSON fetch helper, api.ts *)

Module Fetch.

(** The part of a [Response] the helper reads. *)
Record Response (A : Type) := {
  ok : bool;
  status : Z;
  text : res string;
  json : res A
}.
Arguments ok {A} r.
Arguments status {A} r.
Arguments text {A} r.
Arguments json {A} r.

(** A [RequestInit]; an absent property is [None], a headers object a map
    from header name to value. *)
Record RequestInit := {
  method : option string;
  headers : option (gmap string string);
  body : option string
}.

(** [{ ...a, ...b }] on header objects: [b] wins. *)
Definition spread (a b : gmap string string) : gmap string string := b ∪ a.

Definition defaults : gmap string string := {[ "Content-Type" := "application/json" ]}.

(** [init?.headers || {}] *)
Definition headersOf (init : option RequestInit) : gmap string string :=
  match init with
  | Some i => default ∅ (headers i)
  | None => ∅
  end.

Definition httpError (status : Z) (text : string) : exn :=
  Error ("HTTP_" +:+ JS.toString (JS.Int status) +:+ ": " +:+ text).

(** The common tail: throw on a response that is not ok, else its JSON. *)
Definition answer {A} (r : Response A) : res A :=
  if negb (ok r) then try! t := text r in Throw (httpError (status r) t)
  else json r.

(** [String.prototype.includes] *)
Fixpoint includes (s sub : string) : bool :=
  match s with
  | EmptyString => String.prefix sub EmptyString
  | String _ r => String.prefix sub s || includes r sub
  end.

(** frontend/src/api.ts: the merged headers come first in the object
    literal and [...init] after them, so an [init] with its own [headers]
    replaces them. *)
Module V1.

Definition request (init : option RequestInit) : RequestInit :=
  let merged := spread defaults (headersOf init) in
  match init with
  | None => {| method := None; headers := Some merged; body := None |}
  | Some i =>
      {| method := method i;
         headers := match headers i with
                    | Some h => Some h
                    | None => Some merged
                    end;
         body := body i |}
  end.

Definition fetchJSON {A} (fetch : string -> RequestInit -> res (Response A))
    (url : string) (init : option RequestInit) : res A :=
  try! r := fetch url (request init) in answer r.

End V1.

(** src/api.ts: the merged headers go last, and protected routes get the
    admin token when one is configured. *)
Module V2.

Definition protected (url : string) : bool :=
  includes url "/verify/" || includes url "/codes" || includes url "/debug".

Definition headersFor (ADMIN_TOKEN url : string) (options : RequestInit)
  : gmap string string :=
  let merged := spread defaults (default ∅ (headers options)) in
  if protected url && JS.truthy ADMIN_TOKEN
  then <[ "X-Admin-Token" := ADMIN_TOKEN ]> merged
  else merged.

Definition request (ADMIN_TOKEN url : string) (options : RequestInit) : RequestInit :=
  {| method := method options;
     headers := Some (headersFor ADMIN_TOKEN url options);
     body := body options |}.

(** [options] defaults to the empty object. *)
Definition fetchJSON {A} (ADMIN_TOKEN : string)
    (fetch : string -> RequestInit -> res (Response A))
    (url : string) (options : option RequestInit) : res A :=
  let o := default {| method := None; headers := None; body := None |} options in
  try! r := fetch url (request ADMIN_TOKEN url o) in answer r.

End V2.

End Fetch.

(** ** What the verify panel shows *)

Module VerifyPanelView.
Import Api.

Inductive View :=
| Nothing
| Authentic (reason : option string)
| Fake (text : string).

(** [renderVerdict] of src/VerifyPanel.tsx *)
Definition renderVerdict (st : VerifyPanel.State) : View :=
  match VerifyPanel.out st with
  | None => Nothing
  | Some o =>
      let v := verdict o in
      if String.eqb (status v) "authentic"
      then Authentic (if JS.truthy (reason v) then Some (reason v) else None)
      else Fake (JS.or_else (reason v) "cannot verify authenticity")
  end.

End VerifyPanelView.

(** ** A session at the verify panel *)

Module VerifyPanelSession.

(** [onChange] of the product id input: [setPid(e.target.value)] *)
Definition setPid (text : string) (st : VerifyPanel.State) : VerifyPanel.State :=
  {| VerifyPanel.pid := text; VerifyPanel.out := VerifyPanel.out st;
     VerifyPanel.history := VerifyPanel.history st;
     VerifyPanel.busy := VerifyPanel.busy st;
     VerifyPanel.errorMsg := VerifyPanel.errorMsg st |}.

(** One use of the panel: the text typed, and how the backend answers at
    that moment. *)
Definition Use : Type := string * (string -> res Api.VerifyResponse).

(** Type the id, press Verify. *)
Definition submit (st : VerifyPanel.State) (u : Use) : VerifyPanel.State :=
  VerifyPanel.go (snd u) (setPid (fst u) st).

Definition run (st : VerifyPanel.State) (us : list Use) : VerifyPanel.State :=
  fold_left submit us st.

(** The uses whose id is not blank. *)
Fixpoint submitted (us : list Use) : nat :=
  match us with
  | [] => O
  | u :: rest =>
      (if JS.truthy (JS.trim (fst u)) then 1 else 0) + submitted rest
  end.

End VerifyPanelSession.

(** ** The wallet button, frontend/src/ConnectButton.tsx *)

Module ConnectButton.

Record State := {
  hasMetaMask : option bool;
  connecting : bool;
  account : string;
  lastMessage : string;
  showPopup : bool
}.

(** The button inside AdminApp: its own state, the account AdminApp holds
    through [onConnected={setAccount}], and whether the [accountsChanged]
    listener is installed on the provider. *)
Record Page := {
  button : State;
  parentAccount : string;
  listening : bool
}.

(** [window.ethereum] as the button uses it: the outcome of
    [eth_requestAccounts] and whether the provider has [on]. *)
Record Provider := {
  request : res (option (list string));
  hasOn : bool
}.

Definition initial : Page :=
  {| button := {| hasMetaMask := None; connecting := false; account := "";
                  lastMessage := ""; showPopup := false |};
     parentAccount := "";
     listening := false |}.

(** The mount effect. *)
Definition mount (eth : option Provider) (p : Page) : Page :=
  let b := button p in
  {| button := {| hasMetaMask := Some (bool_decide (is_Some eth));
                  connecting := connecting b; account := account b;
                  lastMessage := if bool_decide (is_Some eth) then "MetaMask detected."
                                 else "MetaMask not detected in this browser.";
                  showPopup := showPopup b |};
     parentAccount := parentAccount p;
     listening := listening p |}.

(** The [accountsChanged] handler installed by
    [subscribeToAccountChanges]. *)
Definition accountsChanged (accs : option (list string)) (p : Page) : Page :=
  let b := button p in
  match accs with
  | Some (next :: _) =>
      {| button := {| hasMetaMask := hasMetaMask b; connecting := connecting b;
                      account := next; lastMessage := "Connected: " +:+ next;
                      showPopup := showPopup b |};
         parentAccount := next;
         listening := listening p |}
  | _ =>
      {| button := {| hasMetaMask := hasMetaMask b; connecting := connecting b;
                      account := "";
                      lastMessage := "Disconnected (no accounts in MetaMask).";
                      showPopup := showPopup b |};
         parentAccount := "";
         listening := listening p |}
  end.

(** [connect] *)
Definition connect (eth : option Provider) (p : Page) : Page :=
  let b := button p in
  match eth with
  | None =>
      {| button := {| hasMetaMask := hasMetaMask b; connecting := connecting b;
                      account := account b;
                      lastMessage := "MetaMask not detected on connect attempt.";
                      showPopup := showPopup b |};
         parentAccount := parentAccount p;
         listening := listening p |}
  | Some eth =>
      match request eth with
      | Throw err =>
          {| button := {| hasMetaMask := hasMetaMask b; connecting := false;
                          account := account b;
                          lastMessage := "Error: " +:+ JS.messageOf err;
                          showPopup := showPopup b |};
             parentAccount := parentAccount p;
             listening := listening p |}
      | Ret (Some (addr :: _)) =>
          {| button := {| hasMetaMask := hasMetaMask b; connecting := false;
                          account := addr; lastMessage := "Connected: " +:+ addr;
                          showPopup := true |};
             parentAccount := addr;
             listening := listening p || hasOn eth |}
      | Ret _ =>
          {| button := {| hasMetaMask := hasMetaMask b; connecting := false;
                          account := account b;
                          lastMessage := "No accounts returned from MetaMask.";
                          showPopup := showPopup b |};
             parentAccount := parentAccount p;
             listening := listening p |}
      end
  end.

(** [disconnect] *)
Definition disconnect (p : Page) : Page :=
  let b := button p in
  {| button := {| hasMetaMask := hasMetaMask b; connecting := connecting b;
                  account := "";
                  lastMessage := "Disconnected from wallet in this app.";
                  showPopup := false |};
     parentAccount := "";
     listening := listening p |}.

(** [setShowPopup] from the "Wallet Info" and "Close" buttons. *)
Definition setShowPopup (v : bool) (p : Page) : Page :=
  let b := button p in
  {| button := {| hasMetaMask := hasMetaMask b; connecting := connecting b;
                  account := account b; lastMessage := lastMessage b;
                  showPopup := v |};
     parentAccount := parentAccount p;
     listening := listening p |}.

(** What can happen to the page. The wallet raises [accountsChanged] only
    towards an installed listener. *)
Inductive Event :=
| Mount (eth : option Provider)
| Connect (eth : option Provider)
| Disconnect
| AccountsChanged (accs : option (list string))
| SetShowPopup (v : bool).

Definition step (p : Page) (e : Event) : Page :=
  match e with
  | Mount eth => mount eth p
  | Connect eth => connect eth p
  | Disconnect => disconnect p
  | AccountsChanged accs => if listening p then accountsChanged accs p else p
  | SetShowPopup v => setShowPopup v p
  end.

Definition run (es : list Event) : Page := fold_left step es initial.

(** [s.slice(0, n)] for [n >= 0] *)
Fixpoint sliceTo (n : nat) (s : string) : string :=
  match n, s with
  | S k, String c r => String c (sliceTo k r)
  | _, _ => EmptyString
  end.

(** [s.slice(n)] for [n >= 0] *)
Fixpoint sliceFrom (n : nat) (s : string) : string :=
  match n, s with
  | S k, String _ r => sliceFrom k r
  | _, _ => s
  end.

(** [s.slice(-n)]: the last [n] characters, all of [s] when it is
    shorter. *)
Definition sliceLast (n : nat) (s : string) : string :=
  sliceFrom (String.length s - n) s.

(** [shortAccount] *)
Definition shortAccount (account : string) : string :=
  if JS.truthy account && Nat.ltb 10 (String.length account)
  then sliceTo 6 account +:+ "..." +:+ sliceLast 4 account
  else account.

(** The popup is rendered under [showPopup && account]. *)
Definition popupVisible (p : Page) : bool :=
  showPopup (button p) && JS.truthy (account (button p)).

End ConnectButton.

(** ** The event log of the ledger contract *)

Module Ledger.
Import FakeProdDetector.

(** The event an [uploadProduct] call emits. *)
Definition eventOf (c : Call) : ProductUploaded :=
  {| ev_id := arg_id c; ev_product := arg_product c |}.

(** The product of the latest event with key [id], if any. *)
Fixpoint lastEvent (id : Web3.bytes32) (log : list ProductUploaded) : option Product :=
  match log with
  | [] => None
  | e :: rest =>
      match lastEvent id rest with
      | Some p => Some p
      | None => if bool_decide (ev_id e = id) then Some (ev_product e) else None
      end
  end.

End Ledger.

(** * Properties *)

(** ** Known answers for the hash *)

Example keccak256_empty :
  Web3.be_to_N (Keccak.keccak256 []) = Web3.SHA3_NULL.
Proof. vm_compute. reflexivity. Qed.

Example keccak256_abc :
  Web3.be_to_N (Keccak.keccak256 (list_byte_of_string "abc"))
  = 0x4e03657aea45a94fc7d47ba826c8d667c0d1e6e33a64a036ec44f58fa12d6c45%N.
Proof. vm_compute. reflexivity. Qed.

(** The values web3's documentation gives for [soliditySha3] on a
    uint256 and on a string. *)
Example soliditySha3_uint256_234 :
  Web3.soliditySha3 [Web3.SolUint256 "234"]
  = Ret (Some 0x61c831beab28d67d1bb40b5ae1a11e2757fa842f031a2d0bc94a7867bc5d26c2%N).
Proof. vm_compute. reflexivity. Qed.

Example soliditySha3_string_hello :
  Web3.soliditySha3 [Web3.SolString "Hello!%"]
  = Ret (Some 0x661136a4267dba9ccdf6bfddb7c00e714de936674c4bdb065a531cf1cb15c7fc%N).
Proof. vm_compute. reflexivity. Qed.

(** [web3.utils.isAddress] on the addresses of the web3 documentation and
    of EIP-55, and on the sample addresses used below. *)
Example isAddress_known_answers :
  map Web3.isAddress
    [ "0xc1912fee45d61c87cc5ea59dae31190fffff232d";
      "c1912fee45d61c87cc5ea59dae31190fffff232d";
      "0XC1912FEE45D61C87CC5EA59DAE31190FFFFF232D";
      "0xc1912fEE45d61C87Cc5EA59DaE31190FFFFf232d";
      "0xC1912fEE45d61C87Cc5EA59DaE31190FFFFf232d";
      "0x5aAeb6053F3E94C9b9A09f33669435E7Ef1BeAed";
      "0x123";
      "";
      Sample.hardhatAddress;
      Sample.wallet ]
  = [ true; true; true; true; false; true; false; false; true; true ].
Proof. vm_compute. reflexivity. Qed.

(** ** Trimming and upper-casing *)

Lemma isWhiteSpace_upperChar c : JS.isWhiteSpace (JS.upperChar c) = JS.isWhiteSpace c.
Proof. destruct c as [[] [] [] [] [] [] [] []]; reflexivity. Qed.

Lemma upperChar_idem c : JS.upperChar (JS.upperChar c) = JS.upperChar c.
Proof. destruct c as [[] [] [] [] [] [] [] []]; reflexivity. Qed.

Lemma toUpperCase_idem s : JS.toUpperCase (JS.toUpperCase s) = JS.toUpperCase s.
Proof. induction s as [|c r IH]; simpl; [reflexivity|]. now rewrite upperChar_idem, IH. Qed.

Lemma toUpperCase_trimStart s :
  JS.toUpperCase (JS.trimStart s) = JS.trimStart (JS.toUpperCase s).
Proof.
  induction s as [|c r IH]; simpl; [reflexivity|].
  rewrite isWhiteSpace_upperChar. destruct (JS.isWhiteSpace c); [exact IH | reflexivity].
Qed.

Lemma toUpperCase_trimEnd s :
  JS.toUpperCase (JS.trimEnd s) = JS.trimEnd (JS.toUpperCase s).
Proof.
  induction s as [|c r IH]; simpl; [reflexivity|].
  rewrite <- IH, isWhiteSpace_upperChar.
  destruct (JS.trimEnd r); simpl; [destruct (JS.isWhiteSpace c)|]; reflexivity.
Qed.

Lemma toUpperCase_trim s : JS.toUpperCase (JS.trim s) = JS.trim (JS.toUpperCase s).
Proof. unfold JS.trim. now rewrite toUpperCase_trimEnd, toUpperCase_trimStart. Qed.

Lemma trimStart_white l s : JS.allWhite l = true -> JS.trimStart (l +:+ s) = JS.trimStart s.
Proof.
  induction l as [|c r IH]; simpl; [reflexivity|].
  intros [Hc Hr]%andb_true_iff. rewrite Hc. auto.
Qed.

Lemma trimStart_allWhite r : JS.allWhite r = true -> JS.trimStart r = "".
Proof.
  induction r as [|d r IH]; simpl; [reflexivity|].
  intros [-> Hr]%andb_true_iff. auto.
Qed.

Lemma trimEnd_allWhite r : JS.allWhite r = true -> JS.trimEnd r = "".
Proof.
  induction r as [|d r IH]; simpl; [reflexivity|].
  intros [Hd Hr]%andb_true_iff. now rewrite (IH Hr), Hd.
Qed.

Lemma trimEnd_white s r : JS.allWhite r = true -> JS.trimEnd (s +:+ r) = JS.trimEnd s.
Proof.
  intros Hr. induction s as [|c s IH]; simpl.
  - now apply trimEnd_allWhite.
  - now rewrite IH.
Qed.

Lemma trim_white_right s r : JS.allWhite r = true -> JS.trim (s +:+ r) = JS.trim s.
Proof.
  intros Hr. unfold JS.trim. induction s as [|c s IH].
  - change ("" +:+ r) with r. now rewrite (trimStart_allWhite r Hr).
  - change (String c s +:+ r) with (String c (s +:+ r)).
    cbn [JS.trimStart]. destruct (JS.isWhiteSpace c); [exact IH|].
    exact (trimEnd_white (String c s) r Hr).
Qed.

Lemma trim_white l s r :
  JS.allWhite l = true -> JS.allWhite r = true -> JS.trim (l +:+ s +:+ r) = JS.trim s.
Proof.
  intros Hl Hr. unfold JS.trim at 1. rewrite trimStart_white by exact Hl.
  exact (trim_white_right s r Hr).
Qed.


(** ** Short codes at the customer pages and in the engine *)

(** C10. [onVerify] of the customer page stops on a code whose trimmed
    length is not 6: it records the input error, keeps every other part of
    the page state, among them the previous result, and no request leaves
    the page. *)
Theorem onVerify_rejects_wrong_length
    (productId : string)
    (customerVerify : Api.CustomerVerifyRequest -> res Api.VerifyResponse)
    (st : CustomerVerify.State) :
  String.length (JS.trim (CustomerVerify.code st)) <> 6 ->
  CustomerVerify.onVerify productId customerVerify st
  = ({| CustomerVerify.code := CustomerVerify.code st;
        CustomerVerify.busy := CustomerVerify.busy st;
        CustomerVerify.result := CustomerVerify.result st;
        CustomerVerify.error := Some CustomerVerify.lengthError |}, []).
Proof.
  intros Hlen. unfold CustomerVerify.onVerify.
  destruct (Nat.eqb_spec (String.length (JS.trim (CustomerVerify.code st))) 6) as [E|_].
  - contradiction.
  - reflexivity.
Qed.

Lemma onVerify_rejects_wrong_length_witness :
  CustomerVerify.onVerify "0x01"
    (fun _ => Ret {| Api.success := true; Api.product := [];
                     Api.verdict := {| Api.status := "authentic"; Api.reason := "" |} |})
    {| CustomerVerify.code := " VS2BO "; CustomerVerify.busy := false;
       CustomerVerify.result := None; CustomerVerify.error := None |}
  = ({| CustomerVerify.code := " VS2BO "; CustomerVerify.busy := false;
        CustomerVerify.result := None;
        CustomerVerify.error := Some CustomerVerify.lengthError |}, []).
Proof.
  apply (onVerify_rejects_wrong_length "0x01" _
           {| CustomerVerify.code := " VS2BO "; CustomerVerify.busy := false;
              CustomerVerify.result := None; CustomerVerify.error := None |}).
  vm_compute. lia.
Defined.

(** A code of trimmed length 6 does leave the page. *)
Example onVerify_sends_six :
  snd (CustomerVerify.onVerify "0x01" (fun _ => Throw (LibError "offline"))
         (CustomerVerify.onChange " vs2bof " Sample.blankPage))
  = [ {| Api.product_id := "0x01"; Api.short_code := "VS2BOF" |} ].
Proof. reflexivity. Qed.

Lemma isCodeChar_facts c :
  Engine.isCodeChar c = true -> JS.upperChar c = c /\ JS.isWhiteSpace c = false.
Proof. destruct c as [[] [] [] [] [] [] [] []]; simpl; intros H; try discriminate; auto. Qed.

Lemma caseVariantChar_upper c d :
  Engine.isCodeChar c = true -> Engine.caseVariantChar c d = true -> JS.upperChar d = c.
Proof.
  unfold Engine.caseVariantChar. intros Hc [He|Hl]%orb_true_iff.
  - apply Ascii.eqb_eq in He. subst d. now apply isCodeChar_facts.
  - apply andb_true_iff in Hl as [Hrange Hd]. apply Nat.eqb_eq in Hd.
    rewrite <- (ascii_nat_embedding d), Hd. clear Hd Hc. revert Hrange.
    destruct c as [[] [] [] [] [] [] [] []]; simpl; intros H; try discriminate; reflexivity.
Qed.

Lemma caseVariant_upper stored typed :
  Engine.isCode stored = true -> Engine.caseVariant stored typed = true ->
  JS.toUpperCase typed = stored.
Proof.
  revert typed. induction stored as [|c s IH]; intros [|d t]; simpl; try discriminate.
  - reflexivity.
  - intros [Hc Hs]%andb_true_iff [Hd Ht]%andb_true_iff.
    now rewrite (caseVariantChar_upper c d Hc Hd), (IH t Hs Ht).
Qed.

Lemma isCode_upper s : Engine.isCode s = true -> JS.toUpperCase s = s.
Proof.
  induction s as [|c s IH]; simpl; [reflexivity|].
  intros [Hc Hs]%andb_true_iff. destruct (isCodeChar_facts c Hc) as [-> _].
  now rewrite (IH Hs).
Qed.

Lemma isCode_trimEnd s : Engine.isCode s = true -> JS.trimEnd s = s.
Proof.
  induction s as [|c s IH]; simpl; [reflexivity|].
  intros [Hc Hs]%andb_true_iff. destruct (isCodeChar_facts c Hc) as [_ Hw].
  rewrite (IH Hs), Hw. now destruct s.
Qed.

Lemma isCode_trim s : Engine.isCode s = true -> JS.trim s = s.
Proof.
  intros H. unfold JS.trim. destruct s as [|c s]; [reflexivity|].
  pose proof H as [Hc _]%andb_true_iff. destruct (isCodeChar_facts c Hc) as [_ Hw].
  cbn [JS.trimStart]. rewrite Hw. now apply isCode_trimEnd.
Qed.

(** Trimming and upper-casing bring a typed code back to the stored one. *)
Lemma normalize_variant stored l typed r :
  Engine.isCode stored = true -> Engine.caseVariant stored typed = true ->
  JS.allWhite l = true -> JS.allWhite r = true ->
  JS.toUpperCase (JS.trim (l +:+ typed +:+ r)) = stored
  /\ JS.trim (JS.toUpperCase (l +:+ typed +:+ r)) = stored.
Proof.
  intros Hs Hv Hl Hr.
  assert (H : JS.toUpperCase (JS.trim (l +:+ typed +:+ r)) = stored).
  { rewrite (trim_white l typed r Hl Hr), toUpperCase_trim.
    rewrite (caseVariant_upper stored typed Hs Hv). now apply isCode_trim. }
  split; [exact H|]. now rewrite <- toUpperCase_trim.
Qed.

(** C7. A stored short code is upper-case alphanumeric.  A presented code
    that differs from it only in letter case and in leading or trailing
    white space is normalised, by trimming and upper-casing, to the stored
    code itself; the engine then matches it and decides as for the stored
    code, never with [code_mismatch].  A presentation of any other code is
    normalised to that other code and is refused with [code_mismatch].
    The customer pages send the stored code for the typed one: the page
    of CustomerVerify.tsx when the code has 6 characters (it sends nothing
    otherwise), the page of CustomerApp.tsx for every non-empty code next
    to a product id. *)
Theorem presented_code_normalised
    (stored l typed r : string) :
  Engine.isCode stored = true ->
  Engine.caseVariant stored typed = true ->
  JS.allWhite l = true -> JS.allWhite r = true ->
  let presented := l +:+ typed +:+ r in
  Engine.normalize presented = stored
  /\ Engine.sameCode stored (Engine.normalize presented) = true
  /\ (forall reg read fp,
        Registry.lookup fp reg = Some stored ->
        Engine.verify reg read fp presented = Engine.verify reg read fp stored
        /\ Engine.reason (Engine.verify reg read fp presented) <> "code_mismatch")
  /\ (forall other l' typed' r',
        Engine.isCode other = true -> other <> stored ->
        Engine.caseVariant other typed' = true ->
        JS.allWhite l' = true -> JS.allWhite r' = true ->
        Engine.normalize (l' +:+ typed' +:+ r') = other
        /\ Engine.sameCode stored (Engine.normalize (l' +:+ typed' +:+ r')) = false
        /\ forall reg read fp,
             Registry.lookup fp reg = Some stored ->
             Engine.verify reg read fp (l' +:+ typed' +:+ r')
             = Engine.fakeBecause "code_mismatch")
  /\ (forall productId customerVerify st,
        snd (CustomerVerify.onVerify productId customerVerify
               (CustomerVerify.onChange presented st))
        = if Nat.eqb (String.length stored) 6
          then [ {| Api.product_id := productId; Api.short_code := stored |} ]
          else [])
  /\ (forall customerVerify st,
        JS.truthy (JS.trim (CustomerApp.productId st)) = true -> stored <> "" ->
        snd (CustomerApp.doVerify customerVerify (CustomerApp.setShortCode presented st))
        = [ {| Api.product_id := JS.trim (CustomerApp.productId st);
               Api.short_code := stored |} ]).
Proof.
  intros Hs Hv Hl Hr presented.
  destruct (normalize_variant stored l typed r Hs Hv Hl Hr) as [Hn Hpage].
  fold presented in Hn, Hpage. fold (Engine.normalize presented) in Hn.
  assert (Hself : Engine.normalize stored = stored).
  { unfold Engine.normalize. now rewrite (isCode_trim stored Hs), (isCode_upper stored Hs). }
  assert (Hsame : Engine.sameCode stored stored = true).
  { unfold Engine.sameCode. apply String.eqb_refl. }
  split; [exact Hn|]. split; [now rewrite Hn|]. split; [|split; [|split]].
  - intros reg read fp Hreg. unfold Engine.verify. rewrite Hn, Hself, Hreg, Hsame.
    split; [reflexivity|]. cbn [negb].
    destruct (read fp) as [p| |]; [destruct (Engine.isSentinel p)|..];
      cbn [Engine.reason Engine.fakeBecause]; discriminate.
  - intros other l' typed' r' Ho Hne Hv' Hl' Hr'.
    destruct (normalize_variant other l' typed' r' Ho Hv' Hl' Hr') as [Hn' _].
    fold (Engine.normalize (l' +:+ typed' +:+ r')) in Hn'.
    assert (Hdiff : Engine.sameCode stored other = false).
    { unfold Engine.sameCode.
      rewrite (isCode_upper stored Hs), (isCode_upper other Ho).
      apply String.eqb_neq. congruence. }
    split; [exact Hn'|]. split; [now rewrite Hn'|].
    intros reg read fp Hreg. unfold Engine.verify. now rewrite Hn', Hreg, Hdiff.
  - intros productId customerVerify st. unfold CustomerVerify.onVerify.
    cbn [CustomerVerify.onChange CustomerVerify.code]. rewrite Hpage.
    destruct (Nat.eqb (String.length stored) 6); cbn [negb]; [|reflexivity].
    now destruct (customerVerify _).
  - intros customerVerify st Hpid Hne. unfold CustomerApp.doVerify.
    cbn [CustomerApp.setShortCode CustomerApp.shortCode CustomerApp.productId].
    rewrite Hpage, Hpid.
    assert (Ht : JS.truthy stored = true) by (destruct stored; [contradiction|reflexivity]).
    rewrite Ht. cbn [negb orb]. now destruct (customerVerify _).
Qed.

Lemma presented_code_normalised_witness :
  Engine.normalize "  vs2bof " = "VS2BOF"
  /\ Engine.sameCode "VS2BOF" (Engine.normalize "  vs2bof ") = true
  /\ Engine.sameCode "VS2BOF" (Engine.normalize " xyz789") = false
  /\ snd (CustomerVerify.onVerify "0x01" (fun _ => Throw (LibError "offline"))
            (CustomerVerify.onChange "  vs2bof " Sample.blankPage))
     = [ {| Api.product_id := "0x01"; Api.short_code := "VS2BOF" |} ].
Proof.
  destruct (presented_code_normalised "VS2BOF" "  " "vs2bof" " ")
    as (H1 & H2 & _ & H4 & H5 & _);
    [reflexivity | reflexivity | reflexivity | reflexivity |].
  split; [exact H1|]. split; [exact H2|]. split.
  - refine (proj1 (proj2 (H4 "XYZ789" " " "xyz789" "" eq_refl _ eq_refl eq_refl eq_refl))).
    discriminate.
  - exact (H5 "0x01" (fun _ => Throw (LibError "offline")) Sample.blankPage).
Defined.

(** ** Numbers as text *)

Lemma decimal_parse n :
  NilEmpty.uint_of_string (JS.decimal n) = Some (N.to_uint n)
  /\ exists c r, JS.decimal n = String c r /\ c <> "-"%char.
Proof.
  unfold JS.decimal, NilZero.string_of_uint.
  assert (Hnn : N.to_uint n <> Decimal.Nil).
  { destruct n as [|p]; [discriminate|]. apply DecimalPos.Unsigned.to_uint_nonnil. }
  destruct (N.to_uint n) as [|d|d|d|d|d|d|d|d|d|d] eqn:E; try congruence;
    (split; [rewrite <- E at 2; rewrite <- E; rewrite <- (NilEmpty.usu (N.to_uint n)); rewrite E; reflexivity
            | simpl; do 2 eexists; split; [reflexivity | discriminate]]).
Qed.

Lemma decimalValue_decimal n : JS.decimalValue (JS.decimal n) = Some n.
Proof.
  destruct (decimal_parse n) as [Hp (c & r & Hs & _)].
  unfold JS.decimalValue. rewrite Hp. rewrite Hs. simpl.
  now rewrite DecimalN.Unsigned.of_to.
Qed.

Lemma parseNumber_decimal n : Web3.parseNumber (JS.decimal n) = Some (Z.of_N n).
Proof.
  destruct (decimal_parse n) as [_ (c & r & Hs & Hc)].
  unfold Web3.parseNumber. pose proof (decimalValue_decimal n) as Hv.
  rewrite Hs in *.
  destruct c as [[] [] [] [] [] [] [] []]; try (rewrite Hv; reflexivity).
  contradiction Hc. reflexivity.
Qed.

Lemma parseNumber_toString z : Web3.parseNumber (JS.toString (JS.Int z)) = Some z.
Proof.
  unfold JS.toString. destruct (Z.ltb_spec z 0) as [Hneg|Hpos].
  - cbn [Web3.parseNumber]. rewrite decimalValue_decimal. simpl. f_equal. lia.
  - rewrite parseNumber_decimal. f_equal. lia.
Qed.

(** ** Product ids *)

Lemma solidityPack_uint z :
  Web3.solidityPack (Web3.SolUint256 (JS.toString (JS.Int z)))
  = if (Web3.w256 <=? z)%Z then Throw (LibError "web3: uint exceeds width")
    else if (z <? 0)%Z then Throw (LibError "web3: uint is negative")
    else Ret (Web3.be_bytes 32 (Z.to_N z)).
Proof. unfold Web3.solidityPack. now rewrite parseNumber_toString. Qed.

Lemma solidityPack_uint_inv v bs :
  Web3.solidityPack (Web3.SolUint256 v) = Ret bs ->
  exists z, Web3.parseNumber v = Some z /\ (0 <= z < Web3.w256)%Z
            /\ bs = Web3.be_bytes 32 (Z.to_N z).
Proof.
  unfold Web3.solidityPack. destruct (Web3.parseNumber v) as [z|]; [|discriminate].
  destruct (Z.leb_spec Web3.w256 z); [discriminate|].
  destruct (Z.ltb_spec z 0); [discriminate|].
  intros [= <-]. exists z. repeat split; lia.
Qed.

Lemma Ret_inj {A} (x y : A) : Ret x = Ret y -> x = y.
Proof. congruence. Qed.

Lemma sha3_Some bs h :
  Web3.sha3 bs = Some h -> h = Web3.be_to_N (Keccak.keccak256 bs).
Proof.
  unfold Web3.sha3. destruct (_ =? _)%N; [discriminate|]. congruence.
Qed.

(** The admin panel's id is the digest of the five packed fields; the
    numbers of a computed id are integers that fit 256 bits. *)
Lemma admin_productId_inv f o :
  AdminRegisterPanel.productId f = Ret o ->
  exists a, AdminRegisterPanel.attributes f = Some a /\ wellFormed a
            /\ o = Web3.sha3 (encodePacked a).
Proof.
  unfold AdminRegisterPanel.productId, AdminRegisterPanel.attributes, Web3.soliditySha3.
  cbn [Web3.packAll bind Web3.solidityPack].
  destruct (AdminRegisterPanel.f_price f) as [|p]; [discriminate|].
  fold (Web3.solidityPack (Web3.SolUint256 (JS.toString (JS.Int p)))).
  rewrite solidityPack_uint.
  destruct (Z.leb_spec Web3.w256 p); [discriminate|].
  destruct (Z.ltb_spec p 0); [discriminate|].
  destruct (AdminRegisterPanel.f_year f) as [|y]; [discriminate|].
  fold (Web3.solidityPack (Web3.SolUint256 (JS.toString (JS.Int y)))).
  rewrite solidityPack_uint.
  destruct (Z.leb_spec Web3.w256 y); [discriminate|].
  destruct (Z.ltb_spec y 0); [discriminate|].
  cbn [bind]. intros <-%Ret_inj. eexists. split; [reflexivity|]. split.
  - unfold wellFormed; cbn [price year]. lia.
  - unfold encodePacked; cbn [name color material price year]. now rewrite app_nil_r.
Qed.

Lemma admin_productId_ok f a :
  AdminRegisterPanel.attributes f = Some a -> wellFormed a ->
  AdminRegisterPanel.productId f = Ret (Web3.sha3 (encodePacked a)).
Proof.
  unfold AdminRegisterPanel.productId, AdminRegisterPanel.attributes, Web3.soliditySha3, wellFormed.
  destruct (AdminRegisterPanel.f_price f) as [|p]; [discriminate|].
  destruct (AdminRegisterPanel.f_year f) as [|y]; [discriminate|].
  intros [= <-]; cbn [price year]. intros [Hp Hy].
  cbn [Web3.packAll bind]. rewrite !solidityPack_uint.
  destruct (Z.leb_spec Web3.w256 p); [lia|]. destruct (Z.ltb_spec p 0); [lia|].
  destruct (Z.leb_spec Web3.w256 y); [lia|]. destruct (Z.ltb_spec y 0); [lia|].
  cbn [Web3.solidityPack bind]. unfold encodePacked; cbn [name color material price year].
  now rewrite app_nil_r.
Qed.

Lemma abiUint_Ret x z :
  abiUint x = Ret z -> x = JS.Int z /\ (0 <= z < JS.MAX_SAFE_INTEGER)%Z.
Proof.
  unfold abiUint. destruct x as [|v]; [discriminate|].
  destruct (Z.ltb_spec v 0); [discriminate|].
  destruct (Z.leb_spec JS.MAX_SAFE_INTEGER v); [discriminate|].
  cbn [orb]. intros <-%Ret_inj. split; [reflexivity|lia].
Qed.

Lemma abiUintBN_ok z : (0 <= z < Web3.w256)%Z -> abiUintBN z = Ret z.
Proof.
  intros [H0 H1]. unfold abiUintBN.
  destruct (Z.ltb_spec z 0); [lia|]. destruct (Z.leb_spec Web3.w256 z); [lia|]. reflexivity.
Qed.

(** The other panel's id is the digest of the same five packed fields
    followed by the time of registration. *)
Lemma panel_productId_inv form env o :
  RegisterPanel.productId form env = Ret o ->
  exists a, RegisterPanel.attributes form = Some a /\ wellFormed a
            /\ (0 <= RegisterPanel.now env < Web3.w256)%Z
            /\ o = Web3.sha3 (RegisterPanel.preimage a (RegisterPanel.now env)).
Proof.
  unfold RegisterPanel.productId, RegisterPanel.attributes, Web3.soliditySha3.
  cbn [Web3.packAll bind Web3.solidityPack].
  fold (Web3.solidityPack (Web3.SolUint256 (Form.price form))).
  fold (Web3.solidityPack (Web3.SolUint256 (JS.or_else (Form.year form) "0"))).
  fold (Web3.solidityPack (Web3.SolUint256 (JS.toString (JS.Int (RegisterPanel.now env))))).
  destruct (Web3.solidityPack (Web3.SolUint256 (Form.price form))) as [bp|] eqn:Hp;
    [|discriminate].
  destruct (Web3.solidityPack (Web3.SolUint256 (JS.or_else (Form.year form) "0")))
    as [byr|] eqn:Hy; [|discriminate].
  rewrite solidityPack_uint.
  destruct (Z.leb_spec Web3.w256 (RegisterPanel.now env)); [discriminate|].
  destruct (Z.ltb_spec (RegisterPanel.now env) 0); [discriminate|].
  apply solidityPack_uint_inv in Hp as (p & -> & Hpr & ->).
  apply solidityPack_uint_inv in Hy as (y & -> & Hyr & ->).
  cbn [bind]. intros <-%Ret_inj. eexists. split; [reflexivity|].
  split; [|split].
  - unfold wellFormed; cbn [price year]. lia.
  - lia.
  - unfold RegisterPanel.preimage, encodePacked; cbn [name color material price year].
    rewrite app_nil_r, <- !app_assoc. reflexivity.
Qed.

(** What a completed registration at the admin panel has done. *)
Lemma admin_register_inv busy account form env id sc url :
  Run.final (AdminRegisterPanel.register busy account form env) = Run.Registered id sc url ->
  exists a contract,
    AdminRegisterPanel.attributes (AdminRegisterPanel.prepare form env) = Some a
    /\ wellFormed a
    /\ Web3.sha3 (encodePacked a) = Some id
    /\ Run.sent (AdminRegisterPanel.register busy account form env)
       = [ {| Run.from := JS.or_else account (hd "" (match AdminRegisterPanel.getAccounts env with
                                                     | Ret l => l | Throw _ => [] end));
              Run.to := Artifact.c_address contract;
              Run.call := uploadOf id a |} ].
Proof.
  unfold AdminRegisterPanel.register.
  destruct busy; [discriminate|].
  destruct (AdminRegisterPanel.ethereum env); [|discriminate]. cbn [negb].
  destruct (AdminRegisterPanel.requestAccounts env); [|discriminate].
  destruct (AdminRegisterPanel.getAccounts env) as [accounts|]; [|discriminate].
  destruct (JS.truthy (JS.or_else account (hd "" accounts))); [|discriminate]. cbn [negb].
  destruct (JS.truthy _); [|discriminate]. cbn [negb].
  destruct (AdminRegisterPanel.productId _) as [[idHex|]|] eqn:Hid; [|discriminate..].
  destruct (AdminRegisterPanel.loadContract env) as [contract|]; [|discriminate].
  destruct (AdminRegisterPanel.uploadCall idHex _) as [c|] eqn:Hc; [|discriminate].
  destruct (AdminRegisterPanel.send env _); [|discriminate].
  destruct (AdminRegisterPanel.codesRegister env idHex); [|discriminate].
  destruct (AdminRegisterPanel.toDataURL env _); [|discriminate].
  cbn [Run.final Run.sent]. intros [= -> <- <-].
  apply admin_productId_inv in Hid as (pa & Ha & Hwf & Hsha).
  assert (Hcall : c = uploadOf id pa).
  { unfold AdminRegisterPanel.uploadCall in Hc. unfold AdminRegisterPanel.attributes in Ha.
    destruct (AdminRegisterPanel.f_price _) as [|p]; [discriminate|].
    destruct (AdminRegisterPanel.f_year _) as [|y]; [discriminate|].
    apply (f_equal (fun o => match o with Some x => x | None => pa end)) in Ha.
    subst pa.
    destruct (abiUint (JS.Int p)) as [p'|] eqn:Ep; [|discriminate].
    destruct (abiUint (JS.Int y)) as [y'|] eqn:Ey; [|discriminate].
    apply abiUint_Ret in Ep as [Ep _]. apply abiUint_Ret in Ey as [Ey _].
    injection Ep as <-. injection Ey as <-.
    cbn [bind] in Hc. apply Ret_inj in Hc. subst c. reflexivity. }
  exists pa, contract.
  split; [exact Ha|]. split; [exact Hwf|]. split; [symmetry; exact Hsha|].
  now rewrite Hcall.
Qed.

Lemma uint_of_char_digit c o d :
  uint_of_char c o = Some d -> JS.isWhiteSpace c = false /\ exists d0, o = Some d0.
Proof.
  destruct o as [d0|].
  - destruct c as [[] [] [] [] [] [] [] []]; simpl; try discriminate; eauto.
  - destruct c as [[] [] [] [] [] [] [] []]; simpl; discriminate.
Qed.

Lemma digits_trimEnd s d : NilEmpty.uint_of_string s = Some d -> JS.trimEnd s = s.
Proof.
  revert d. induction s as [|c r IH]; intros d; [reflexivity|].
  cbn [NilEmpty.uint_of_string]. intros (Hc & d0 & Hr)%uint_of_char_digit.
  cbn [JS.trimEnd]. rewrite (IH d0 Hr), Hc. now destruct r.
Qed.

Lemma decimalValue_trim s n : JS.decimalValue s = Some n -> JS.trim s = s /\ s <> "".
Proof.
  unfold JS.decimalValue. destruct s as [|c r]; [discriminate|].
  destruct (NilEmpty.uint_of_string (String c r)) as [d|] eqn:Hd; [|discriminate].
  intros _. split; [|discriminate].
  pose proof (digits_trimEnd _ _ Hd) as Hend.
  cbn [NilEmpty.uint_of_string] in Hd. apply uint_of_char_digit in Hd as [Hc _].
  unfold JS.trim. cbn [JS.trimStart]. now rewrite Hc.
Qed.

Lemma parseNumber_trim v z : Web3.parseNumber v = Some z -> JS.trim v = v /\ v <> "".
Proof.
  unfold Web3.parseNumber.
  destruct v as [|c r]; [discriminate|].
  destruct (Ascii.eqb_spec c "-"%char) as [->|Hc].
  - destruct (JS.decimalValue r) as [n|] eqn:Hn; [|discriminate]. intros _.
    apply decimalValue_trim in Hn as [Ht Hne]. split; [|discriminate].
    unfold JS.trim in *. cbn [JS.trimStart]. change (JS.isWhiteSpace "-") with false.
    cbv iota. cbn [JS.trimEnd].
    destruct r as [|c' r']; [contradiction|].
    cbn [JS.trimStart] in Ht.
    destruct (JS.isWhiteSpace c') eqn:Hw.
    + exfalso. apply (f_equal String.length) in Ht.
      assert (Hle : forall s, String.length (JS.trimEnd s) <= String.length s).
      { clear. induction s as [|a s IH]; simpl; [lia|].
        destruct (JS.trimEnd s); [destruct (JS.isWhiteSpace a)|]; simpl in *; lia. }
      assert (Hle' : forall s, String.length (JS.trimStart s) <= String.length s).
      { clear. induction s as [|a s IH]; simpl; [lia|].
        destruct (JS.isWhiteSpace a); simpl; lia. }
      pose proof (Hle (JS.trimStart r')). pose proof (Hle' r'). simpl in Ht. lia.
    + rewrite Ht. reflexivity.
  - assert (E : match String c r with
                | String "-"%char r0 => option_map (fun n => (- Z.of_N n)%Z) (JS.decimalValue r0)
                | _ => option_map Z.of_N (JS.decimalValue (String c r))
                end = option_map Z.of_N (JS.decimalValue (String c r))).
    { destruct c as [[] [] [] [] [] [] [] []]; try reflexivity. contradiction Hc. reflexivity. }
    rewrite E. destruct (JS.decimalValue (String c r)) as [n|] eqn:Hn; [|discriminate].
    intros _. eapply decimalValue_trim; eauto.
Qed.

Lemma Number_parse v z : Web3.parseNumber v = Some z -> RegisterPanel.Number v = JS.Int z.
Proof.
  intros H. destruct (parseNumber_trim v z H) as [Ht Hne].
  unfold RegisterPanel.Number. rewrite Ht. destruct v; [contradiction|]. now rewrite H.
Qed.

(** What a completed registration at the other panel has done. *)
Lemma panel_register_inv account form env id sc url :
  Run.final (RegisterPanel.register account form env) = Run.Registered id sc url ->
  exists a contract,
    RegisterPanel.attributes form = Some a
    /\ wellFormed a
    /\ (0 <= RegisterPanel.now env < Web3.w256)%Z
    /\ Web3.sha3 (RegisterPanel.preimage a (RegisterPanel.now env)) = Some id
    /\ Run.sent (RegisterPanel.register account form env)
       = [ {| Run.from := account; Run.to := Artifact.c_address contract;
              Run.call := uploadOf id a |} ].
Proof.
  unfold RegisterPanel.register.
  destruct (JS.truthy account); [|discriminate]. cbn [negb].
  destruct (negb (JS.truthy (Form.name form)) || negb (JS.truthy (Form.price form)));
    [discriminate|].
  destruct (negb (JS.truthy (Form.color form)) || negb (JS.truthy (Form.material form)));
    [discriminate|].
  destruct (RegisterPanel.loadContract env) as [contract|]; [|discriminate].
  destruct (RegisterPanel.productId form env) as [[pid|]|] eqn:Hid; [|discriminate..].
  destruct (RegisterPanel.uploadCall pid form) as [c|] eqn:Hc; [|discriminate].
  destruct (RegisterPanel.send env _); [|discriminate].
  destruct (RegisterPanel.toDataURL env pid); [|discriminate].
  cbn [Run.final Run.sent]. intros [= -> <- <-].
  apply panel_productId_inv in Hid as (pa & Ha & Hwf & Hnow & Hsha).
  assert (Hcall : c = uploadOf id pa).
  { unfold RegisterPanel.uploadCall, RegisterPanel.toBN in Hc.
    unfold RegisterPanel.attributes in Ha.
    destruct (Web3.parseNumber (Form.price form)) as [p|]; [|discriminate].
    destruct (Web3.parseNumber (JS.or_else (Form.year form) "0")) as [y|] eqn:Hy;
      [|discriminate].
    apply (f_equal (fun o => match o with Some x => x | None => pa end)) in Ha.
    subst pa. destruct Hwf as [Hp Hyr]; cbn [price year] in Hp, Hyr.
    rewrite (Number_parse _ _ Hy) in Hc. cbn [bind] in Hc.
    rewrite (abiUintBN_ok p Hp) in Hc. cbn [bind] in Hc.
    destruct (abiUint (JS.Int y)) as [y'|] eqn:Ey; [|discriminate].
    apply abiUint_Ret in Ey as [Ey _]. injection Ey as <-.
    cbn [bind] in Hc. apply Ret_inj in Hc. subst c. reflexivity. }
  exists pa, contract.
  split; [exact Ha|]. split; [exact Hwf|]. split; [exact Hnow|].
  split; [symmetry; exact Hsha|]. now rewrite Hcall.
Qed.

Lemma registeredId_final r id :
  Run.registeredId r = Some id -> exists sc url, Run.final r = Run.Registered id sc url.
Proof.
  unfold Run.registeredId. destruct (Run.final r); try discriminate.
  intros [= ->]. eauto.
Qed.

Lemma admin_registered busy account form env id :
  Run.registeredId (AdminRegisterPanel.register busy account form env) = Some id ->
  exists a,
    AdminRegisterPanel.attributes (AdminRegisterPanel.prepare form env) = Some a
    /\ wellFormed a /\ id = fingerprintOf a
    /\ Run.calls (AdminRegisterPanel.register busy account form env) = [uploadOf id a].
Proof.
  intros (sc & url & Hfin)%registeredId_final.
  apply admin_register_inv in Hfin as (a & contract & Ha & Hwf & Hsha & Hsent).
  exists a. split; [exact Ha|]. split; [exact Hwf|]. split.
  - now apply sha3_Some.
  - unfold Run.calls. now rewrite Hsent.
Qed.

Lemma panel_registered account form env id :
  Run.registeredId (RegisterPanel.register account form env) = Some id ->
  exists a,
    RegisterPanel.attributes form = Some a
    /\ wellFormed a
    /\ id = Web3.be_to_N (Keccak.keccak256 (RegisterPanel.preimage a (RegisterPanel.now env)))
    /\ Run.calls (RegisterPanel.register account form env) = [uploadOf id a].
Proof.
  intros (sc & url & Hfin)%registeredId_final.
  apply panel_register_inv in Hfin as (a & contract & Ha & Hwf & _ & Hsha & Hsent).
  exists a. split; [exact Ha|]. split; [exact Hwf|]. split.
  - now apply sha3_Some.
  - unfold Run.calls. now rewrite Hsent.
Qed.

Lemma safeNumbers_wellFormed a : safeNumbers a -> wellFormed a.
Proof.
  unfold safeNumbers, wellFormed, JS.MAX_SAFE_INTEGER, Web3.w256.
  assert (2 ^ 53 < 2 ^ 256)%Z by (apply Z.pow_lt_mono_r; lia). lia.
Qed.

(** The numbers of a completed registration at the admin panel went
    through the contract method as JavaScript numbers: they are safe
    integers. *)
Lemma admin_registered_safe busy account form env id :
  Run.registeredId (AdminRegisterPanel.register busy account form env) = Some id ->
  forall a,
    AdminRegisterPanel.attributes (AdminRegisterPanel.prepare form env) = Some a ->
    safeNumbers a.
Proof.
  intros (sc & url & Hfin)%registeredId_final. revert Hfin.
  unfold AdminRegisterPanel.register.
  destruct busy; [discriminate|].
  destruct (AdminRegisterPanel.ethereum env); [|discriminate]. cbn [negb].
  destruct (AdminRegisterPanel.requestAccounts env); [|discriminate].
  destruct (AdminRegisterPanel.getAccounts env) as [accounts|]; [|discriminate].
  destruct (JS.truthy (JS.or_else account (hd "" accounts))); [|discriminate]. cbn [negb].
  destruct (JS.truthy _); [|discriminate]. cbn [negb].
  destruct (AdminRegisterPanel.productId _) as [[idHex|]|]; [|discriminate..].
  destruct (AdminRegisterPanel.loadContract env) as [contract|]; [|discriminate].
  destruct (AdminRegisterPanel.uploadCall idHex _) as [c|] eqn:Hc; [|discriminate].
  intros _ pa Ha.
  unfold AdminRegisterPanel.uploadCall in Hc. unfold AdminRegisterPanel.attributes in Ha.
  destruct (abiUint (AdminRegisterPanel.f_price _)) as [p'|] eqn:Ep; [|discriminate].
  destruct (abiUint (AdminRegisterPanel.f_year _)) as [y'|] eqn:Ey; [|discriminate].
  apply abiUint_Ret in Ep as [Ep Hp]. apply abiUint_Ret in Ey as [Ey Hy].
  rewrite Ep, Ey in Ha.
  apply (f_equal (fun o => match o with Some x => x | None => pa end)) in Ha. subst pa.
  unfold safeNumbers; cbn [price year]. lia.
Qed.

(** ** Fingerprints *)

(** C1 as stated fails on frontend/src/RegisterPanel.tsx: the same form
    registered one second later gets another product id. *)
Lemma panel_id_changes_with_time :
  exists id1 id2,
    Run.registeredId
      (RegisterPanel.register Sample.wallet Sample.formA (Sample.panelEnv Sample.nov2023))
    = Some id1
    /\ Run.registeredId
         (RegisterPanel.register Sample.wallet Sample.formA
            (Sample.panelEnv (Sample.nov2023 + 1)))
       = Some id2
    /\ id1 <> id2.
Proof.
  do 2 eexists. split; [vm_compute; reflexivity|]. split; [vm_compute; reflexivity|].
  discriminate.
Qed.

(** C1, as the two panels have it. At the admin panel with the short-code
    step, two completed registrations whose prepared attributes are the
    same have the same product id, whatever the wallet, the contract, the
    backend or the date; at the panel of frontend/src/RegisterPanel.tsx
    the product id is determined by the attributes together with the time
    of registration in seconds. *)
Theorem product_id_determinism :
  (forall busy1 account1 form1 env1 busy2 account2 form2 env2 id1 id2,
     AdminRegisterPanel.attributes (AdminRegisterPanel.prepare form1 env1)
     = AdminRegisterPanel.attributes (AdminRegisterPanel.prepare form2 env2) ->
     Run.registeredId (AdminRegisterPanel.register busy1 account1 form1 env1) = Some id1 ->
     Run.registeredId (AdminRegisterPanel.register busy2 account2 form2 env2) = Some id2 ->
     id1 = id2)
  /\ (forall account1 form1 env1 account2 form2 env2 id1 id2,
        RegisterPanel.attributes form1 = RegisterPanel.attributes form2 ->
        RegisterPanel.now env1 = RegisterPanel.now env2 ->
        Run.registeredId (RegisterPanel.register account1 form1 env1) = Some id1 ->
        Run.registeredId (RegisterPanel.register account2 form2 env2) = Some id2 ->
        id1 = id2).
Proof.
  split.
  - intros * Hsame (a1 & Ha1 & _ & -> & _)%admin_registered
                   (a2 & Ha2 & _ & -> & _)%admin_registered.
    congruence.
  - intros * Hsame Hnow (a1 & Ha1 & _ & -> & _)%panel_registered
                        (a2 & Ha2 & _ & -> & _)%panel_registered.
    rewrite Hnow. congruence.
Qed.

Lemma product_id_determinism_witness :
  Run.registeredId
    (AdminRegisterPanel.register false "" Sample.formA (Sample.adminEnv 2024 [Sample.wallet]))
  = Some (fingerprintOf Sample.bagA)
  /\ Run.registeredId
       (AdminRegisterPanel.register false Sample.hardhatAddress Sample.formNoYear
          (Sample.adminEnv 2024 []))
     = Some (fingerprintOf Sample.bagA)
  /\ fingerprintOf Sample.bagA = fingerprintOf Sample.bagA.
Proof.
  assert (H1 : Run.registeredId
                 (AdminRegisterPanel.register false "" Sample.formA
                    (Sample.adminEnv 2024 [Sample.wallet]))
               = Some (fingerprintOf Sample.bagA)) by (vm_compute; reflexivity).
  assert (H2 : Run.registeredId
                 (AdminRegisterPanel.register false Sample.hardhatAddress Sample.formNoYear
                    (Sample.adminEnv 2024 []))
               = Some (fingerprintOf Sample.bagA)) by (vm_compute; reflexivity).
  split; [exact H1|]. split; [exact H2|].
  refine (proj1 product_id_determinism
            false "" Sample.formA (Sample.adminEnv 2024 [Sample.wallet])
            false Sample.hardhatAddress Sample.formNoYear (Sample.adminEnv 2024 [])
            (fingerprintOf Sample.bagA) (fingerprintOf Sample.bagA) _ H1 H2).
  vm_compute. reflexivity.
Defined.

(** C2 as stated fails on frontend/src/RegisterPanel.tsx: a sixth field,
    the time of registration, is hashed after the five attributes, and the
    product id is not the digest of the five packed fields. *)
Lemma panel_id_is_not_the_five_field_digest :
  RegisterPanel.attributes Sample.formA = Some Sample.bagA
  /\ exists id,
       Run.registeredId
         (RegisterPanel.register Sample.wallet Sample.formA (Sample.panelEnv Sample.nov2023))
       = Some id
       /\ id <> fingerprintOf Sample.bagA.
Proof.
  split; [reflexivity|]. eexists. split; [vm_compute; reflexivity|].
  vm_compute. discriminate.
Qed.

(** C2, as the two panels have it. At the admin panel with the short-code
    step, for attributes whose price and year are safe integers (the range
    in which the panel's JavaScript numbers are exact), the product id is
    the Keccak-256 digest of the tightly packed name, color, material
    (texts) and price, year (256-bit unsigned integers) in that order; a
    completed registration has such attributes and stores exactly them on
    the ledger under that id.  At the panel of
    frontend/src/RegisterPanel.tsx the digest is taken over the same five
    packed fields followed by the registration time as a sixth 256-bit
    unsigned integer. *)
Theorem product_id_is_packed_digest :
  (forall f a,
     AdminRegisterPanel.attributes f = Some a -> safeNumbers a ->
     AdminRegisterPanel.productId f = Ret (Web3.sha3 (encodePacked a)))
  /\ (forall busy account form env id,
        Run.registeredId (AdminRegisterPanel.register busy account form env) = Some id ->
        exists a,
          AdminRegisterPanel.attributes (AdminRegisterPanel.prepare form env) = Some a
          /\ safeNumbers a
          /\ wellFormed a
          /\ id = Web3.be_to_N (Keccak.keccak256 (encodePacked a))
          /\ Run.calls (AdminRegisterPanel.register busy account form env) = [uploadOf id a])
  /\ (forall account form env id,
        Run.registeredId (RegisterPanel.register account form env) = Some id ->
        exists a,
          RegisterPanel.attributes form = Some a
          /\ wellFormed a
          /\ id = Web3.be_to_N
                    (Keccak.keccak256
                       (encodePacked a
                          ++ Web3.be_bytes 32 (Z.to_N (RegisterPanel.now env))))
          /\ Run.calls (RegisterPanel.register account form env) = [uploadOf id a]).
Proof.
  split; [|split].
  - intros f a Ha Hs. apply admin_productId_ok; [exact Ha|].
    now apply safeNumbers_wellFormed.
  - intros * H. pose proof (admin_registered_safe _ _ _ _ _ H) as Hsafe.
    destruct (admin_registered _ _ _ _ _ H) as (a & Ha & Hwf & Hid & Hcalls).
    exists a. split; [exact Ha|]. split; [exact (Hsafe a Ha)|].
    split; [exact Hwf|]. split; [exact Hid | exact Hcalls].
  - intros * H. exact (panel_registered _ _ _ _ H).
Qed.

Lemma product_id_is_packed_digest_witness :
  AdminRegisterPanel.productId
    (AdminRegisterPanel.prepare Sample.formA (Sample.adminEnv 2026 [Sample.wallet]))
  = Ret (Web3.sha3 (encodePacked Sample.bagA))
  /\ Run.registeredId
       (AdminRegisterPanel.register false "" Sample.formA (Sample.adminEnv 2026 [Sample.wallet]))
     = Some (fingerprintOf Sample.bagA)
  /\ exists a,
       AdminRegisterPanel.attributes
         (AdminRegisterPanel.prepare Sample.formA (Sample.adminEnv 2026 [Sample.wallet]))
       = Some a
       /\ safeNumbers a
       /\ wellFormed a
       /\ fingerprintOf Sample.bagA = Web3.be_to_N (Keccak.keccak256 (encodePacked a))
       /\ Run.calls
            (AdminRegisterPanel.register false "" Sample.formA
               (Sample.adminEnv 2026 [Sample.wallet]))
          = [uploadOf (fingerprintOf Sample.bagA) a].
Proof.
  assert (H : Run.registeredId
                (AdminRegisterPanel.register false "" Sample.formA
                   (Sample.adminEnv 2026 [Sample.wallet]))
              = Some (fingerprintOf Sample.bagA)) by (vm_compute; reflexivity).
  split; [|split; [exact H|]].
  - refine (proj1 product_id_is_packed_digest
              (AdminRegisterPanel.prepare Sample.formA (Sample.adminEnv 2026 [Sample.wallet]))
              Sample.bagA eq_refl _).
    split; vm_compute; split; discriminate.
  - exact (proj1 (proj2 product_id_is_packed_digest)
             false "" Sample.formA (Sample.adminEnv 2026 [Sample.wallet])
             (fingerprintOf Sample.bagA) H).
Defined.

(** C8 as stated fails on frontend/src/RegisterPanel.tsx: with the year
    left blank in November 2023, the year written to the ledger is 0. *)
Lemma panel_blank_year_is_zero :
  map (fun c => FakeProdDetector.year (FakeProdDetector.arg_product c))
      (Run.calls
         (RegisterPanel.register Sample.wallet Sample.formNoYear
            (Sample.panelEnv Sample.nov2023)))
  = [0%Z]
  /\ RegisterPanel.attributes Sample.formNoYear
     = Some {| name := "Bag A"; color := "Black"; material := "Togo Leather";
               price := 1000; year := 0 |}.
Proof. split; vm_compute; reflexivity. Qed.

(** C8, as the two panels have it. With the year left blank, a completed
    registration at the admin panel with the short-code step hashes and
    uploads the current calendar year; one at the panel of
    frontend/src/RegisterPanel.tsx hashes and uploads the year 0. *)
Theorem blank_year_default (form : Form.t) :
  Form.year form = "" ->
  (forall busy account env id,
     Run.registeredId (AdminRegisterPanel.register busy account form env) = Some id ->
     exists a,
       AdminRegisterPanel.attributes (AdminRegisterPanel.prepare form env) = Some a
       /\ year a = AdminRegisterPanel.currentYear env
       /\ id = fingerprintOf a
       /\ Run.calls (AdminRegisterPanel.register busy account form env) = [uploadOf id a])
  /\ (forall account env id,
        Run.registeredId (RegisterPanel.register account form env) = Some id ->
        exists a,
          RegisterPanel.attributes form = Some a
          /\ year a = 0%Z
          /\ id = Web3.be_to_N
                    (Keccak.keccak256 (RegisterPanel.preimage a (RegisterPanel.now env)))
          /\ Run.calls (RegisterPanel.register account form env) = [uploadOf id a]).
Proof.
  intros Hblank. split.
  - intros * (a & Ha & _ & Hid & Hcalls)%admin_registered.
    exists a. repeat split; try assumption.
    unfold AdminRegisterPanel.attributes, AdminRegisterPanel.prepare in Ha.
    cbn [AdminRegisterPanel.f_price AdminRegisterPanel.f_year] in Ha.
    rewrite Hblank in Ha. cbn [JS.truthy] in Ha.
    destruct (if JS.truthy _ then _ else _); [discriminate|].
    apply (f_equal (fun o => match o with Some x => year x | None => year a end)) in Ha.
    symmetry. exact Ha.
  - intros * (a & Ha & _ & Hid & Hcalls)%panel_registered.
    exists a. repeat split; try assumption.
    unfold RegisterPanel.attributes in Ha. rewrite Hblank in Ha.
    change (JS.or_else "" "0") with "0" in Ha.
    change (Web3.parseNumber "0") with (Some 0%Z) in Ha.
    destruct (Web3.parseNumber (Form.price form)); [|discriminate].
    apply (f_equal (fun o => match o with Some x => year x | None => year a end)) in Ha.
    symmetry. exact Ha.
Qed.

Lemma blank_year_default_witness :
  exists a,
    AdminRegisterPanel.attributes
      (AdminRegisterPanel.prepare Sample.formNoYear (Sample.adminEnv 2026 [Sample.wallet]))
    = Some a
    /\ year a = 2026%Z.
Proof.
  assert (H : Run.registeredId
                (AdminRegisterPanel.register false "" Sample.formNoYear
                   (Sample.adminEnv 2026 [Sample.wallet]))
              = Some (fingerprintOf {| name := "Bag A"; color := "Black";
                                       material := "Togo Leather";
                                       price := 1000; year := 2026 |}))
    by (vm_compute; reflexivity).
  destruct (proj1 (blank_year_default Sample.formNoYear eq_refl)
              false "" (Sample.adminEnv 2026 [Sample.wallet]) _ H)
    as (a & Ha & Hy & _).
  exists a. split; [exact Ha | exact Hy].
Defined.

(** ** Artifact resolution *)

Lemma hasEntry_false_addressAt a k :
  UseContractLocal.hasEntry a k = false -> Artifact.addressAt a k = None.
Proof.
  unfold UseContractLocal.hasEntry, Artifact.addressAt.
  destruct (Artifact.networks a) as [ns|]; [|reflexivity].
  destruct (ns !! k); [|reflexivity]. intros H.
  apply bool_decide_eq_false in H. exfalso. apply H. eauto.
Qed.

Lemma addressAt_hasEntry a k s :
  Artifact.addressAt a k = Some s -> UseContractLocal.hasEntry a k = true.
Proof.
  unfold UseContractLocal.hasEntry, Artifact.addressAt.
  destruct (Artifact.networks a) as [ns|]; [|discriminate].
  destruct (ns !! k); [|discriminate]. intros _.
  apply bool_decide_eq_true. eauto.
Qed.

Lemma isAddress_truthy s : Web3.isAddress s = true -> JS.truthy s = true.
Proof. destruct s; [vm_compute; discriminate | reflexivity]. Qed.

Lemma newContract_valid i s :
  Web3.isAddress s = true ->
  Artifact.newContract (Some i) s = Ret {| Artifact.c_abi := i; Artifact.c_address := s |}.
Proof.
  intros H. unfold Artifact.newContract. rewrite H. now rewrite orb_true_r.
Qed.

(** The branch that src/useContract.ts comments as "fallback to hardhat
    default if running locally" does not look at where it runs: whatever
    network the wallet is on, when the artifact has no entry for it but
    has one for network 31337, the contract returned is the one at the
    address of network 31337, where frontend/src/useContract.ts fails with
    its "not deployed" error. *)
Lemma fallback_on_every_network (a : Artifact.t) (i : list string) (id : Z) (s : string) :
  Artifact.abi a = Some i ->
  UseContractLocal.hasEntry a (Artifact.key id) = false ->
  Artifact.addressAt a "31337" = Some s ->
  Web3.isAddress s = true ->
  UseContract.loadContract (Ret (Some a)) (Ret id) = Throw (UseContract.notDeployed id)
  /\ UseContractLocal.loadContract (Ret (Some a)) (Ret id)
     = Ret {| Artifact.c_abi := i; Artifact.c_address := s |}.
Proof.
  intros Habi Hno H31 Hs. split.
  - unfold UseContract.loadContract, bind.
    rewrite (hasEntry_false_addressAt a _ Hno). reflexivity.
  - unfold UseContractLocal.loadContract, bind.
    rewrite Habi, Hno, (addressAt_hasEntry a _ s H31), H31.
    unfold Artifact.present. rewrite (isAddress_truthy s Hs).
    now apply newContract_valid.
Qed.

(** C3. The defect of src/useContract.ts, at the artifact that the deploy
    script writes (network 31337 only) and a wallet on network 1.  The
    artifact has no entry for network 1; frontend/src/useContract.ts fails
    with its "not deployed" error, as the claim asks, while
    src/useContract.ts silently returns the contract of the Hardhat
    deployment. *)
Lemma loadContract_falls_back_to_hardhat :
  UseContractLocal.hasEntry Sample.hardhatOnly (Artifact.key 1) = false
  /\ Artifact.addressAt Sample.hardhatOnly (Artifact.key 1) = None
  /\ UseContract.loadContract (Ret (Some Sample.hardhatOnly)) (Ret 1%Z)
     = Throw (Error "Contract not deployed for network 1.")
  /\ UseContractLocal.loadContract (Ret (Some Sample.hardhatOnly)) (Ret 1%Z)
     = Ret {| Artifact.c_abi := ["uploadProduct"; "getProduct"];
              Artifact.c_address := "0x5FbDB2315678afecb367f032d93F642f64180aa3" |}.
Proof. repeat split; vm_compute; reflexivity. Qed.

(** ** The admin verify panel *)

(** C4 as stated fails: the reason the panel reports for a failed request
    is not [verification_unavailable]. *)
Lemma go_failure_reason_differs :
  let st := {| VerifyPanel.pid := "0x01"; VerifyPanel.out := None;
               VerifyPanel.history := []; VerifyPanel.busy := false;
               VerifyPanel.errorMsg := None |} in
  let st' := VerifyPanel.go (fun _ => Throw (LibError "Failed to fetch")) st in
  option_map (fun o => Api.reason (Api.verdict o)) (VerifyPanel.out st')
  = Some "network_or_server_error — unable to verify"
  /\ option_map (fun o => Api.reason (Api.verdict o)) (VerifyPanel.out st')
     <> Some "verification_unavailable".
Proof. split; [reflexivity | discriminate]. Qed.

(** C4, as the panel has it. When the request for a non-blank product id
    fails, [go] does not fail: it shows and records a made-up answer whose
    verdict has status [fake] and the reason
    [network_or_server_error — unable to verify], keeps the error text and
    clears the busy flag. *)
Theorem go_failure_is_fake_verdict
    (fetchVerify : string -> res Api.VerifyResponse) (st : VerifyPanel.State) (e : exn) :
  JS.truthy (JS.trim (VerifyPanel.pid st)) = true ->
  fetchVerify (JS.trim (VerifyPanel.pid st)) = Throw e ->
  let st' := VerifyPanel.go fetchVerify st in
  VerifyPanel.out st' = Some VerifyPanel.fakeResponse
  /\ Api.status (Api.verdict VerifyPanel.fakeResponse) = "fake"
  /\ Api.reason (Api.verdict VerifyPanel.fakeResponse)
     = "network_or_server_error — unable to verify"
  /\ VerifyPanel.history st' = VerifyPanel.fakeResponse :: VerifyPanel.history st
  /\ VerifyPanel.errorMsg st' = Some (JS.messageOf e)
  /\ VerifyPanel.busy st' = false.
Proof.
  intros Hpid Hfetch st'. unfold st', VerifyPanel.go.
  rewrite Hpid, Hfetch. simpl. repeat split.
Qed.

Lemma go_failure_is_fake_verdict_witness :
  VerifyPanel.out
    (VerifyPanel.go (fun _ => Throw (LibError "Failed to fetch"))
       {| VerifyPanel.pid := " 0x01 "; VerifyPanel.out := None;
          VerifyPanel.history := []; VerifyPanel.busy := false;
          VerifyPanel.errorMsg := None |})
  = Some VerifyPanel.fakeResponse.
Proof.
  destruct (go_failure_is_fake_verdict (fun _ => Throw (LibError "Failed to fetch"))
              {| VerifyPanel.pid := " 0x01 "; VerifyPanel.out := None;
                 VerifyPanel.history := []; VerifyPanel.busy := false;
                 VerifyPanel.errorMsg := None |}
              (LibError "Failed to fetch") eq_refl eq_refl) as [H _].
  exact H.
Defined.

(** ** The ledger *)

Lemma getProduct_upload_same id n c m p y st :
  FakeProdDetector.getProduct id (FakeProdDetector.uploadProduct id n c m p y st)
  = (n, c, m, p, y).
Proof.
  unfold FakeProdDetector.getProduct, FakeProdDetector.uploadProduct; simpl.
  now rewrite lookup_insert_eq.
Qed.

Lemma getProduct_upload_other id id' n c m p y st :
  id' <> id ->
  FakeProdDetector.getProduct id (FakeProdDetector.uploadProduct id' n c m p y st)
  = FakeProdDetector.getProduct id st.
Proof.
  intros Hne. unfold FakeProdDetector.getProduct, FakeProdDetector.uploadProduct; simpl.
  now rewrite lookup_insert_ne.
Qed.

Lemma run_app st xs ys :
  FakeProdDetector.run st (xs ++ ys)
  = FakeProdDetector.run (FakeProdDetector.run st xs) ys.
Proof. apply fold_left_app. Qed.

(** Calls on other keys leave the record of [id] as it was. *)
Lemma getProduct_run_others id calls : forall st,
  Forall (fun c => FakeProdDetector.arg_id c <> id) calls ->
  FakeProdDetector.getProduct id (FakeProdDetector.run st calls)
  = FakeProdDetector.getProduct id st.
Proof.
  induction calls as [|c calls IH]; intros st Hall; [reflexivity|].
  inversion Hall as [|? ? Hc Hrest]; subst. simpl.
  rewrite IH by assumption. unfold FakeProdDetector.apply.
  now apply getProduct_upload_other.
Qed.

(** The record read back is that of the latest call on the key. *)
Lemma getProduct_run_lastUpload id calls : forall st,
  FakeProdDetector.getProduct id (FakeProdDetector.run st calls)
  = match FakeProdDetector.lastUpload id calls with
    | Some p => FakeProdDetector.tupleOf p
    | None => FakeProdDetector.getProduct id st
    end.
Proof.
  induction calls as [|c calls IH]; intros st; [reflexivity|].
  simpl. rewrite IH. destruct (FakeProdDetector.lastUpload id calls); [reflexivity|].
  unfold FakeProdDetector.apply. case_bool_decide as Hid.
  - rewrite Hid. apply getProduct_upload_same.
  - now apply getProduct_upload_other.
Qed.

(** C5. Whatever was uploaded before, once [uploadProduct id] has been
    called with some attributes and no later call uses the key [id],
    [getProduct id] returns exactly those attributes: a repeated write is
    accepted and replaces the record. *)
Theorem ledger_last_write_wins
    (st : FakeProdDetector.State) (before after : list FakeProdDetector.Call)
    (id : Web3.bytes32) (p : FakeProdDetector.Product) :
  Forall (fun c => FakeProdDetector.arg_id c <> id) after ->
  FakeProdDetector.getProduct id
    (FakeProdDetector.run st
       (before ++ {| FakeProdDetector.arg_id := id; FakeProdDetector.arg_product := p |}
               :: after))
  = (FakeProdDetector.name p, FakeProdDetector.color p, FakeProdDetector.material p,
     FakeProdDetector.price p, FakeProdDetector.year p).
Proof.
  intros Hafter. rewrite run_app. simpl.
  rewrite getProduct_run_others by assumption.
  unfold FakeProdDetector.apply; simpl. apply getProduct_upload_same.
Qed.

Lemma ledger_last_write_wins_witness :
  FakeProdDetector.getProduct 7%N
    (FakeProdDetector.run FakeProdDetector.deployed
       ([ {| FakeProdDetector.arg_id := 7%N;
             FakeProdDetector.arg_product :=
               FakeProdDetector.Build_Product "Bag A" "Black" "Togo Leather" 1000 2024 |} ]
        ++ {| FakeProdDetector.arg_id := 7%N;
              FakeProdDetector.arg_product :=
                FakeProdDetector.Build_Product "Bag B" "White" "Ostrich" 2500 2025 |}
        :: [ {| FakeProdDetector.arg_id := 8%N;
                FakeProdDetector.arg_product :=
                  FakeProdDetector.Build_Product "Bag C" "Brown" "Snake" 1 1 |} ]))
  = ("Bag B", "White", "Ostrich", 2500%Z, 2025%Z).
Proof.
  apply (ledger_last_write_wins FakeProdDetector.deployed
           [ {| FakeProdDetector.arg_id := 7%N;
                FakeProdDetector.arg_product :=
                  FakeProdDetector.Build_Product "Bag A" "Black" "Togo Leather" 1000 2024 |} ]
           [ {| FakeProdDetector.arg_id := 8%N;
                FakeProdDetector.arg_product :=
                  FakeProdDetector.Build_Product "Bag C" "Brown" "Snake" 1 1 |} ]
           7%N (FakeProdDetector.Build_Product "Bag B" "White" "Ostrich" 2500 2025)).
  repeat constructor. simpl. lia.
Defined.

(** A key never written reads as the zero record. *)
Lemma getProduct_never_uploaded id calls :
  Forall (fun c => FakeProdDetector.arg_id c <> id) calls ->
  FakeProdDetector.getProduct id (FakeProdDetector.run FakeProdDetector.deployed calls)
  = ("", "", "", 0%Z, 0%Z).
Proof.
  intros H. rewrite getProduct_run_others by assumption. reflexivity.
Qed.

Lemma readProduct_never_uploaded id calls :
  Forall (fun c => FakeProdDetector.arg_id c <> id) calls ->
  Engine.readProduct (FakeProdDetector.run FakeProdDetector.deployed calls) id
  = Engine.Found {| name := ""; color := ""; material := ""; price := 0; year := 0 |}.
Proof.
  intros H. unfold Engine.readProduct. now rewrite getProduct_never_uploaded.
Qed.

(** C6, as the ledger and the engine have it. For a fingerprint on which
    [uploadProduct] was never called, [getProduct] returns the zero record,
    and its verification is always [fake]; the reason follows the order of
    the engine's checks: [no_registration] without a registry entry,
    [code_mismatch] when the presented code is not the stored one, and
    [ledger_record_missing] once the registry checks have passed. *)
Theorem never_uploaded_reads_zero_and_is_fake
    (calls : list FakeProdDetector.Call) (id : Web3.bytes32)
    (reg : gmap N string) (presented : string) :
  Forall (fun c => FakeProdDetector.arg_id c <> id) calls ->
  let st := FakeProdDetector.run FakeProdDetector.deployed calls in
  FakeProdDetector.getProduct id st = ("", "", "", 0%Z, 0%Z)
  /\ Engine.verify reg (Engine.readProduct st) id presented
     = Engine.fakeBecause
         match reg !! id with
         | None => "no_registration"
         | Some stored =>
             if Engine.sameCode stored (Engine.normalize presented)
             then "ledger_record_missing" else "code_mismatch"
         end.
Proof.
  intros Hnever st. split.
  - now apply getProduct_never_uploaded.
  - unfold Engine.verify, Registry.lookup.
    destruct (reg !! id) as [stored|]; [|reflexivity].
    destruct (Engine.sameCode stored (Engine.normalize presented)); [|reflexivity].
    cbn [negb]. unfold st. rewrite readProduct_never_uploaded by assumption.
    reflexivity.
Qed.

Lemma never_uploaded_reads_zero_and_is_fake_witness :
  Engine.verify {[ 7%N := "VS2BOF" ]}
    (Engine.readProduct
       (FakeProdDetector.run FakeProdDetector.deployed
          [ {| FakeProdDetector.arg_id := 8%N;
               FakeProdDetector.arg_product :=
                 FakeProdDetector.Build_Product "Bag C" "Brown" "Snake" 1 1 |} ]))
    7%N " vs2bof"
  = Engine.fakeBecause "ledger_record_missing".
Proof.
  destruct (never_uploaded_reads_zero_and_is_fake
              [ {| FakeProdDetector.arg_id := 8%N;
                   FakeProdDetector.arg_product :=
                     FakeProdDetector.Build_Product "Bag C" "Brown" "Snake" 1 1 |} ]
              7%N {[ 7%N := "VS2BOF" ]} " vs2bof") as [_ H].
  - repeat constructor. simpl. lia.
  - exact H.
Defined.

(** C6 as stated fails: a fingerprint that was neither uploaded nor given a
    short code is [fake] for the reason [no_registration]. *)
Lemma never_uploaded_unregistered_reason :
  let st := FakeProdDetector.run FakeProdDetector.deployed [] in
  FakeProdDetector.getProduct 7%N st = ("", "", "", 0%Z, 0%Z)
  /\ Engine.verify Registry.empty (Engine.readProduct st) 7%N "VS2BOF"
     = Engine.fakeBecause "no_registration"
  /\ Engine.reason (Engine.verify Registry.empty (Engine.readProduct st) 7%N "VS2BOF")
     <> "ledger_record_missing".
Proof. repeat split. discriminate. Qed.

(** ** The short-code registry *)

Lemma inUse_true reg c : Registry.inUse reg c = true <-> exists f, reg !! f = Some c.
Proof.
  unfold Registry.inUse. rewrite bool_decide_eq_true. apply elem_of_map_img.
Qed.

Lemma inUse_false reg c : Registry.inUse reg c = false <-> forall f, reg !! f <> Some c.
Proof.
  rewrite <- not_true_iff_false, inUse_true. split.
  - intros Hno f Hf. apply Hno. now exists f.
  - intros Hall [f Hf]. exact (Hall f Hf).
Qed.

Lemma mint_fresh draws reg c : Registry.mint draws reg = Some c -> Registry.inUse reg c = false.
Proof.
  unfold Registry.mint. intros [_ H]%List.find_some. now apply negb_true_iff.
Qed.

(** What a successful registration is. *)
Lemma register_inr fp draws reg c reg' :
  Registry.register fp draws reg = inr (c, reg') ->
  reg !! fp = None /\ Registry.inUse reg c = false /\ reg' = <[fp := c]> reg.
Proof.
  unfold Registry.register. destruct (reg !! fp) eqn:Hfp; [discriminate|].
  destruct (Registry.mint draws reg) as [d|] eqn:Hm; [|discriminate].
  intros [= <- <-]. repeat split. exact (mint_fresh draws reg d Hm).
Qed.

Lemma codesUnique_insert reg fp c :
  Registry.codesUnique reg -> Registry.inUse reg c = false ->
  Registry.codesUnique (<[fp := c]> reg).
Proof.
  intros Huniq Hfresh0 f1 f2 d H1 H2.
  pose proof (proj1 (inUse_false reg c) Hfresh0) as Hfresh.
  destruct (decide (f1 = fp)) as [E1|N1]; destruct (decide (f2 = fp)) as [E2|N2].
  - congruence.
  - subst f1. rewrite lookup_insert_eq in H1. rewrite lookup_insert_ne in H2 by congruence.
    exfalso. apply (Hfresh f2). congruence.
  - subst f2. rewrite lookup_insert_eq in H2. rewrite lookup_insert_ne in H1 by congruence.
    exfalso. apply (Hfresh f1). congruence.
  - rewrite lookup_insert_ne in H1 by congruence.
    rewrite lookup_insert_ne in H2 by congruence.
    exact (Huniq f1 f2 d H1 H2).
Qed.

Lemma inUse_insert_mono reg fp c d :
  reg !! fp = None -> Registry.inUse (<[fp := c]> reg) d = false ->
  Registry.inUse reg d = false.
Proof.
  intros Hfp Hd0. pose proof (proj1 (inUse_false _ _) Hd0) as Hd.
  apply inUse_false. intros f Hf.
  apply (Hd f). rewrite lookup_insert_ne; [exact Hf|]. congruence.
Qed.

Lemma step_codesUnique reg r :
  Registry.codesUnique reg -> Registry.codesUnique (Registry.step reg r).
Proof.
  intros Huniq. unfold Registry.step.
  destruct (Registry.register r.1 r.2 reg) as [e|[c reg']] eqn:Hreg; [exact Huniq|].
  apply register_inr in Hreg as (_ & Hfresh & ->). now apply codesUnique_insert.
Qed.

Lemma run_codesUnique rs : forall reg,
  Registry.codesUnique reg -> Registry.codesUnique (Registry.run reg rs).
Proof.
  induction rs as [|r rs IH]; intros reg Huniq; [exact Huniq|].
  simpl. apply IH. now apply step_codesUnique.
Qed.

(** The codes handed out are new to the registry they start from and
    pairwise different. *)
Lemma minted_fresh_NoDup rs : forall reg,
  (forall c, c ∈ Registry.minted reg rs -> Registry.inUse reg c = false)
  /\ NoDup (Registry.minted reg rs).
Proof.
  induction rs as [|r rs IH]; intros reg; simpl.
  - split; [intros c Hc; inversion Hc | constructor].
  - destruct (Registry.register r.1 r.2 reg) as [e|[c reg']] eqn:Hreg; [apply IH|].
    apply register_inr in Hreg as (Hfp & Hfresh & ->).
    destruct (IH (<[r.1 := c]> reg)) as [IHfresh IHnd]. split.
    + intros d [->|Hd]%elem_of_cons; [exact Hfresh|].
      eapply inUse_insert_mono; eauto.
    + constructor; [|exact IHnd].
      intros Hin%IHfresh. pose proof (proj1 (inUse_false _ _) Hin) as Hno.
      apply (Hno r.1). apply lookup_insert_eq.
Qed.

(** C9. From the empty registry and after any sequence of registration
    requests, accepted or refused, no two fingerprints hold the same short
    code, and the codes handed out along the way are pairwise different. *)
Theorem registry_codes_unique (rs : list Registry.Request) :
  Registry.codesUnique (Registry.run Registry.empty rs)
  /\ NoDup (Registry.minted Registry.empty rs).
Proof.
  split.
  - apply run_codesUnique. intros f1 f2 c H. unfold Registry.empty in H.
    rewrite lookup_empty in H. discriminate.
  - apply minted_fresh_NoDup.
Qed.

(** Three registrations whose generator repeats itself: the repeated draw
    is passed over, and a second request for a fingerprint is refused. *)
Example registry_run_sample :
  Registry.minted Registry.empty
    [ (1%N, ["VS2BOF"]); (2%N, ["VS2BOF"; "XYZ789"]); (1%N, ["ABC123"]);
      (3%N, ["XYZ789"; "VS2BOF"]) ]
  = ["VS2BOF"; "XYZ789"].
Proof. vm_compute. reflexivity. Qed.

(** * Further properties of the sources *)

(** ** The ledger contract *)

(** X1. An upload under one key leaves the record under every other key as it
    was, across any number of calls. *)
Theorem upload_frame
    (st : FakeProdDetector.State) (calls : list FakeProdDetector.Call)
    (id : Web3.bytes32) :
  Forall (fun c => FakeProdDetector.arg_id c <> id) calls ->
  FakeProdDetector.products (FakeProdDetector.run st calls) !! id
  = FakeProdDetector.products st !! id.
Proof.
  revert st. induction calls as [|c calls IH]; intros st Hall; [reflexivity|].
  inversion Hall as [|? ? Hc Hrest]; subst. cbn [FakeProdDetector.run fold_left].
  change (fold_left FakeProdDetector.apply calls (FakeProdDetector.apply st c))
    with (FakeProdDetector.run (FakeProdDetector.apply st c) calls).
  rewrite IH by assumption.
  unfold FakeProdDetector.apply, FakeProdDetector.uploadProduct; simpl.
  now rewrite lookup_insert_ne.
Qed.

Lemma upload_frame_witness :
  FakeProdDetector.products
    (FakeProdDetector.run FakeProdDetector.deployed
       [uploadOf 8%N Sample.bagA; uploadOf 9%N Sample.bagA]) !! 7%N
  = FakeProdDetector.products FakeProdDetector.deployed !! 7%N.
Proof.
  apply (upload_frame FakeProdDetector.deployed
           [uploadOf 8%N Sample.bagA; uploadOf 9%N Sample.bagA] 7%N).
  repeat constructor; simpl; lia.
Defined.

Lemma events_run st calls :
  FakeProdDetector.events (FakeProdDetector.run st calls)
  = FakeProdDetector.events st ++ map Ledger.eventOf calls.
Proof.
  revert st. induction calls as [|c calls IH]; intros st; simpl.
  - now rewrite app_nil_r.
  - change (fold_left FakeProdDetector.apply calls (FakeProdDetector.apply st c))
      with (FakeProdDetector.run (FakeProdDetector.apply st c) calls).
    rewrite IH. unfold FakeProdDetector.apply, FakeProdDetector.uploadProduct; simpl.
    rewrite <- app_assoc. simpl. destruct c as [i [n c m p y]]; reflexivity.
Qed.

Lemma lastEvent_map id calls :
  Ledger.lastEvent id (map Ledger.eventOf calls) = FakeProdDetector.lastUpload id calls.
Proof.
  induction calls as [|c calls IH]; simpl; [reflexivity|]. now rewrite IH.
Qed.

(** X2. The event log is the exact history of the contract: from deployment,
    the log lists one event per call, in call order and with the call's
    arguments, and the record [getProduct] returns for a key is the one of
    the latest event with that key, the zero record when the log has
    none. *)
Theorem storage_replays_log (calls : list FakeProdDetector.Call) (id : Web3.bytes32) :
  let st := FakeProdDetector.run FakeProdDetector.deployed calls in
  FakeProdDetector.events st = map Ledger.eventOf calls
  /\ FakeProdDetector.getProduct id st
     = match Ledger.lastEvent id (FakeProdDetector.events st) with
       | Some p => FakeProdDetector.tupleOf p
       | None => ("", "", "", 0%Z, 0%Z)
       end.
Proof.
  intros st. assert (Hev : FakeProdDetector.events st = map Ledger.eventOf calls).
  { unfold st. now rewrite events_run. }
  split; [exact Hev|]. rewrite Hev, lastEvent_map.
  unfold st. now rewrite getProduct_run_lastUpload.
Qed.

(** ** Artifact resolution *)

(** Distinct network ids are looked up under distinct keys. *)
Lemma key_injective (id1 id2 : Z) : Artifact.key id1 = Artifact.key id2 -> id1 = id2.
Proof.
  unfold Artifact.key. intros H.
  pose proof (parseNumber_toString id1) as H1. rewrite H in H1.
  rewrite parseNumber_toString in H1. congruence.
Qed.

Lemma present_Some o s : Artifact.present o = Some s -> o = Some s /\ JS.truthy s = true.
Proof.
  unfold Artifact.present. destruct o as [t|]; [|discriminate].
  destruct (JS.truthy t) eqn:Ht; [|discriminate]. intros [= ->]. auto.
Qed.

Lemma newContract_Ret abi s c :
  Artifact.newContract abi s = Ret c -> Artifact.c_address c = s /\ abi = Some (Artifact.c_abi c).
Proof.
  unfold Artifact.newContract. destruct abi; [|discriminate].
  destruct (negb (JS.truthy s) || Web3.isAddress s); [|discriminate].
  intros H%Ret_inj. subst c. auto.
Qed.

(** X3. Whatever contract [loadContract] of frontend/src/useContract.ts
    returns is bound to the non-empty address the artifact lists for the
    wallet's own chain id, with the artifact's interface. *)
Theorem loadContract_exact_only
    (a : Artifact.t) (id : Z) (c : Artifact.Contract) :
  UseContract.loadContract (Ret (Some a)) (Ret id) = Ret c ->
  Artifact.addressAt a (Artifact.key id) = Some (Artifact.c_address c)
  /\ JS.truthy (Artifact.c_address c) = true
  /\ Artifact.abi a = Some (Artifact.c_abi c).
Proof.
  unfold UseContract.loadContract, bind.
  destruct (Artifact.present (Artifact.addressAt a (Artifact.key id))) as [s|] eqn:Hp;
    [|discriminate].
  intros [<- Habi]%newContract_Ret. apply present_Some in Hp as [Hs Ht]. auto.
Qed.

Lemma loadContract_exact_only_witness :
  Artifact.addressAt Sample.hardhatOnly (Artifact.key 31337) = Some Sample.hardhatAddress.
Proof.
  exact (proj1 (loadContract_exact_only Sample.hardhatOnly 31337 Sample.contract
                  ltac:(vm_compute; reflexivity))).
Defined.

(** X4. Whatever contract [loadContract] of src/useContract.ts returns is
    bound to a non-empty address: the one listed for the wallet's network
    id when the artifact has an entry for it, and the one listed for
    network 31337 only when it has none. *)
Theorem loadContract_local_address
    (a : Artifact.t) (id : Z) (c : Artifact.Contract) :
  UseContractLocal.loadContract (Ret (Some a)) (Ret id) = Ret c ->
  JS.truthy (Artifact.c_address c) = true
  /\ Artifact.abi a = Some (Artifact.c_abi c)
  /\ (Artifact.addressAt a (Artifact.key id) = Some (Artifact.c_address c)
      \/ (UseContractLocal.hasEntry a (Artifact.key id) = false
          /\ Artifact.addressAt a "31337" = Some (Artifact.c_address c))).
Proof.
  unfold UseContractLocal.loadContract, bind.
  destruct (Artifact.abi a) as [i|] eqn:Habi; [|discriminate].
  destruct (UseContractLocal.hasEntry a (Artifact.key id)) eqn:Hid.
  - destruct (Artifact.present _) as [s|] eqn:Hp; [|discriminate].
    intros [<- Hi]%newContract_Ret. apply present_Some in Hp as [Hs Ht]. auto.
  - destruct (UseContractLocal.hasEntry a "31337") eqn:H31.
    + destruct (Artifact.present _) as [s|] eqn:Hp; [|discriminate].
      intros [<- Hi]%newContract_Ret. apply present_Some in Hp as [Hs Ht]. auto.
    + discriminate.
Qed.

Lemma loadContract_local_address_witness :
  JS.truthy (Artifact.c_address Sample.contract) = true.
Proof.
  exact (proj1 (loadContract_local_address Sample.hardhatOnly 1 Sample.contract
                  ltac:(vm_compute; reflexivity))).
Defined.

(** X5. The artifact written by solidity/scripts/deploy.js for the address
    of a deployment, an address web3 accepts: on chain 31337 both loaders
    bind the contract to the deployed address; on any other chain
    frontend/src/useContract.ts fails, and src/useContract.ts still binds
    to the deployed address. *)
Theorem deployed_artifact_resolution
    (abi : list string) (addr : string) (id : Z) :
  Web3.isAddress addr = true ->
  let a := Artifact.deployed abi addr in
  let c := {| Artifact.c_abi := abi; Artifact.c_address := addr |} in
  UseContractLocal.loadContract (Ret (Some a)) (Ret id) = Ret c
  /\ UseContract.loadContract (Ret (Some a)) (Ret id)
     = if bool_decide (id = 31337%Z) then Ret c else Throw (UseContract.notDeployed id).
Proof.
  intros Hvalid a c. pose proof (isAddress_truthy addr Hvalid) as Ht.
  assert (H31 : Artifact.addressAt a "31337" = Some addr).
  { unfold a, Artifact.addressAt, Artifact.deployed; simpl.
    now rewrite lookup_singleton_eq. }
  assert (Hk : Artifact.key 31337 = "31337") by reflexivity.
  assert (Hother : id <> 31337%Z -> Artifact.addressAt a (Artifact.key id) = None
                                    /\ UseContractLocal.hasEntry a (Artifact.key id) = false).
  { intros Hid.
    assert (Hne : "31337" <> Artifact.key id).
    { intros E. apply Hid. apply key_injective. now rewrite Hk. }
    unfold a, Artifact.addressAt, UseContractLocal.hasEntry, Artifact.deployed; simpl.
    rewrite lookup_singleton_ne by exact Hne. split; [reflexivity|].
    apply bool_decide_eq_false. now intros [e He]. }
  assert (Hp : Artifact.present (Some addr) = Some addr).
  { unfold Artifact.present. now rewrite Ht. }
  unfold UseContractLocal.loadContract, UseContract.loadContract, bind.
  change (Artifact.abi a) with (Some abi).
  case_bool_decide as Hid.
  - subst id. rewrite Hk, (addressAt_hasEntry a "31337" addr H31), H31, !Hp.
    rewrite (newContract_valid abi addr Hvalid). split; reflexivity.
  - destruct (Hother Hid) as [Hnone Hno]. rewrite Hnone, Hno.
    rewrite (addressAt_hasEntry a "31337" addr H31), H31, !Hp.
    rewrite (newContract_valid abi addr Hvalid). split; reflexivity.
Qed.

Lemma deployed_artifact_resolution_witness :
  UseContractLocal.loadContract
    (Ret (Some (Artifact.deployed ["uploadProduct"] Sample.hardhatAddress))) (Ret 5%Z)
  = Ret {| Artifact.c_abi := ["uploadProduct"]; Artifact.c_address := Sample.hardhatAddress |}.
Proof.
  exact (proj1 (deployed_artifact_resolution ["uploadProduct"] Sample.hardhatAddress 5
                  eq_refl)).
Defined.

(** ** Product ids *)

Lemma grid_length f : length (Keccak.grid f) = 25%nat.
Proof. reflexivity. Qed.

Lemma round_length a rc : length (Keccak.round a rc) = 25%nat.
Proof.
  unfold Keccak.round, Keccak.chi.
  destruct (Keccak.grid _) as [|x l] eqn:E.
  - apply (f_equal (@length N)) in E. rewrite grid_length in E. discriminate.
  - apply (f_equal (@length N)) in E. rewrite grid_length in E.
    cbn [Keccak.iota length] in *. lia.
Qed.

Lemma keccak_f_length a : length (Keccak.keccak_f a) = 25%nat.
Proof.
  unfold Keccak.keccak_f, Keccak.RC. cbn [fold_left]. apply round_length.
Qed.

Lemma absorb_length fuel : forall st bs,
  length st = 25%nat -> length (Keccak.absorb fuel st bs) = 25%nat.
Proof.
  induction fuel as [|f IH]; intros st bs Hst; [exact Hst|].
  cbn [Keccak.absorb]. destruct bs; [exact Hst|].
  apply IH. unfold Keccak.absorb_block. apply keccak_f_length.
Qed.

Lemma N_to_le_length k v : length (Keccak.N_to_le k v) = k.
Proof. revert v. induction k as [|k IH]; intros v; simpl; [reflexivity|]. now rewrite IH. Qed.

Lemma flat_map_le_length st :
  length (flat_map (Keccak.N_to_le 8) st) = (8 * length st)%nat.
Proof.
  induction st as [|x st IH]; [reflexivity|].
  cbn [flat_map]. rewrite length_app, N_to_le_length, IH. simpl. lia.
Qed.

(** The digest has 32 bytes whatever the input. *)
Lemma keccak256_length m : length (Keccak.keccak256 m) = 32%nat.
Proof.
  unfold Keccak.keccak256, Keccak.keccak256_N. rewrite length_map, length_firstn.
  rewrite flat_map_le_length, absorb_length; [reflexivity|]. reflexivity.
Qed.

Lemma be_to_N_bound bs : (Web3.be_to_N bs < 256 ^ N.of_nat (length bs))%N.
Proof.
  unfold Web3.be_to_N.
  assert (H : forall l acc,
             (fold_left (fun a b => a * 256 + Byte.to_N b) l acc
              < (acc + 1) * 256 ^ N.of_nat (length l))%N).
  { induction l as [|b l IH]; intros acc.
    - simpl. lia.
    - cbn [fold_left length]. eapply N.lt_le_trans; [apply IH|].
      rewrite Nat2N.inj_succ, N.pow_succ_r'.
      pose proof (Byte.to_N_bounded b).
      assert (0 < 256 ^ N.of_nat (length l))%N by (apply N.neq_0_lt_0, N.pow_nonzero; lia).
      nia. }
  specialize (H bs 0%N). lia.
Qed.

Lemma digest_bound m : (Web3.be_to_N (Keccak.keccak256 m) < 2 ^ 256)%N.
Proof.
  pose proof (be_to_N_bound (Keccak.keccak256 m)) as H.
  rewrite keccak256_length in H. exact H.
Qed.

(** X6. Every product id a completed registration reports, at either panel, is
    a 256-bit value: it fits the contract's [bytes32] key. *)
Theorem product_id_fits_bytes32 (id : Web3.bytes32) :
  (forall busy account form env,
     Run.registeredId (AdminRegisterPanel.register busy account form env) = Some id ->
     (id < 2 ^ 256)%N)
  /\ (forall account form env,
        Run.registeredId (RegisterPanel.register account form env) = Some id ->
        (id < 2 ^ 256)%N).
Proof.
  split.
  - intros * (a & _ & _ & -> & _)%admin_registered. apply digest_bound.
  - intros * (a & _ & _ & -> & _)%panel_registered. apply digest_bound.
Qed.

Lemma product_id_fits_bytes32_witness : (fingerprintOf Sample.bagA < 2 ^ 256)%N.
Proof.
  refine (proj1 (product_id_fits_bytes32 (fingerprintOf Sample.bagA))
            false "" Sample.formA (Sample.adminEnv 2024 [Sample.wallet]) _).
  vm_compute. reflexivity.
Defined.

Lemma list_byte_of_string_app s t :
  list_byte_of_string (s +:+ t) = list_byte_of_string s ++ list_byte_of_string t.
Proof.
  induction s as [|c s IH]; [reflexivity|].
  change (String c s +:+ t) with (String c (s +:+ t)).
  change (list_byte_of_string (String c (s +:+ t)))
    with (byte_of_ascii c :: list_byte_of_string (s +:+ t)).
  rewrite IH. reflexivity.
Qed.

Lemma encodePacked_concat a :
  encodePacked a
  = list_byte_of_string (name a +:+ color a +:+ material a)
      ++ Web3.be_bytes 32 (Z.to_N (price a)) ++ Web3.be_bytes 32 (Z.to_N (year a)).
Proof.
  unfold encodePacked. rewrite !list_byte_of_string_app, <- !app_assoc. reflexivity.
Qed.

(** X7. The three texts are packed without lengths or separators, so the admin
    panel's product id sees only their concatenation: two completed
    registrations whose name, color and material concatenate to the same
    text, with the same price and year, report the same product id. *)
Theorem product_id_ignores_text_boundaries
    (busy1 busy2 : bool) (account1 account2 : string) (form1 form2 : Form.t)
    (env1 env2 : AdminRegisterPanel.Env) (a1 a2 : ProductAttributes)
    (id1 id2 : Web3.bytes32) :
  AdminRegisterPanel.attributes (AdminRegisterPanel.prepare form1 env1) = Some a1 ->
  AdminRegisterPanel.attributes (AdminRegisterPanel.prepare form2 env2) = Some a2 ->
  name a1 +:+ color a1 +:+ material a1 = name a2 +:+ color a2 +:+ material a2 ->
  price a1 = price a2 -> year a1 = year a2 ->
  Run.registeredId (AdminRegisterPanel.register busy1 account1 form1 env1) = Some id1 ->
  Run.registeredId (AdminRegisterPanel.register busy2 account2 form2 env2) = Some id2 ->
  id1 = id2.
Proof.
  intros H1 H2 Htext Hp Hy (b1 & Hb1 & _ & -> & _)%admin_registered
                            (b2 & Hb2 & _ & -> & _)%admin_registered.
  assert (b1 = a1) by congruence. assert (b2 = a2) by congruence. subst b1 b2.
  unfold fingerprintOf. rewrite !encodePacked_concat, Htext, Hp, Hy. reflexivity.
Qed.

Lemma product_id_ignores_text_boundaries_witness :
  fingerprintOf Sample.bagA
  = fingerprintOf {| name := "Bag ABl"; color := "ack"; material := "Togo Leather";
                     price := 1000; year := 2024 |}.
Proof.
  refine (product_id_ignores_text_boundaries
            false false "" "" Sample.formA
            {| Form.name := "Bag ABl"; Form.price := "1000"; Form.color := "ack";
               Form.material := "Togo Leather"; Form.year := "2024" |}
            (Sample.adminEnv 2024 [Sample.wallet]) (Sample.adminEnv 2024 [Sample.wallet])
            Sample.bagA
            {| name := "Bag ABl"; color := "ack"; material := "Togo Leather";
               price := 1000; year := 2024 |}
            _ _ _ _ _ _ _ _ _); vm_compute; reflexivity.
Defined.

(** ** Registration at the admin panel *)

Lemma isDigit_facts c :
  JS.isDigit c = true ->
  JS.isWhiteSpace c = false /\ c <> "-"%char /\ c <> "+"%char
  /\ forall d, exists d', uint_of_char c (Some d) = Some d'.
Proof.
  destruct c as [[] [] [] [] [] [] [] []]; try discriminate; intros _;
    (split; [reflexivity|]); (split; [discriminate|]); (split; [discriminate|]);
    intros d; eexists; reflexivity.
Qed.

Lemma keepDigits_shape s :
  JS.digitPrefix (JS.keepDigits s) = JS.keepDigits s
  /\ (exists d, NilEmpty.uint_of_string (JS.keepDigits s) = Some d)
  /\ match JS.keepDigits s with
     | EmptyString => True
     | String c _ => JS.isDigit c = true
     end.
Proof.
  induction s as [|c s (IH1 & (d & IH2) & IH3)]; [simpl; eauto|].
  cbn [JS.keepDigits]. destruct (JS.isDigit c) eqn:Hc; [|eauto].
  cbn [JS.digitPrefix NilEmpty.uint_of_string]. rewrite Hc, IH1, IH2.
  destruct (isDigit_facts c Hc) as (_ & _ & _ & Hd). destruct (Hd d) as [d' Hd'].
  eauto.
Qed.

Lemma parseInt_keepDigits s :
  JS.keepDigits s <> "" ->
  exists n, JS.decimalValue (JS.keepDigits s) = Some n
            /\ JS.parseInt (JS.keepDigits s) = JS.Int (Z.of_N n).
Proof.
  intros Hne. destruct (keepDigits_shape s) as (Hpre & (d & Hd) & Hfirst).
  destruct (JS.keepDigits s) as [|c r] eqn:E; [contradiction|].
  destruct (isDigit_facts c Hfirst) as (Hws & Hm & Hp & _).
  exists (N.of_uint d). split.
  - unfold JS.decimalValue. now rewrite Hd.
  - unfold JS.parseInt. cbn [JS.trimStart]. rewrite Hws.
    assert (Hsign : match String c r with
                    | String "-"%char r0 => (true, r0)
                    | String "+"%char r0 => (false, r0)
                    | _ => (false, String c r)
                    end = (false, String c r)).
    { destruct c as [[] [] [] [] [] [] [] []]; try reflexivity;
        [contradiction Hp | contradiction Hm]; reflexivity. }
    rewrite Hsign, Hpre. unfold JS.decimalValue. now rewrite Hd.
Qed.

(** X8. As long as the digits of the price text spell a safe integer, the
    price the admin panel hashes and uploads is never [NaN] and never
    negative: it is the number spelled by those digits, every other
    character (currency sign, separators, decimal point) being dropped,
    and 0 when the text has no digit. *)
Theorem admin_price_from_digits (form : Form.t) (env : AdminRegisterPanel.Env) :
  (forall n, JS.decimalValue (JS.keepDigits (Form.price form)) = Some n ->
             (Z.of_N n <= JS.MAX_SAFE_INTEGER)%Z) ->
  exists p : Z,
    AdminRegisterPanel.f_price (AdminRegisterPanel.prepare form env) = JS.Int p
    /\ (0 <= p <= JS.MAX_SAFE_INTEGER)%Z
    /\ p = match JS.decimalValue (JS.keepDigits (Form.price form)) with
           | Some n => Z.of_N n
           | None => 0%Z
           end.
Proof.
  intros Hsafe. unfold AdminRegisterPanel.prepare; cbn [AdminRegisterPanel.f_price].
  destruct (JS.keepDigits (Form.price form)) as [|c r] eqn:E.
  - exists 0%Z. cbn. repeat split; unfold JS.MAX_SAFE_INTEGER; lia.
  - cbn [JS.truthy]. rewrite <- E.
    destruct (parseInt_keepDigits (Form.price form)) as (n & Hn & Hp).
    { rewrite E. discriminate. }
    rewrite <- E in Hsafe. specialize (Hsafe n Hn).
    exists (Z.of_N n). rewrite Hp, Hn. repeat split; lia.
Qed.

Lemma admin_price_from_digits_witness :
  exists p : Z,
    AdminRegisterPanel.f_price
      (AdminRegisterPanel.prepare
         {| Form.name := "Bag A"; Form.price := "$18,090.00"; Form.color := "";
            Form.material := ""; Form.year := "" |}
         (Sample.adminEnv 2025 []))
    = JS.Int p
    /\ p = 1809000%Z.
Proof.
  destruct (admin_price_from_digits
              {| Form.name := "Bag A"; Form.price := "$18,090.00"; Form.color := "";
                 Form.material := ""; Form.year := "" |}
              (Sample.adminEnv 2025 []))
    as (p & Hp & _ & Hv).
  - intros n Hn. vm_compute in Hn. injection Hn as <-. vm_compute. discriminate.
  - exists p. split; [exact Hp | exact Hv].
Defined.

(** The placeholder of the price input, read by the panel: cents and all. *)
Example admin_price_placeholder :
  AdminRegisterPanel.f_price
    (AdminRegisterPanel.prepare
       {| Form.name := "Bag A"; Form.price := "$18,090.00"; Form.color := "";
          Form.material := ""; Form.year := "" |}
       (Sample.adminEnv 2025 []))
  = JS.Int 1809000.
Proof. reflexivity. Qed.

(** X9. What one call of the admin panel's [register] can do to the outside
    world. Either it sends no transaction and posts nothing to the backend,
    or it sends exactly one [uploadProduct] transaction: from a non-empty
    sender, for a non-empty trimmed name, with well-formed attributes
    stored under the digest of their packed encoding; and the only id it
    ever posts to [/codes/register] is the id of that confirmed
    transaction. *)
Theorem admin_register_effects
    (busy : bool) (account : string) (form : Form.t) (env : AdminRegisterPanel.Env) :
  let r := AdminRegisterPanel.register busy account form env in
  (Run.sent r = [] /\ Run.posted r = [])
  \/ exists tx a id,
       Run.sent r = [tx]
       /\ Run.call tx = uploadOf id a
       /\ AdminRegisterPanel.attributes (AdminRegisterPanel.prepare form env) = Some a
       /\ wellFormed a
       /\ id = fingerprintOf a
       /\ JS.truthy (Run.from tx) = true
       /\ JS.truthy (name a) = true
       /\ (Run.posted r = [] \/ Run.posted r = [id]).
Proof.
  intros r. unfold r, AdminRegisterPanel.register.
  destruct busy; [left; split; reflexivity|].
  destruct (AdminRegisterPanel.ethereum env); [|left; split; reflexivity]. cbn [negb].
  destruct (AdminRegisterPanel.requestAccounts env); [|left; split; reflexivity].
  destruct (AdminRegisterPanel.getAccounts env) as [accounts|]; [|left; split; reflexivity].
  destruct (JS.truthy (JS.or_else account (hd "" accounts))) eqn:Hfrom;
    [|left; split; reflexivity]. cbn [negb].
  destruct (JS.truthy (AdminRegisterPanel.f_name _)) eqn:Hname;
    [|left; split; reflexivity]. cbn [negb].
  destruct (AdminRegisterPanel.productId _) as [[idHex|]|] eqn:Hid;
    [|left; split; reflexivity..].
  destruct (AdminRegisterPanel.loadContract env) as [contract|]; [|left; split; reflexivity].
  destruct (AdminRegisterPanel.uploadCall idHex _) as [c|] eqn:Hc; [|left; split; reflexivity].
  destruct (AdminRegisterPanel.send env _); [|left; split; reflexivity].
  apply admin_productId_inv in Hid as (pa & Ha & Hwf & Hsha).
  assert (Hcall : c = uploadOf idHex pa).
  { unfold AdminRegisterPanel.uploadCall in Hc. unfold AdminRegisterPanel.attributes in Ha.
    destruct (AdminRegisterPanel.f_price _) as [|p]; [discriminate|].
    destruct (AdminRegisterPanel.f_year _) as [|y]; [discriminate|].
    apply (f_equal (fun o => match o with Some x => x | None => pa end)) in Ha.
    subst pa.
    destruct (abiUint (JS.Int p)) as [p'|] eqn:Ep; [|discriminate].
    destruct (abiUint (JS.Int y)) as [y'|] eqn:Ey; [|discriminate].
    apply abiUint_Ret in Ep as [Ep _]. apply abiUint_Ret in Ey as [Ey _].
    injection Ep as <-. injection Ey as <-.
    cbn [bind] in Hc. apply Ret_inj in Hc. subst c. reflexivity. }
  assert (Hnm : JS.truthy (name pa) = true).
  { unfold AdminRegisterPanel.attributes in Ha.
    destruct (AdminRegisterPanel.f_price _); [discriminate|].
    destruct (AdminRegisterPanel.f_year _); [discriminate|].
    apply (f_equal (fun o => match o with Some x => name x | None => name pa end)) in Ha.
    cbn [name] in Ha. now rewrite <- Ha. }
  assert (Hfp : idHex = fingerprintOf pa) by (apply sha3_Some; now symmetry).
  right.
  destruct (AdminRegisterPanel.codesRegister env idHex);
    [destruct (AdminRegisterPanel.toDataURL env _)|];
    cbn [Run.sent Run.posted]; eexists _, pa, idHex;
    (split; [reflexivity|]); cbn [Run.call Run.from];
    (split; [exact Hcall|]); (split; [exact Ha|]); (split; [exact Hwf|]);
    (split; [exact Hfp|]); (split; [exact Hfrom|]); (split; [exact Hnm|]); auto.
Qed.

(** X10. When the ledger transaction went through and the backend then refuses
    or fails [POST /codes/register], the admin panel's [register] ends in
    its error state with the backend's message, the transaction stays
    sent, and no short code is recorded for the product. *)
Theorem admin_register_code_step_fails
    (busy : bool) (account : string) (form : Form.t) (env : AdminRegisterPanel.Env)
    (tx : Run.Tx) (e : exn) :
  let r := AdminRegisterPanel.register busy account form env in
  Run.sent r = [tx] ->
  AdminRegisterPanel.codesRegister env (FakeProdDetector.arg_id (Run.call tx)) = Throw e ->
  Run.final r = Run.Failed (JS.messageOf e) /\ Run.posted r = [].
Proof.
  intros r. unfold r, AdminRegisterPanel.register.
  destruct busy; [discriminate|].
  destruct (AdminRegisterPanel.ethereum env); [|discriminate]. cbn [negb].
  destruct (AdminRegisterPanel.requestAccounts env); [|discriminate].
  destruct (AdminRegisterPanel.getAccounts env) as [accounts|]; [|discriminate].
  destruct (JS.truthy (JS.or_else account (hd "" accounts))); [|discriminate]. cbn [negb].
  destruct (JS.truthy (AdminRegisterPanel.f_name _)); [|discriminate]. cbn [negb].
  destruct (AdminRegisterPanel.productId _) as [[idHex|]|] eqn:Hid; [|discriminate..].
  destruct (AdminRegisterPanel.loadContract env) as [contract|]; [|discriminate].
  destruct (AdminRegisterPanel.uploadCall idHex _) as [c|] eqn:Hc; [|discriminate].
  destruct (AdminRegisterPanel.send env _); [|discriminate].
  assert (Hargid : FakeProdDetector.arg_id c = idHex).
  { unfold AdminRegisterPanel.uploadCall, bind in Hc.
    destruct (abiUint _); [|discriminate]. destruct (abiUint _); [|discriminate].
    apply Ret_inj in Hc. now subst c. }
  destruct (AdminRegisterPanel.codesRegister env idHex) as [sc|e'] eqn:Hcode.
  - destruct (AdminRegisterPanel.toDataURL env sc); cbn [Run.sent];
      intros Hsent%(f_equal (fun l => match l with [t] => Some t | _ => None end));
      apply (f_equal (fun o => match o with Some t => FakeProdDetector.arg_id (Run.call t)
                                          | None => idHex end)) in Hsent;
      cbn [Run.call] in Hsent; rewrite Hargid in Hsent; rewrite <- Hsent, Hcode;
      discriminate.
  - cbn [Run.sent Run.final Run.posted].
    intros Hsent%(f_equal (fun l => match l with [t] => Some t | _ => None end)).
    apply (f_equal (fun o => match o with Some t => FakeProdDetector.arg_id (Run.call t)
                                        | None => idHex end)) in Hsent.
    cbn [Run.call] in Hsent. rewrite Hargid in Hsent. rewrite <- Hsent, Hcode.
    intros H%(f_equal (fun r => match r with Throw x => x | Ret _ => e end)).
    subst e'. split; reflexivity.
Qed.

Lemma admin_register_code_step_fails_witness :
  Run.final
    (AdminRegisterPanel.register false "" Sample.formA
       {| AdminRegisterPanel.ethereum := true;
          AdminRegisterPanel.requestAccounts := Ret tt;
          AdminRegisterPanel.getAccounts := Ret [Sample.wallet];
          AdminRegisterPanel.currentYear := 2024;
          AdminRegisterPanel.loadContract := Ret Sample.contract;
          AdminRegisterPanel.send := fun _ => Ret tt;
          AdminRegisterPanel.codesRegister := fun _ => Throw (Error "HTTP_409: taken");
          AdminRegisterPanel.toDataURL := fun _ => Ret "" |})
  = Run.Failed "HTTP_409: taken".
Proof.
  refine (proj1 (admin_register_code_step_fails false "" Sample.formA _
                   {| Run.from := Sample.wallet; Run.to := Sample.hardhatAddress;
                      Run.call := uploadOf (fingerprintOf Sample.bagA) Sample.bagA |}
                   (Error "HTTP_409: taken") _ _)).
  - vm_compute. reflexivity.
  - reflexivity.
Defined.

(** ** Registration at the panel of frontend/src/RegisterPanel.tsx *)

(** X11. What one call of that panel's [register] can do to the outside world.
    It never posts to the backend. Either it sends no transaction, or it
    sends exactly one [uploadProduct] transaction: from the connected
    account, with account, name, price, color and material all non-empty,
    the price and year texts being unsigned 256-bit numbers, and the
    attributes stored under the digest of their packed encoding followed
    by the registration time. *)
Theorem panel_register_effects
    (account : string) (form : Form.t) (env : RegisterPanel.Env) :
  let r := RegisterPanel.register account form env in
  Run.posted r = []
  /\ (Run.sent r = []
      \/ exists tx a id,
           Run.sent r = [tx]
           /\ Run.from tx = account
           /\ Run.call tx = uploadOf id a
           /\ RegisterPanel.attributes form = Some a
           /\ wellFormed a
           /\ id = Web3.be_to_N
                     (Keccak.keccak256 (RegisterPanel.preimage a (RegisterPanel.now env)))
           /\ JS.truthy account = true
           /\ JS.truthy (Form.name form) = true
           /\ JS.truthy (Form.price form) = true
           /\ JS.truthy (Form.color form) = true
           /\ JS.truthy (Form.material form) = true).
Proof.
  intros r. unfold r, RegisterPanel.register.
  destruct (JS.truthy account) eqn:Hacc; [|split; [|left]; reflexivity]. cbn [negb].
  destruct (JS.truthy (Form.name form)) eqn:Hn; [|split; [|left]; reflexivity].
  destruct (JS.truthy (Form.price form)) eqn:Hp; [|split; [|left]; reflexivity].
  cbn [negb orb].
  destruct (JS.truthy (Form.color form)) eqn:Hc; [|split; [|left]; reflexivity].
  destruct (JS.truthy (Form.material form)) eqn:Hm; [|split; [|left]; reflexivity].
  cbn [negb orb].
  destruct (RegisterPanel.loadContract env) as [contract|]; [|split; [|left]; reflexivity].
  destruct (RegisterPanel.productId form env) as [[pid|]|] eqn:Hid;
    [|split; [|left]; reflexivity..].
  destruct (RegisterPanel.uploadCall pid form) as [c|] eqn:Hcall;
    [|split; [|left]; reflexivity].
  destruct (RegisterPanel.send env _); [|split; [|left]; reflexivity].
  apply panel_productId_inv in Hid as (pa & Ha & Hwf & Hnow & Hsha).
  assert (Hc' : c = uploadOf pid pa).
  { unfold RegisterPanel.uploadCall, RegisterPanel.toBN in Hcall.
    unfold RegisterPanel.attributes in Ha.
    destruct (Web3.parseNumber (Form.price form)) as [p|]; [|discriminate].
    destruct (Web3.parseNumber (JS.or_else (Form.year form) "0")) as [y|] eqn:Hy;
      [|discriminate].
    apply (f_equal (fun o => match o with Some x => x | None => pa end)) in Ha.
    subst pa. destruct Hwf as [Hpr Hyr]; cbn [price year] in Hpr, Hyr.
    rewrite (Number_parse _ _ Hy) in Hcall. cbn [bind] in Hcall.
    rewrite (abiUintBN_ok p Hpr) in Hcall. cbn [bind] in Hcall.
    destruct (abiUint (JS.Int y)) as [y'|] eqn:Ey; [|discriminate].
    apply abiUint_Ret in Ey as [Ey _]. injection Ey as <-.
    cbn [bind] in Hcall. apply Ret_inj in Hcall. subst c. reflexivity. }
  assert (Hfp : pid = Web3.be_to_N
                        (Keccak.keccak256 (RegisterPanel.preimage pa (RegisterPanel.now env))))
    by (apply sha3_Some; now symmetry).
  destruct (RegisterPanel.toDataURL env pid); cbn [Run.sent Run.posted];
    (split; [reflexivity|]); right; eexists _, pa, pid;
    (split; [reflexivity|]); cbn [Run.call Run.from]; auto 12.
Qed.

(** ** The verify panel *)

(** X12. Submitting a product id that is blank or only white space leaves the
    verify panel exactly as it was, whatever the backend would answer. *)
Theorem go_blank_is_noop
    (fetchVerify : string -> res Api.VerifyResponse) (st : VerifyPanel.State) :
  JS.allWhite (VerifyPanel.pid st) = true ->
  VerifyPanel.go fetchVerify st = st.
Proof.
  intros Hw. unfold VerifyPanel.go, JS.trim.
  now rewrite (trimStart_allWhite _ Hw).
Qed.

Lemma go_blank_is_noop_witness :
  VerifyPanel.go (fun _ => Throw (LibError "offline"))
    {| VerifyPanel.pid := "   "; VerifyPanel.out := None; VerifyPanel.history := [];
       VerifyPanel.busy := false; VerifyPanel.errorMsg := None |}
  = {| VerifyPanel.pid := "   "; VerifyPanel.out := None; VerifyPanel.history := [];
       VerifyPanel.busy := false; VerifyPanel.errorMsg := None |}.
Proof.
  apply (go_blank_is_noop _ {| VerifyPanel.pid := "   "; VerifyPanel.out := None;
                               VerifyPanel.history := []; VerifyPanel.busy := false;
                               VerifyPanel.errorMsg := None |}).
  reflexivity.
Defined.

Lemma submit_history st u :
  exists new,
    VerifyPanel.history (VerifyPanelSession.submit st u) = new ++ VerifyPanel.history st
    /\ length new = (if JS.truthy (JS.trim (fst u)) then 1 else 0)%nat
    /\ (new <> [] -> VerifyPanel.out (VerifyPanelSession.submit st u) = head new).
Proof.
  unfold VerifyPanelSession.submit, VerifyPanel.go, VerifyPanelSession.setPid.
  cbn [VerifyPanel.pid VerifyPanel.history VerifyPanel.out].
  destruct (JS.truthy (JS.trim (fst u))); cbn [negb].
  - destruct (snd u _) as [data|e]; eexists [_]; cbn; auto.
  - exists []. cbn. split; [reflexivity|]. split; [reflexivity|]. congruence.
Qed.

(** X13. Over a whole session at the verify panel the history only grows: after
    any sequence of typed ids and presses of Verify, whatever the backend
    did, the history is the earlier history with one new entry in front of
    it per non-blank submission, successes and failures alike. *)
Theorem history_only_grows (st : VerifyPanel.State) (us : list VerifyPanelSession.Use) :
  exists new,
    VerifyPanel.history (VerifyPanelSession.run st us) = new ++ VerifyPanel.history st
    /\ length new = VerifyPanelSession.submitted us.
Proof.
  revert st. induction us as [|u us IH]; intros st.
  - exists []. split; reflexivity.
  - cbn [VerifyPanelSession.run fold_left VerifyPanelSession.submitted].
    destruct (IH (VerifyPanelSession.submit st u)) as (new' & Hh & Hl).
    destruct (submit_history st u) as (n1 & H1 & L1 & _).
    exists (new' ++ n1). unfold VerifyPanelSession.run in Hh. rewrite Hh, H1.
    rewrite app_assoc, length_app, Hl, L1. split; [reflexivity | lia].
Qed.

(** X14. In every state a session can reach from a panel whose display agrees
    with its history, the answer on display is the newest history entry:
    the panel never shows an answer it has not recorded. *)
Theorem display_is_newest_entry (st : VerifyPanel.State) (us : list VerifyPanelSession.Use) :
  VerifyPanel.out st = head (VerifyPanel.history st) ->
  VerifyPanel.out (VerifyPanelSession.run st us)
  = head (VerifyPanel.history (VerifyPanelSession.run st us)).
Proof.
  revert st. induction us as [|u us IH]; intros st Hst; [exact Hst|].
  cbn [VerifyPanelSession.run fold_left]. apply IH.
  destruct (submit_history st u) as (new & Hh & Hl & Hout). rewrite Hh.
  destruct new as [|x new].
  - cbn [app]. rewrite <- Hst.
    unfold VerifyPanelSession.submit, VerifyPanel.go, VerifyPanelSession.setPid.
    cbn [VerifyPanel.pid]. destruct (JS.truthy (JS.trim (fst u))); [discriminate Hl|].
    reflexivity.
  - rewrite Hout by discriminate. reflexivity.
Qed.

Lemma display_is_newest_entry_witness :
  VerifyPanel.out
    (VerifyPanelSession.run
       {| VerifyPanel.pid := ""; VerifyPanel.out := None; VerifyPanel.history := [];
          VerifyPanel.busy := false; VerifyPanel.errorMsg := None |}
       [ ("0x01", fun _ => Throw (LibError "offline")); ("  ", fun _ => Throw (LibError "x")) ])
  = head (VerifyPanel.history
            (VerifyPanelSession.run
               {| VerifyPanel.pid := ""; VerifyPanel.out := None; VerifyPanel.history := [];
                  VerifyPanel.busy := false; VerifyPanel.errorMsg := None |}
               [ ("0x01", fun _ => Throw (LibError "offline"));
                 ("  ", fun _ => Throw (LibError "x")) ])).
Proof.
  apply (display_is_newest_entry
           {| VerifyPanel.pid := ""; VerifyPanel.out := None; VerifyPanel.history := [];
              VerifyPanel.busy := false; VerifyPanel.errorMsg := None |}).
  reflexivity.
Defined.

(** X15. After a submission of a non-blank product id, the panel shows the
    "Authentic" banner exactly when the backend answered with a verdict
    whose status is the string [authentic]; a failed request always shows
    the "FAKE" banner with the panel's own reason. *)
Theorem go_authentic_only_from_backend
    (fetchVerify : string -> res Api.VerifyResponse) (st : VerifyPanel.State) :
  JS.truthy (JS.trim (VerifyPanel.pid st)) = true ->
  let view := VerifyPanelView.renderVerdict (VerifyPanel.go fetchVerify st) in
  ((exists r, view = VerifyPanelView.Authentic r)
   <-> exists data, fetchVerify (JS.trim (VerifyPanel.pid st)) = Ret data
                    /\ Api.status (Api.verdict data) = "authentic")
  /\ (forall e, fetchVerify (JS.trim (VerifyPanel.pid st)) = Throw e ->
        view = VerifyPanelView.Fake "network_or_server_error — unable to verify").
Proof.
  intros Hpid view. unfold view, VerifyPanel.go, VerifyPanelView.renderVerdict.
  rewrite Hpid. cbn [negb].
  destruct (fetchVerify _) as [data|e]; cbn [VerifyPanel.out].
  - split.
    + destruct (String.eqb_spec (Api.status (Api.verdict data)) "authentic") as [E|N].
      * split; eauto.
      * split; [intros [r Hr]; discriminate|].
        intros (d & Hd & Hs). apply Ret_inj in Hd. subst d. contradiction.
    + intros e. discriminate.
  - split.
    + split; [intros [r Hr]; discriminate | intros (d & Hd & _); discriminate].
    + intros _ _. reflexivity.
Qed.

Lemma go_authentic_only_from_backend_witness :
  VerifyPanelView.renderVerdict
    (VerifyPanel.go (fun _ => Throw (LibError "offline"))
       {| VerifyPanel.pid := "0x01"; VerifyPanel.out := None; VerifyPanel.history := [];
          VerifyPanel.busy := false; VerifyPanel.errorMsg := None |})
  = VerifyPanelView.Fake "network_or_server_error — unable to verify".
Proof.
  exact (proj2 (go_authentic_only_from_backend (fun _ => Throw (LibError "offline"))
                  {| VerifyPanel.pid := "0x01"; VerifyPanel.out := None;
                     VerifyPanel.history := []; VerifyPanel.busy := false;
                     VerifyPanel.errorMsg := None |} eq_refl)
               (LibError "offline") eq_refl).
Defined.

(** ** The customer pages *)

Lemma trimEnd_cons c r :
  JS.trimEnd (String c r)
  = match JS.trimEnd r with
    | EmptyString => if JS.isWhiteSpace c then EmptyString else String c EmptyString
    | t => String c t
    end.
Proof. reflexivity. Qed.

Lemma trimEnd_idem s : JS.trimEnd (JS.trimEnd s) = JS.trimEnd s.
Proof.
  induction s as [|c r IH]; [reflexivity|].
  rewrite trimEnd_cons. destruct (JS.trimEnd r) as [|d t] eqn:E.
  - destruct (JS.isWhiteSpace c) eqn:Hc; [reflexivity|].
    rewrite trimEnd_cons. cbn [JS.trimEnd]. now rewrite Hc.
  - rewrite trimEnd_cons, IH. reflexivity.
Qed.

Lemma trimStart_shape s :
  JS.trimStart s = ""
  \/ exists c r, JS.trimStart s = String c r /\ JS.isWhiteSpace c = false.
Proof.
  induction s as [|c r IH]; [now left|].
  cbn [JS.trimStart]. destruct (JS.isWhiteSpace c) eqn:Hc; [exact IH|].
  right. eauto.
Qed.

Lemma trimEnd_keeps_head c r :
  JS.isWhiteSpace c = false -> exists r', JS.trimEnd (String c r) = String c r'.
Proof.
  intros Hc. rewrite trimEnd_cons. destruct (JS.trimEnd r); [rewrite Hc|]; eauto.
Qed.

Lemma trim_idem s : JS.trim (JS.trim s) = JS.trim s.
Proof.
  unfold JS.trim. destruct (trimStart_shape s) as [E|(c & r & E & Hc)]; rewrite E.
  - reflexivity.
  - destruct (trimEnd_keeps_head c r Hc) as [r' Hr']. rewrite Hr'.
    cbn [JS.trimStart]. rewrite Hc, <- Hr'. apply trimEnd_idem.
Qed.

(** X16. Every request that leaves the customer page CustomerVerify carries the
    page's product id and a short code of exactly 6 characters without
    surrounding white space, and one call sends at most this one request;
    when the code was typed into the input, the short code sent is the
    typed text trimmed and upper-cased. *)
Theorem onVerify_request_shape
    (productId : string)
    (customerVerify : Api.CustomerVerifyRequest -> res Api.VerifyResponse)
    (st : CustomerVerify.State) (req : Api.CustomerVerifyRequest) :
  In req (snd (CustomerVerify.onVerify productId customerVerify st)) ->
  snd (CustomerVerify.onVerify productId customerVerify st) = [req]
  /\ Api.product_id req = productId
  /\ String.length (Api.short_code req) = 6
  /\ JS.trim (Api.short_code req) = Api.short_code req
  /\ (forall typed st0, st = CustomerVerify.onChange typed st0 ->
        Api.short_code req = JS.toUpperCase (JS.trim typed)).
Proof.
  unfold CustomerVerify.onVerify.
  destruct (Nat.eqb_spec (String.length (JS.trim (CustomerVerify.code st))) 6) as [Hlen|Hlen];
    cbn [negb].
  - assert (Hreq : forall l : list Api.CustomerVerifyRequest,
               l = [ {| Api.product_id := productId;
                        Api.short_code := JS.trim (CustomerVerify.code st) |} ] ->
               In req l ->
               l = [req] /\ Api.product_id req = productId
               /\ String.length (Api.short_code req) = 6
               /\ JS.trim (Api.short_code req) = Api.short_code req
               /\ (forall typed st0, st = CustomerVerify.onChange typed st0 ->
                     Api.short_code req = JS.toUpperCase (JS.trim typed))).
    { intros l -> [<-|[]]. cbn [Api.product_id Api.short_code].
      repeat split; auto using trim_idem.
      intros typed st0 ->. cbn [CustomerVerify.onChange CustomerVerify.code].
      now rewrite toUpperCase_trim. }
    destruct (customerVerify _); cbn [snd]; now apply Hreq.
  - intros [].
Qed.

Lemma onVerify_request_shape_witness :
  String.length (Api.short_code {| Api.product_id := "0x01"; Api.short_code := "VS2BOF" |}) = 6.
Proof.
  refine (proj1 (proj2 (proj2 (onVerify_request_shape "0x01"
            (fun _ => Throw (LibError "offline"))
            (CustomerVerify.onChange " vs2bof " Sample.blankPage)
            {| Api.product_id := "0x01"; Api.short_code := "VS2BOF" |} _)))).
  left. reflexivity.
Defined.

(** X17. A call of [onVerify] with a 6-character code ends with the page not
    busy and the typed code kept; it shows either the backend's answer with
    no error, or no answer and the fixed "unable to verify" message,
    whatever the failure was: the exception text is never shown, and a
    failed request produces no verdict. *)
Theorem onVerify_outcome
    (productId : string)
    (customerVerify : Api.CustomerVerifyRequest -> res Api.VerifyResponse)
    (st : CustomerVerify.State) :
  String.length (JS.trim (CustomerVerify.code st)) = 6 ->
  let req := {| Api.product_id := productId;
                Api.short_code := JS.trim (CustomerVerify.code st) |} in
  let st' := fst (CustomerVerify.onVerify productId customerVerify st) in
  CustomerVerify.busy st' = false
  /\ CustomerVerify.code st' = CustomerVerify.code st
  /\ match customerVerify req with
     | Ret data => CustomerVerify.result st' = Some data /\ CustomerVerify.error st' = None
     | Throw _ => CustomerVerify.result st' = None
                  /\ CustomerVerify.error st' = Some CustomerVerify.unavailable
     end.
Proof.
  intros Hlen req st'. unfold st', CustomerVerify.onVerify. rewrite Hlen. cbn [Nat.eqb negb].
  fold req. destruct (customerVerify req); cbn; auto.
Qed.

Lemma onVerify_outcome_witness :
  CustomerVerify.busy
    (fst (CustomerVerify.onVerify "0x01" (fun _ => Throw (LibError "offline"))
            (CustomerVerify.onChange " vs2bof " Sample.blankPage)))
  = false.
Proof.
  exact (proj1 (onVerify_outcome "0x01" (fun _ => Throw (LibError "offline"))
                  (CustomerVerify.onChange " vs2bof " Sample.blankPage) eq_refl)).
Defined.

(** X18. The customer page CustomerApp sends a request only when both the
    product id and the short code are non-blank; the request carries both
    trimmed, hence non-empty and free of surrounding white space. Unlike
    CustomerVerify it accepts a short code of any length. With a blank
    field nothing is sent and the page state is unchanged. *)
Theorem doVerify_request_shape
    (customerVerify : Api.CustomerVerifyRequest -> res Api.VerifyResponse)
    (st : CustomerApp.State) :
  let blank := negb (JS.truthy (JS.trim (CustomerApp.productId st)))
               || negb (JS.truthy (JS.trim (CustomerApp.shortCode st))) in
  let req := {| Api.product_id := JS.trim (CustomerApp.productId st);
                Api.short_code := JS.trim (CustomerApp.shortCode st) |} in
  (blank = true -> CustomerApp.doVerify customerVerify st = (st, []))
  /\ (blank = false ->
      snd (CustomerApp.doVerify customerVerify st) = [req]
      /\ Api.product_id req <> "" /\ Api.short_code req <> ""
      /\ JS.trim (Api.product_id req) = Api.product_id req
      /\ JS.trim (Api.short_code req) = Api.short_code req).
Proof.
  intros blank req. unfold CustomerApp.doVerify. fold blank. split; intros Hb; rewrite Hb.
  - reflexivity.
  - fold req. split; [destruct (customerVerify req); reflexivity|].
    unfold blank in Hb. apply orb_false_iff in Hb as [H1 H2].
    apply negb_false_iff in H1, H2. cbn [Api.product_id Api.short_code req].
    repeat split; auto using trim_idem.
    + intros E. rewrite E in H1. discriminate.
    + intros E. rewrite E in H2. discriminate.
Qed.

Lemma doVerify_request_shape_witness :
  snd (CustomerApp.doVerify (fun _ => Throw (LibError "offline"))
         {| CustomerApp.productId := " 0x01 "; CustomerApp.shortCode := "AB";
            CustomerApp.result := None; CustomerApp.busy := false;
            CustomerApp.errorMsg := None |})
  = [ {| Api.product_id := "0x01"; Api.short_code := "AB" |} ].
Proof.
  exact (proj1 (proj2 (doVerify_request_shape (fun _ => Throw (LibError "offline"))
                         {| CustomerApp.productId := " 0x01 "; CustomerApp.shortCode := "AB";
                            CustomerApp.result := None; CustomerApp.busy := false;
                            CustomerApp.errorMsg := None |}) eq_refl)).
Defined.

(** ** The JSON fetch helper *)

(** X19. Both variants of [fetchJSON] return data only from a response that is
    ok: the data is that response's JSON body. *)
Theorem fetchJSON_data_only_when_ok
    {A : Type} (ADMIN_TOKEN : string)
    (fetch : string -> Fetch.RequestInit -> res (Fetch.Response A))
    (url : string) (init : option Fetch.RequestInit) (x : A) :
  (Fetch.V1.fetchJSON fetch url init = Ret x ->
   exists r, fetch url (Fetch.V1.request init) = Ret r
             /\ Fetch.ok r = true /\ Fetch.json r = Ret x)
  /\ (Fetch.V2.fetchJSON ADMIN_TOKEN fetch url init = Ret x ->
      exists r o, fetch url (Fetch.V2.request ADMIN_TOKEN url o) = Ret r
                  /\ Fetch.ok r = true /\ Fetch.json r = Ret x).
Proof.
  assert (Hans : forall r : Fetch.Response A,
             Fetch.answer r = Ret x -> Fetch.ok r = true /\ Fetch.json r = Ret x).
  { intros r. unfold Fetch.answer, bind. destruct (Fetch.ok r); cbn [negb]; [auto|].
    destruct (Fetch.text r); discriminate. }
  split.
  - unfold Fetch.V1.fetchJSON, bind. destruct (fetch url _) as [r|] eqn:E; [|discriminate].
    intros H%Hans. eauto.
  - unfold Fetch.V2.fetchJSON, bind. destruct (fetch url _) as [r|] eqn:E; [|discriminate].
    intros H%Hans. eauto.
Qed.

Lemma fetchJSON_data_only_when_ok_witness :
  exists r, (fun (_ : string) (_ : Fetch.RequestInit) =>
               Ret {| Fetch.ok := true; Fetch.status := 200; Fetch.text := Ret "";
                      Fetch.json := Ret 7%nat |}) "u" (Fetch.V1.request None) = Ret r
            /\ Fetch.ok r = true /\ Fetch.json r = Ret 7%nat.
Proof.
  exact (proj1 (fetchJSON_data_only_when_ok ""
                  (fun _ _ => Ret {| Fetch.ok := true; Fetch.status := 200;
                                     Fetch.text := Ret ""; Fetch.json := Ret 7%nat |})
                  "u" None 7%nat) eq_refl).
Defined.

Lemma merged_content_type (given : gmap string string) :
  Fetch.spread Fetch.defaults given !! "Content-Type"
  = Some (default "application/json" (given !! "Content-Type")).
Proof.
  unfold Fetch.spread, Fetch.defaults. rewrite lookup_union.
  destruct (given !! "Content-Type") eqn:E.
  - now rewrite union_Some_l.
  - rewrite lookup_singleton_eq. reflexivity.
Qed.

Lemma merged_other (given : gmap string string) k :
  k <> "Content-Type" -> Fetch.spread Fetch.defaults given !! k = given !! k.
Proof.
  intros Hk. unfold Fetch.spread, Fetch.defaults.
  rewrite lookup_union, lookup_singleton_ne by congruence.
  now destruct (given !! k).
Qed.

(** X20. The headers src/api.ts sends. Content-Type is always present: the
    caller's when given, [application/json] otherwise. X-Admin-Token is the
    configured token, overriding the caller's, exactly on urls containing
    [/verify/], [/codes] or [/debug] when a token is configured, and the
    caller's own otherwise. Every other header is the caller's. *)
Theorem fetchJSON_headers
    (ADMIN_TOKEN url : string) (options : Fetch.RequestInit) :
  let given := default ∅ (Fetch.headers options) in
  let sent := Fetch.V2.headersFor ADMIN_TOKEN url options in
  sent !! "Content-Type" = Some (default "application/json" (given !! "Content-Type"))
  /\ sent !! "X-Admin-Token"
     = (if Fetch.V2.protected url && JS.truthy ADMIN_TOKEN then Some ADMIN_TOKEN
        else given !! "X-Admin-Token")
  /\ (forall k, k <> "Content-Type" -> k <> "X-Admin-Token" -> sent !! k = given !! k).
Proof.
  intros given sent. unfold sent, Fetch.V2.headersFor. fold given.
  destruct (Fetch.V2.protected url && JS.truthy ADMIN_TOKEN).
  - split; [|split].
    + rewrite lookup_insert_ne by discriminate. apply merged_content_type.
    + apply lookup_insert_eq.
    + intros k Hk1 Hk2. rewrite lookup_insert_ne by congruence. now apply merged_other.
  - split; [apply merged_content_type|]. split; [apply merged_other; discriminate|].
    intros k Hk1 _. now apply merged_other.
Qed.

(** X21. frontend/src/api.ts puts [...init] after its merged headers, so headers
    given by the caller are sent as given: the request carries a
    Content-Type only when the caller's headers have one, or when the
    caller gave no headers at all and the default applies. *)
Theorem fetchJSON_v1_content_type (init : option Fetch.RequestInit) :
  Fetch.headers (Fetch.V1.request init) ≫= (.!! "Content-Type")
  = match init ≫= Fetch.headers with
    | Some given => given !! "Content-Type"
    | None => Some "application/json"
    end.
Proof.
  pose proof (merged_content_type ∅) as Hd. rewrite lookup_empty in Hd.
  unfold Fetch.V1.request, Fetch.headersOf. destruct init as [i|]; cbn.
  - destruct (Fetch.headers i) as [h|]; cbn; [reflexivity | exact Hd].
  - exact Hd.
Qed.

(** X22. An HTTP error answer to the verify panel's request, made through
    src/api.ts, is shown as a FAKE verdict with the panel's own reason, and
    the debug line reads [HTTP_<status>: <body text>]. *)
Theorem go_http_error
    (ADMIN_TOKEN : string)
    (fetch : string -> Fetch.RequestInit -> res (Fetch.Response Api.VerifyResponse))
    (urlOf : string -> string) (st : VerifyPanel.State)
    (r : Fetch.Response Api.VerifyResponse) (body : string) :
  JS.truthy (JS.trim (VerifyPanel.pid st)) = true ->
  (forall o, fetch (urlOf (JS.trim (VerifyPanel.pid st))) o = Ret r) ->
  Fetch.ok r = false -> Fetch.text r = Ret body ->
  let st' := VerifyPanel.go
               (fun id => Fetch.V2.fetchJSON ADMIN_TOKEN fetch (urlOf id) None) st in
  VerifyPanel.errorMsg st'
  = Some ("HTTP_" +:+ JS.toString (JS.Int (Fetch.status r)) +:+ ": " +:+ body)
  /\ VerifyPanel.out st' = Some VerifyPanel.fakeResponse.
Proof.
  intros Hpid Hfetch Hok Htext st'. unfold st', VerifyPanel.go. rewrite Hpid. cbn [negb].
  unfold Fetch.V2.fetchJSON, bind. rewrite Hfetch.
  unfold Fetch.answer, bind. rewrite Hok, Htext. cbn [negb].
  cbn [VerifyPanel.errorMsg VerifyPanel.out]. split; reflexivity.
Qed.

Lemma go_http_error_witness :
  VerifyPanel.errorMsg
    (VerifyPanel.go
       (fun id => Fetch.V2.fetchJSON "secret"
                    (fun _ _ => Ret {| Fetch.ok := false; Fetch.status := 500;
                                       Fetch.text := Ret "boom";
                                       Fetch.json := Throw (LibError "not json") |})
                    ("http://127.0.0.1:4000/verify/" +:+ id) None)
       {| VerifyPanel.pid := "0x01"; VerifyPanel.out := None; VerifyPanel.history := [];
          VerifyPanel.busy := false; VerifyPanel.errorMsg := None |})
  = Some "HTTP_500: boom".
Proof.
  exact (proj1 (go_http_error "secret"
                  (fun _ _ => Ret {| Fetch.ok := false; Fetch.status := 500;
                                     Fetch.text := Ret "boom";
                                     Fetch.json := Throw (LibError "not json") |})
                  (fun id => "http://127.0.0.1:4000/verify/" +:+ id)
                  {| VerifyPanel.pid := "0x01"; VerifyPanel.out := None;
                     VerifyPanel.history := []; VerifyPanel.busy := false;
                     VerifyPanel.errorMsg := None |}
                  _ "boom" eq_refl (fun _ => eq_refl) eq_refl eq_refl)).
Defined.

(** ** The wallet button *)

Lemma step_sync p e :
  ConnectButton.parentAccount p = ConnectButton.account (ConnectButton.button p) ->
  ConnectButton.connecting (ConnectButton.button p) = false ->
  ConnectButton.parentAccount (ConnectButton.step p e)
  = ConnectButton.account (ConnectButton.button (ConnectButton.step p e))
  /\ ConnectButton.connecting (ConnectButton.button (ConnectButton.step p e)) = false.
Proof.
  intros Hs Hc. destruct e as [eth|eth| |accs|v]; cbn [ConnectButton.step].
  - unfold ConnectButton.mount; cbn. auto.
  - unfold ConnectButton.connect. destruct eth as [eth|]; [|cbn; auto].
    destruct (ConnectButton.request eth) as [[[|addr l]|]|err]; cbn; auto.
  - unfold ConnectButton.disconnect; cbn. auto.
  - destruct (ConnectButton.listening p); [|auto].
    unfold ConnectButton.accountsChanged. destruct accs as [[|next l]|]; cbn; auto.
  - unfold ConnectButton.setShowPopup; cbn. auto.
Qed.

Lemma fold_sync es : forall p,
  ConnectButton.parentAccount p = ConnectButton.account (ConnectButton.button p) ->
  ConnectButton.connecting (ConnectButton.button p) = false ->
  ConnectButton.parentAccount (fold_left ConnectButton.step es p)
  = ConnectButton.account (ConnectButton.button (fold_left ConnectButton.step es p))
  /\ ConnectButton.connecting
       (ConnectButton.button (fold_left ConnectButton.step es p)) = false.
Proof.
  induction es as [|e es IH]; intros p Hs Hc; [auto|].
  cbn [fold_left]. destruct (step_sync p e Hs Hc) as [Hs' Hc']. now apply IH.
Qed.

(** X23. Through every sequence of mounts, connection attempts (accepted,
    refused, failed or without a wallet), disconnects, wallet account
    changes and popup toggles, the account AdminApp holds is the account
    the button holds, and the button is never left in its "connecting"
    state. *)
Theorem wallet_account_in_sync (es : list ConnectButton.Event) :
  let p := ConnectButton.run es in
  ConnectButton.parentAccount p = ConnectButton.account (ConnectButton.button p)
  /\ ConnectButton.connecting (ConnectButton.button p) = false.
Proof. unfold ConnectButton.run. apply fold_sync; reflexivity. Qed.

Lemma step_no_account p e :
  ConnectButton.account (ConnectButton.button p) = "" ->
  ConnectButton.listening p = false ->
  match e with
  | ConnectButton.Connect (Some eth) =>
      match ConnectButton.request eth with
      | Ret (Some (_ :: _)) => False
      | _ => True
      end
  | _ => True
  end ->
  ConnectButton.account (ConnectButton.button (ConnectButton.step p e)) = ""
  /\ ConnectButton.listening (ConnectButton.step p e) = false.
Proof.
  intros Ha Hl He. destruct e as [eth|eth| |accs|v]; cbn [ConnectButton.step].
  - unfold ConnectButton.mount; cbn. auto.
  - unfold ConnectButton.connect. destruct eth as [eth|]; [|cbn; auto].
    destruct (ConnectButton.request eth) as [[[|addr l]|]|err]; cbn; auto.
    contradiction.
  - unfold ConnectButton.disconnect; cbn. auto.
  - rewrite Hl. auto.
  - unfold ConnectButton.setShowPopup; cbn. auto.
Qed.

(** X24. The wallet's [accountsChanged] events reach the page only after a
    connection attempt has returned an account from the wallet: as long as
    no attempt has, the page holds no account, has no listener installed
    and shows no popup, whatever else happens. *)
Theorem no_account_before_connect (es : list ConnectButton.Event) :
  Forall (fun e => match e with
                   | ConnectButton.Connect (Some eth) =>
                       match ConnectButton.request eth with
                       | Ret (Some (_ :: _)) => False
                       | _ => True
                       end
                   | _ => True
                   end) es ->
  let p := ConnectButton.run es in
  ConnectButton.account (ConnectButton.button p) = ""
  /\ ConnectButton.listening p = false
  /\ ConnectButton.popupVisible p = false.
Proof.
  unfold ConnectButton.run. intros Hall.
  assert (H : ConnectButton.account
                (ConnectButton.button (fold_left ConnectButton.step es ConnectButton.initial)) = ""
              /\ ConnectButton.listening (fold_left ConnectButton.step es ConnectButton.initial)
                 = false).
  { assert (Ha : ConnectButton.account (ConnectButton.button ConnectButton.initial) = "")
      by reflexivity.
    assert (Hl : ConnectButton.listening ConnectButton.initial = false) by reflexivity.
    revert Ha Hl. generalize ConnectButton.initial as p.
    induction Hall as [|e es He Hrest IH]; intros p Ha Hl; [auto|].
    cbn [fold_left]. destruct (step_no_account p e Ha Hl He) as [Ha' Hl']. now apply IH. }
  destruct H as [Ha Hl]. split; [exact Ha|]. split; [exact Hl|].
  unfold ConnectButton.popupVisible. rewrite Ha. apply andb_false_r.
Qed.

Lemma no_account_before_connect_witness :
  ConnectButton.account
    (ConnectButton.button
       (ConnectButton.run
          [ ConnectButton.Mount None; ConnectButton.Connect None;
            ConnectButton.AccountsChanged (Some [Sample.wallet]);
            ConnectButton.Connect
              (Some {| ConnectButton.request := Throw (Error "User rejected the request.");
                       ConnectButton.hasOn := true |});
            ConnectButton.SetShowPopup true ]))
  = "".
Proof.
  refine (proj1 (no_account_before_connect _ _)).
  repeat constructor.
Defined.

(** X25. While the button holds no account, AdminApp passes the register panel
    of frontend/src/RegisterPanel.tsx an empty account, and that panel's
    [register] only asks to connect the wallet: nothing is sent. *)
Theorem register_needs_connected_wallet
    (es : list ConnectButton.Event) (form : Form.t) (env : RegisterPanel.Env) :
  ConnectButton.account (ConnectButton.button (ConnectButton.run es)) = "" ->
  RegisterPanel.register (ConnectButton.parentAccount (ConnectButton.run es)) form env
  = {| Run.sent := []; Run.posted := [];
       Run.final := Run.Alerted "Connect MetaMask first" |}.
Proof.
  intros Ha. unfold ConnectButton.run in *.
  destruct (fold_sync es ConnectButton.initial eq_refl eq_refl) as [Hs _].
  rewrite Hs, Ha. reflexivity.
Qed.

Lemma register_needs_connected_wallet_witness :
  RegisterPanel.register
    (ConnectButton.parentAccount
       (ConnectButton.run
          [ ConnectButton.Connect
              (Some {| ConnectButton.request := Ret (Some [Sample.wallet]);
                       ConnectButton.hasOn := true |});
            ConnectButton.AccountsChanged (Some []) ]))
    Sample.formA (Sample.panelEnv Sample.nov2023)
  = {| Run.sent := []; Run.posted := [];
       Run.final := Run.Alerted "Connect MetaMask first" |}.
Proof.
  apply (register_needs_connected_wallet
           [ ConnectButton.Connect
               (Some {| ConnectButton.request := Ret (Some [Sample.wallet]);
                        ConnectButton.hasOn := true |});
             ConnectButton.AccountsChanged (Some []) ]).
  reflexivity.
Defined.

Lemma sliceTo_app a b : ConnectButton.sliceTo (String.length a) (a +:+ b) = a.
Proof. induction a as [|c a IH]; simpl; [now destruct b | now rewrite IH]. Qed.

Lemma sliceFrom_app a b : ConnectButton.sliceFrom (String.length a) (a +:+ b) = b.
Proof. induction a as [|c a IH]; simpl; [now destruct b | exact IH]. Qed.

Lemma length_app_string a b :
  String.length (a +:+ b) = (String.length a + String.length b)%nat.
Proof. induction a as [|c a IH]; simpl; [reflexivity | now rewrite IH]. Qed.

Lemma string_app_assoc a b c : a +:+ b +:+ c = (a +:+ b) +:+ c.
Proof.
  induction a as [|x a IH]; [reflexivity|].
  change (String x (a +:+ b +:+ c) = String x ((a +:+ b) +:+ c)). now rewrite IH.
Qed.

Lemma sliceTo_length n : forall s,
  String.length (ConnectButton.sliceTo n s) = Nat.min n (String.length s).
Proof.
  induction n as [|n IH]; intros [|c s]; simpl; try reflexivity. now rewrite IH.
Qed.

Lemma sliceFrom_length n : forall s,
  String.length (ConnectButton.sliceFrom n s) = (String.length s - n)%nat.
Proof.
  induction n as [|n IH]; intros [|c s]; simpl; try reflexivity. now rewrite IH.
Qed.

Lemma sliceTo_sliceTo n : forall s t,
  (n <= String.length s)%nat ->
  ConnectButton.sliceTo n (ConnectButton.sliceTo n s +:+ t) = ConnectButton.sliceTo n s.
Proof.
  intros s t Hn.
  rewrite <- (sliceTo_app (ConnectButton.sliceTo n s) t) at 2.
  rewrite sliceTo_length. now rewrite Nat.min_l.
Qed.

(** X26. The account shown next to the button: an account of at most 10
    characters is shown whole; a longer one is shortened to exactly 13
    characters, its first 6, three dots and its last 4. *)
Theorem shortAccount_shape (account : string) :
  ((String.length account <= 10)%nat -> ConnectButton.shortAccount account = account)
  /\ ((10 < String.length account)%nat ->
      String.length (ConnectButton.shortAccount account) = 13%nat
      /\ ConnectButton.sliceTo 6 (ConnectButton.shortAccount account)
         = ConnectButton.sliceTo 6 account
      /\ ConnectButton.sliceLast 4 (ConnectButton.shortAccount account)
         = ConnectButton.sliceLast 4 account).
Proof.
  unfold ConnectButton.shortAccount. split; intros Hlen.
  - destruct (Nat.ltb_spec 10 (String.length account)); [lia|].
    now rewrite andb_false_r.
  - destruct (Nat.ltb_spec 10 (String.length account)); [|lia].
    assert (Ht : JS.truthy account = true) by (destruct account; [simpl in Hlen; lia | reflexivity]).
    rewrite Ht. cbn [andb].
    assert (H6 : String.length (ConnectButton.sliceTo 6 account) = 6%nat).
    { rewrite sliceTo_length. lia. }
    assert (H4 : String.length (ConnectButton.sliceLast 4 account) = 4%nat).
    { unfold ConnectButton.sliceLast. rewrite sliceFrom_length. lia. }
    split; [|split].
    + rewrite !length_app_string, H6, H4. reflexivity.
    + apply sliceTo_sliceTo. lia.
    + set (s6 := ConnectButton.sliceTo 6 account) in *.
      set (l4 := ConnectButton.sliceLast 4 account) in *.
      pose proof (string_app_assoc s6 "..." l4) as HX.
      unfold ConnectButton.sliceLast.
      replace (String.length (s6 +:+ "..." +:+ l4) - 4)%nat
        with (String.length (s6 +:+ "..."))
        by (rewrite !length_app_string, H6, H4; reflexivity).
      rewrite HX. apply sliceFrom_app.
Qed.

Lemma shortAccount_shape_witness :
  String.length (ConnectButton.shortAccount Sample.wallet) = 13%nat.
Proof.
  refine (proj1 (proj2 (shortAccount_shape Sample.wallet) _)).
  vm_compute. lia.
Defined.


(** ** Packing *)

Lemma be_bytes_length k : forall v, length (Web3.be_bytes k v) = k.
Proof.
  induction k as [|k IH]; intros v; [reflexivity|].
  unfold Web3.be_bytes; fold Web3.be_bytes. rewrite length_app, IH. simpl. lia.
Qed.

Lemma be_to_N_snoc bs b :
  Web3.be_to_N (bs ++ [b]) = (Web3.be_to_N bs * 256 + Byte.to_N b)%N.
Proof. unfold Web3.be_to_N. now rewrite fold_left_app. Qed.

Lemma be_to_N_be_bytes k : forall v,
  Web3.be_to_N (Web3.be_bytes k v) = (v mod 256 ^ N.of_nat k)%N.
Proof.
  induction k as [|k IH]; intros v.
  - cbn. now rewrite N.mod_1_r.
  - unfold Web3.be_bytes; fold Web3.be_bytes. rewrite be_to_N_snoc, IH.
    assert (Hb : Byte.to_N (default x00 (Byte.of_N (v mod 256))) = (v mod 256)%N).
    { destruct (Byte.of_N (v mod 256)) as [b|] eqn:E.
      - now apply Byte.to_of_N.
      - apply Byte.of_N_None_iff in E. pose proof (N.mod_upper_bound v 256). lia. }
    rewrite Hb, Nat2N.inj_succ, N.pow_succ_r'.
    rewrite (N.Div0.mod_mul_r v 256 (256 ^ N.of_nat k)). lia.
Qed.

Lemma list_byte_of_string_inj s t :
  list_byte_of_string s = list_byte_of_string t -> s = t.
Proof.
  intros H. rewrite <- (string_of_list_byte_of_string s), H.
  apply string_of_list_byte_of_string.
Qed.

Lemma be_bytes_inj a b :
  (a < 2 ^ 256)%N -> (b < 2 ^ 256)%N ->
  Web3.be_bytes 32 a = Web3.be_bytes 32 b -> a = b.
Proof.
  intros Ha Hb H. apply (f_equal Web3.be_to_N) in H.
  rewrite !be_to_N_be_bytes in H.
  change (256 ^ N.of_nat 32)%N with (2 ^ 256)%N in H.
  now rewrite !N.mod_small in H.
Qed.

(** X28. What the hashed bytes can tell apart. For attributes whose price and
    year fit 256 bits, two packed encodings are equal exactly when the
    concatenations of name, color and material are equal and the prices
    and the years are equal. *)
Theorem packed_encoding_determines (a b : ProductAttributes) :
  wellFormed a -> wellFormed b ->
  (encodePacked a = encodePacked b
   <-> name a +:+ color a +:+ material a = name b +:+ color b +:+ material b
       /\ price a = price b /\ year a = year b).
Proof.
  intros [Hpa Hya] [Hpb Hyb].
  assert (Hw : Z.to_N Web3.w256 = (2 ^ 256)%N) by reflexivity.
  rewrite !encodePacked_concat. split.
  - intros H. rewrite !app_assoc in H.
    apply app_inj_2 in H as [H Hy]; [|now rewrite !be_bytes_length].
    apply app_inj_2 in H as [Ht Hp]; [|now rewrite !be_bytes_length].
    apply list_byte_of_string_inj in Ht. apply be_bytes_inj in Hp; [|lia..].
    apply be_bytes_inj in Hy; [|lia..]. repeat split; [exact Ht|lia|lia].
  - intros (-> & -> & ->). reflexivity.
Qed.

Lemma packed_encoding_determines_witness :
  encodePacked Sample.bagA
  = encodePacked {| name := "Bag ABl"; color := "ack"; material := "Togo Leather";
                    price := 1000; year := 2024 |}.
Proof.
  refine (proj2 (packed_encoding_determines Sample.bagA
                   {| name := "Bag ABl"; color := "ack"; material := "Togo Leather";
                      price := 1000; year := 2024 |} _ _) _).
  - unfold wellFormed, Web3.w256; cbn; lia.
  - unfold wellFormed, Web3.w256; cbn; lia.
  - repeat split.
Defined.

(** ** Registration end to end *)

(** X29. Applying the transactions of a completed registration to the contract,
    in whatever state it is, and reading the reported product id back
    returns the registered attributes: at the admin panel the trimmed
    texts and parsed numbers, at the other panel the form's texts and
    numbers. *)
Theorem register_then_read (st : FakeProdDetector.State) (id : Web3.bytes32) :
  (forall busy account form env,
     Run.registeredId (AdminRegisterPanel.register busy account form env) = Some id ->
     exists a,
       AdminRegisterPanel.attributes (AdminRegisterPanel.prepare form env) = Some a
       /\ FakeProdDetector.getProduct id
            (FakeProdDetector.run st
               (Run.calls (AdminRegisterPanel.register busy account form env)))
          = recordOf a)
  /\ (forall account form env,
        Run.registeredId (RegisterPanel.register account form env) = Some id ->
        exists a,
          RegisterPanel.attributes form = Some a
          /\ FakeProdDetector.getProduct id
               (FakeProdDetector.run st (Run.calls (RegisterPanel.register account form env)))
             = recordOf a).
Proof.
  split.
  - intros * (a & Ha & _ & _ & Hcalls)%admin_registered.
    exists a. split; [exact Ha|]. rewrite Hcalls. cbn [FakeProdDetector.run fold_left].
    unfold FakeProdDetector.apply, uploadOf; cbn [FakeProdDetector.arg_id
      FakeProdDetector.arg_product FakeProdDetector.name FakeProdDetector.color
      FakeProdDetector.material FakeProdDetector.price FakeProdDetector.year].
    apply getProduct_upload_same.
  - intros * (a & Ha & _ & _ & Hcalls)%panel_registered.
    exists a. split; [exact Ha|]. rewrite Hcalls. cbn [FakeProdDetector.run fold_left].
    unfold FakeProdDetector.apply, uploadOf; cbn [FakeProdDetector.arg_id
      FakeProdDetector.arg_product FakeProdDetector.name FakeProdDetector.color
      FakeProdDetector.material FakeProdDetector.price FakeProdDetector.year].
    apply getProduct_upload_same.
Qed.

Lemma register_then_read_witness :
  exists a,
    AdminRegisterPanel.attributes
      (AdminRegisterPanel.prepare Sample.formA (Sample.adminEnv 2024 [Sample.wallet]))
    = Some a
    /\ FakeProdDetector.getProduct (fingerprintOf Sample.bagA)
         (FakeProdDetector.run FakeProdDetector.deployed
            (Run.calls (AdminRegisterPanel.register false "" Sample.formA
                          (Sample.adminEnv 2024 [Sample.wallet]))))
       = recordOf a.
Proof.
  refine (proj1 (register_then_read FakeProdDetector.deployed (fingerprintOf Sample.bagA))
            false "" Sample.formA (Sample.adminEnv 2024 [Sample.wallet]) _).
  vm_compute. reflexivity.
Defined.

(** X30. A year text that is not a number, or a negative one, stops the admin
    panel's registration before anything leaves the browser: no product id
    is reported, no transaction is sent and nothing is posted. *)
Theorem admin_bad_year_sends_nothing
    (busy : bool) (account : string) (form : Form.t) (env : AdminRegisterPanel.Env) :
  JS.truthy (Form.year form) = true ->
  (JS.parseInt (Form.year form) = JS.NaN
   \/ exists y, JS.parseInt (Form.year form) = JS.Int y /\ (y < 0)%Z) ->
  let r := AdminRegisterPanel.register busy account form env in
  Run.registeredId r = None /\ Run.sent r = [] /\ Run.posted r = [].
Proof.
  intros Ht Hbad r.
  assert (Hno : forall o, AdminRegisterPanel.productId (AdminRegisterPanel.prepare form env)
                          <> Ret o).
  { intros o (a & Ha & [_ Hy] & _)%admin_productId_inv.
    unfold AdminRegisterPanel.attributes, AdminRegisterPanel.prepare in Ha.
    cbn [AdminRegisterPanel.f_price AdminRegisterPanel.f_year] in Ha. rewrite Ht in Ha.
    destruct (if JS.truthy _ then _ else _); [discriminate|].
    destruct Hbad as [E|(y & E & Hneg)]; rewrite E in Ha; [discriminate|].
    apply (f_equal (fun o => match o with Some x => year x | None => year a end)) in Ha.
    cbn [year] in Ha. lia. }
  unfold r, AdminRegisterPanel.register, Run.registeredId.
  destruct busy; [repeat split|].
  destruct (AdminRegisterPanel.ethereum env); [|repeat split]. cbn [negb].
  destruct (AdminRegisterPanel.requestAccounts env); [|repeat split].
  destruct (AdminRegisterPanel.getAccounts env) as [accounts|]; [|repeat split].
  destruct (JS.truthy (JS.or_else account (hd "" accounts))); [|repeat split]. cbn [negb].
  destruct (JS.truthy (AdminRegisterPanel.f_name _)); [|repeat split]. cbn [negb].
  destruct (AdminRegisterPanel.productId _) as [o|] eqn:Hid; [|repeat split].
  exfalso. exact (Hno o eq_refl).
Qed.

Lemma admin_bad_year_sends_nothing_witness :
  Run.sent
    (AdminRegisterPanel.register false ""
       {| Form.name := "Bag A"; Form.price := "1000"; Form.color := "Black";
          Form.material := "Togo Leather"; Form.year := "-5" |}
       (Sample.adminEnv 2024 [Sample.wallet]))
  = [].
Proof.
  refine (proj1 (proj2 (admin_bad_year_sends_nothing false ""
            {| Form.name := "Bag A"; Form.price := "1000"; Form.color := "Black";
               Form.material := "Togo Leather"; Form.year := "-5" |}
            (Sample.adminEnv 2024 [Sample.wallet]) eq_refl _))).
  right. exists (-5)%Z. split; [reflexivity | lia].
Defined.
